(** * Merak checkpointing: a shallow embedding of [Merak/utils/checkpoint.py]

    The development follows the Python module top to bottom: the text
    primitives the module relies on ([str], [int], [str.strip],
    [str.format] with a zero-padded width, [os.path.join]), the
    process-wide checkpoint version, the checkpoint namer, the tracker file
    and its cross-rank reconciliation, and the save / load coordinators. *)

From Stdlib Require Import ZArith QArith Ascii String List Lia Bool.
From stdpp Require Import base option gmap strings list.

Local Open Scope Z_scope.

(** ** Python text primitives *)

Module PyText.

(** The decimal digit of [d], for [0 <= d < 10]. *)
Definition digit_char (d : Z) : ascii :=
  ascii_of_N (48 + Z.to_N d).

Definition digit_val (c : ascii) : option Z :=
  let n := Z.of_N (N_of_ascii c) in
  if (48 <=? n) && (n <=? 57) then Some (n - 48) else None.

Definition is_digit (c : ascii) : bool :=
  match digit_val c with Some _ => true | None => false end.

(** Decimal digits of a non-negative integer, most significant first.
    [fuel] bounds the number of digits. *)
Fixpoint digits_fuel (fuel : nat) (n : Z) : string :=
  match fuel with
  | O => ""
  | S f =>
      (if n / 10 =? 0 then "" else digits_fuel f (n / 10))
        +:+ String (digit_char (n mod 10)) ""
  end.

Definition decimal (n : Z) : string :=
  digits_fuel (S (Z.to_nat (Z.log2 n))) n.

(** [str(n)] for a Python [int]. *)
Definition str (n : Z) : string :=
  if n <? 0 then "-" +:+ decimal (- n) else decimal n.

(** Characters removed by [str.strip()]: the ASCII part of
    [str.isspace].  Python also strips the white space beyond ASCII
    (U+0085, U+00A0, ...); [strip] and [int] are the Python functions on
    text made of ASCII characters. *)
Definition is_space (c : ascii) : bool :=
  let n := Z.of_N (N_of_ascii c) in
  ((9 <=? n) && (n <=? 13)) || ((28 <=? n) && (n <=? 32)).

Fixpoint lstrip (s : string) : string :=
  match s with
  | "" => ""
  | String c r => if is_space c then lstrip r else s
  end.

Fixpoint rstrip (s : string) : string :=
  match s with
  | "" => ""
  | String c r =>
      match rstrip r with
      | "" => if is_space c then "" else String c ""
      | r' => String c r'
      end
  end.

Definition strip (s : string) : string := rstrip (lstrip s).

(** The digit part of an integer literal accepted by [int(s)]: decimal
    digits, with single underscores allowed between two digits.
    [after_digit] tells whether the previous character was a digit. *)
Fixpoint int_digits (acc : Z) (after_digit : bool) (s : string) : option Z :=
  match s with
  | "" => if after_digit then Some acc else None
  | String c r =>
      match digit_val c with
      | Some d => int_digits (10 * acc + d) true r
      | None =>
          if Ascii.eqb c "_" && after_digit
          then int_digits acc false r
          else None
      end
  end.

(** [int(s)] for a text [s] of ASCII characters: [None] stands for
    [ValueError].  Python also accepts the decimal digits beyond ASCII
    (fullwidth digits, ...), which no [str] of an integer contains. *)
Definition int (s : string) : option Z :=
  match strip s with
  | String "-" r => Z.opp <$> int_digits 0 false r
  | String "+" r => int_digits 0 false r
  | r => int_digits 0 false r
  end.

Fixpoint zeros (k : nat) : string :=
  match k with O => "" | S k' => String "0" (zeros k') end.

(** ['{:0Wd}'.format(n)]: sign-aware zero padding to a total width of
    [width] characters; longer numbers are not truncated. *)
Definition format_0d (width : nat) (n : Z) : string :=
  let body := decimal (Z.abs n) in
  let sign := if n <? 0 then "-" else "" in
  sign +:+ zeros (width - String.length sign - String.length body) +:+ body.

Definition startswith_sep (s : string) : bool :=
  match s with String "/" _ => true | _ => false end.

Fixpoint endswith_sep (s : string) : bool :=
  match s with
  | "" => false
  | String c "" => Ascii.eqb c "/"
  | String _ r => endswith_sep r
  end.

(** One iteration of the loop of [posixpath.join]. *)
Definition join_step (path b : string) : string :=
  if startswith_sep b then b
  else if String.eqb path "" || endswith_sep path then path +:+ b
  else path +:+ "/" +:+ b.

(** [os.path.join(a, *p)]. *)
Definition os_path_join (a : string) (p : list string) : string :=
  fold_left join_step p a.

End PyText.

Import PyText.

(** ** Python values *)

(** Run configuration ([args]).  The attributes the module reads by name
    are fields; every other attribute of the namespace (model shape
    parameters, consumed-sample counters, ...) is integer valued and kept
    in [extra]. *)
Record args := {
  output_dir : string;
  resume_from_checkpoint : string;
  no_save_optim : bool;
  no_save_rng : bool;
  finetune : bool;
  no_load_optim : bool;
  no_load_rng : bool;
  extra : gmap string Z
}.

(** Values that occur in checkpoint blobs.  [PyFloat] holds a finite float
    as the rational it denotes.  [PyState] is an opaque serializable state
    (a module, optimizer or scheduler [state_dict], one RNG state);
    [PyStates] is a mapping from names to such states (the RNG tracker's
    states). *)
Inductive pyval :=
| PyNone
| PyBool (b : bool)
| PyInt (z : Z)
| PyFloat (q : Q)
| PyStr (s : string)
| PyState (id : N)
| PyStates (m : gmap string N)
| PyArgs (a : args).

(** The on-disk blob: the [state_dict] handed to [torch.save]. *)
Abbreviation blob := (gmap string pyval).

Definition as_number (v : pyval) : option Q :=
  match v with
  | PyBool b => Some (inject_Z (Z.b2z b))
  | PyInt z => Some (inject_Z z)
  | PyFloat q => Some q
  | _ => None
  end.

Definition args_eqb (a b : args) : bool :=
  String.eqb (output_dir a) (output_dir b)
  && String.eqb (resume_from_checkpoint a) (resume_from_checkpoint b)
  && Bool.eqb (no_save_optim a) (no_save_optim b)
  && Bool.eqb (no_save_rng a) (no_save_rng b)
  && Bool.eqb (finetune a) (finetune b)
  && Bool.eqb (no_load_optim a) (no_load_optim b)
  && Bool.eqb (no_load_rng a) (no_load_rng b)
  && bool_decide (extra a = extra b).

(** Python [==]: numbers compare by value across [bool], [int] and
    [float]; everything else compares within its own type. *)
Definition py_eq (a b : pyval) : bool :=
  match as_number a, as_number b with
  | Some x, Some y => Qeq_bool x y
  | None, None =>
      match a, b with
      | PyNone, PyNone => true
      | PyStr s, PyStr t => String.eqb s t
      | PyState i, PyState j => N.eqb i j
      | PyStates m, PyStates n => bool_decide (m = n)
      | PyArgs x, PyArgs y => args_eqb x y
      | _, _ => false
      end
  | _, _ => false
  end.

(** Truth value, as tested by [if not x]. *)
Definition py_truthy (v : pyval) : bool :=
  match v with
  | PyNone => false
  | PyBool b => b
  | PyInt z => negb (z =? 0)
  | PyFloat q => negb (Qeq_bool q 0)
  | PyStr s => negb (String.eqb s "")
  | PyState _ => true
  | PyStates m => negb (bool_decide (m = ∅))
  | PyArgs _ => true
  end.

(** [getattr(a, name)]; [None] stands for [AttributeError]. *)
Definition getattr (a : args) (name : string) : option pyval :=
  if String.eqb name "output_dir" then Some (PyStr (output_dir a))
  else if String.eqb name "resume_from_checkpoint"
       then Some (PyStr (resume_from_checkpoint a))
  else if String.eqb name "no_save_optim" then Some (PyBool (no_save_optim a))
  else if String.eqb name "no_save_rng" then Some (PyBool (no_save_rng a))
  else if String.eqb name "finetune" then Some (PyBool (finetune a))
  else if String.eqb name "no_load_optim" then Some (PyBool (no_load_optim a))
  else if String.eqb name "no_load_rng" then Some (PyBool (no_load_rng a))
  else PyInt <$> extra a !! name.

(** [getattr(v, name, 0)] for a counter attribute of a stored snapshot. *)
Definition getattr_counter (v : pyval) (name : string) : Z :=
  match v with
  | PyArgs a => default 0 (extra a !! name)
  | _ => 0
  end.

Definition set_extra (name : string) (z : Z) (a : args) : args :=
  {| output_dir := output_dir a;
     resume_from_checkpoint := resume_from_checkpoint a;
     no_save_optim := no_save_optim a; no_save_rng := no_save_rng a;
     finetune := finetune a; no_load_optim := no_load_optim a;
     no_load_rng := no_load_rng a;
     extra := <[name := z]> (extra a) |}.

(** ** The process: state, exceptions and the program monad *)

(** Modelled from the spec: the parallel-topology resolver ([mpu]) is an
    external collaborator that "exposes this rank's coordinates and the
    sizes of each parallel dimension"; each field is the value returned by
    the getter of the same name. *)
Record mpu := {
  pipe_parallel_world_size : Z;
  tensor_model_parallel_rank : Z;
  model_parallel_rank : Z;
  pipe_parallel_rank : Z;
  data_parallel_rank : Z
}.

(** An initialized [torch.distributed] process group, seen from one rank:
    the rank of this process and the values the other ranks contribute to
    the [all_reduce] of [read_metadata]. *)
Record process_group := {
  group_rank : Z;
  peer_iterations : list Z
}.

(** The objects handed to [save_checkpoint] / [load_checkpoint] by
    reference, each given by the state its [state_dict()] returns.
    [None] is a Python [None] argument. *)
Record trainer := {
  model : pyval;
  optimizer : option pyval;
  lr_scheduler : option pyval
}.

(** The five RNG sources, each given by the state its getter returns. *)
Record generators := {
  random_rng_state : pyval;
  np_rng_state : pyval;
  torch_rng_state : pyval;
  cuda_rng_state : pyval;
  rng_tracker_states : pyval
}.

(** One rank's process.  The file store is flat: a path names a text file
    in [files] or a [torch.save] file in [checkpoints]; directories are
    not represented, so [ensure_directory_exists] has nothing to record
    and a write to a path always succeeds. *)
Record world := {
  topology : mpu;
  distributed : option process_group;
  files : gmap string string;
  checkpoints : gmap string blob;
  _CHECKPOINT_VERSION : pyval;
  stdout : list string;
  run_args : args;
  objects : trainer;
  rng : generators
}.

Definition set_files (f : gmap string string) (w : world) : world :=
  {| topology := topology w; distributed := distributed w; files := f;
     checkpoints := checkpoints w;
     _CHECKPOINT_VERSION := _CHECKPOINT_VERSION w; stdout := stdout w;
     run_args := run_args w; objects := objects w; rng := rng w |}.

Definition set_checkpoints (c : gmap string blob) (w : world) : world :=
  {| topology := topology w; distributed := distributed w; files := files w;
     checkpoints := c;
     _CHECKPOINT_VERSION := _CHECKPOINT_VERSION w; stdout := stdout w;
     run_args := run_args w; objects := objects w; rng := rng w |}.

Definition set_version (v : pyval) (w : world) : world :=
  {| topology := topology w; distributed := distributed w; files := files w;
     checkpoints := checkpoints w;
     _CHECKPOINT_VERSION := v; stdout := stdout w;
     run_args := run_args w; objects := objects w; rng := rng w |}.

Definition set_stdout (o : list string) (w : world) : world :=
  {| topology := topology w; distributed := distributed w; files := files w;
     checkpoints := checkpoints w;
     _CHECKPOINT_VERSION := _CHECKPOINT_VERSION w; stdout := o;
     run_args := run_args w; objects := objects w; rng := rng w |}.

Definition set_run_args (a : args) (w : world) : world :=
  {| topology := topology w; distributed := distributed w; files := files w;
     checkpoints := checkpoints w;
     _CHECKPOINT_VERSION := _CHECKPOINT_VERSION w; stdout := stdout w;
     run_args := a; objects := objects w; rng := rng w |}.

Definition set_objects (t : trainer) (w : world) : world :=
  {| topology := topology w; distributed := distributed w; files := files w;
     checkpoints := checkpoints w;
     _CHECKPOINT_VERSION := _CHECKPOINT_VERSION w; stdout := stdout w;
     run_args := run_args w; objects := t; rng := rng w |}.

Definition set_rng (g : generators) (w : world) : world :=
  {| topology := topology w; distributed := distributed w; files := files w;
     checkpoints := checkpoints w;
     _CHECKPOINT_VERSION := _CHECKPOINT_VERSION w; stdout := stdout w;
     run_args := run_args w; objects := objects w; rng := g |}.


Inductive exn :=
| SystemExit
| AssertionError (msg : string)
| KeyError (key : string)
| AttributeError (name : string)
| FileNotFoundError (path : string)
| RuntimeError (msg : string).

(** A call either returns a value or raises; both leave a process state
    behind (what was printed before [sys.exit()] is still printed). *)
Inductive outcome (A : Type) :=
| Return (a : A) (w : world)
| Raise (e : exn) (w : world).
Arguments Return {A} a w.
Arguments Raise {A} e w.

Definition M (A : Type) : Type := world -> outcome A.

#[global] Instance M_ret : MRet M := fun A a w => Return a w.
#[global] Instance M_bind : MBind M := fun A B f m w =>
  match m w with
  | Return a w' => f a w'
  | Raise e w' => Raise e w'
  end.

Definition gets {A} (f : world -> A) : M A := fun w => Return (f w) w.
Definition modify (f : world -> world) : M unit := fun w => Return tt (f w).
Definition raise {A} (e : exn) : M A := fun w => Raise e w.

(** [sys.exit()]. *)
Definition sys_exit {A} : M A := raise SystemExit.

(** [assert cond, msg]. *)
Definition py_assert (cond : bool) (msg : string) : M unit :=
  if cond then mret tt else raise (AssertionError msg).

(** [try: body / except KeyError: handler]. *)
Definition except_KeyError {A} (body handler : M A) : M A := fun w =>
  match body w with
  | Raise (KeyError _) w' => handler w'
  | r => r
  end.

(** [d[key]]. *)
Definition getitem (d : blob) (key : string) : M pyval :=
  match d !! key with
  | Some v => mret v
  | None => raise (KeyError key)
  end.

Definition print (line : string) : M unit :=
  modify (fun w => set_stdout (stdout w ++ [line]) w).

Definition is_initialized : M bool :=
  gets (fun w => match distributed w with Some _ => true | None => false end).

(** Modelled from the spec: [print_rank_0] is the "logging sink used only
    for rank-0-gated human-readable progress/warning messages"; a process
    outside any process group prints. *)
Definition print_rank_0 (line : string) : M unit := fun w =>
  match distributed w with
  | Some g => if group_rank g =? 0 then print line w else Return tt w
  | None => print line w
  end.

(** [torch.distributed.barrier()]: every peer is assumed to arrive. *)
Definition barrier : M unit := mret tt.

(** ** External collaborators *)

(** What the module consumes from libraries it does not implement:
    rendering of objects in messages, the failure text of [torch.load],
    and whether a state setter ([load_state_dict], [setstate], ...)
    returns or raises when handed a given value. *)
Record external := {
  (** [str(v)] for floats and opaque objects. *)
  repr_object : pyval -> string;
  (** [str(e)] for the exception [torch.load] raises on a path. *)
  torch_load_error : string -> string;
  (** [model.load_state_dict(v, strict=strict)]: [None] when it returns. *)
  model_load_error : pyval -> bool -> option exn;
  (** The setter for the blob key [key] applied to [v]: [None] when it
      returns. *)
  set_state_error : string -> pyval -> option exn
}.

(** ** The module [Merak/utils/checkpoint.py] *)

Definition int64_min : Z := - 2 ^ 63.
Definition int64_max : Z := 2 ^ 63 - 1.

Fixpoint spaces (k : nat) : string :=
  match k with O => "" | S k' => String " " (spaces k') end.

(** ['{:Wd}'.format(n)]: right-aligned in [width] columns. *)
Definition format_d (width : nat) (n : Z) : string :=
  spaces (width - String.length (str n)) +:+ str n.

(** The value returned by [load_checkpoint]: the early exit returns a bare
    object, the final [return iteration, epoch] a 2-tuple. *)
Inductive load_result :=
| Bare (v : pyval)
| Pair (iteration epoch : pyval).

(** Local variables of [load_checkpoint] that are live after the model
    has been loaded. *)
Record load_locals := {
  l_state_dict : blob;
  l_release : bool;
  l_checkpoint_name : string;
  l_iteration : pyval;
  l_epoch : pyval
}.

Definition optimizer_remediation (checkpoint_name : string) : string :=
  "Unable to load optimizer from checkpoint " +:+ checkpoint_name +:+
  ". Specify --no-load-optim or --finetune to prevent attempting to load the optimizer state, exiting ...".

Definition rng_remediation (checkpoint_name : string) : string :=
  "Unable to load rng state from checkpoint " +:+ checkpoint_name +:+
  ". Specify --no-load-rng or --finetune to prevent attempting to load the rng state, exiting ...".

Definition rank_warning (pp_rank iteration max_iter : Z) : string :=
  "WARNING: on rank " +:+ str pp_rank +:+ " found iteration " +:+
  str iteration +:+
  " in the metadata while max iteration across the ranks is " +:+
  str max_iter +:+ ", replacing it with max iteration.".

Definition set_checkpoint_version (value : pyval) : M unit :=
  cur ← gets _CHECKPOINT_VERSION;
  match cur with
  | PyNone => mret tt
  | _ => py_assert (py_eq cur value) "checkpoint versions do not match"
  end;;
  modify (set_version value).

Definition get_checkpoint_version : M pyval := gets _CHECKPOINT_VERSION.

(** A unified checkpoint name. *)
Definition get_checkpoint_name (checkpoints_path : string) (iteration : Z)
    (release complete : bool) : M string :=
  t ← gets topology;
  let directory :=
    if release then "release" else "iter_" +:+ format_0d 7 iteration in
  if pipe_parallel_world_size t =? 1 then
    if complete then
      mret (os_path_join checkpoints_path
              ["iter_" +:+ format_0d 7 iteration +:+ "_mp_rank_" +:+
                 format_0d 2 (tensor_model_parallel_rank t);
               "complete_model_optim.pt"])
    else
      mret (os_path_join checkpoints_path
              [directory;
               "mp_rank_" +:+ format_0d 2 (tensor_model_parallel_rank t);
               "model_optim_rng.pt"])
  else if complete then
    mret (os_path_join checkpoints_path
            [directory;
             "iter_" +:+ format_0d 7 iteration +:+ "_mp_rank_" +:+
               format_0d 2 (model_parallel_rank t) +:+ "_pp_rank_" +:+
               format_0d 3 (pipe_parallel_rank t);
             "complete_model_optim.pt"])
  else
    mret (os_path_join checkpoints_path
            [directory;
             "mp_rank_" +:+ format_0d 2 (model_parallel_rank t) +:+
               "_pp_rank_" +:+ format_0d 3 (pipe_parallel_rank t);
             "model_optim_rng.pt"]).

(** Build filename's path if it does not already exist (no effect on the
    flat file store). *)
Definition ensure_directory_exists (filename : string) : M unit := mret tt.

Definition get_checkpoint_tracker_filename (checkpoints_path : string) : string :=
  os_path_join checkpoints_path ["latest_checkpointed_iteration.txt"].

(** [open(path, 'r').read()]. *)
Definition read_text (path : string) : M string := fun w =>
  match files w !! path with
  | Some content => Return content w
  | None => Raise (FileNotFoundError path) w
  end.

(** [open(path, 'w').write(content)]. *)
Definition write_text (path content : string) : M unit :=
  modify (fun w => set_files (<[path := content]> (files w)) w).

(** [torch.cuda.LongTensor([v])]: a one-element 64-bit signed tensor. *)
Definition LongTensor (v : Z) : M Z :=
  if (int64_min <=? v) && (v <=? int64_max) then mret v
  else raise (RuntimeError "Overflow when unpacking long").

(** [torch.distributed.all_reduce(t, op=ReduceOp.MAX)] followed by
    [t[0].item()]. *)
Definition all_reduce_max (v : Z) : M Z := fun w =>
  match distributed w with
  | Some g => Return (fold_right Z.max v (peer_iterations g)) w
  | None =>
      Raise (RuntimeError "Default process group has not been initialized") w
  end.

(** Lines 106-119 of [read_metadata]: read the tracker file and either set
    the iteration or mark it as a release checkpoint. *)
Definition read_tracker (tracker_filename : string) : M (Z * bool) :=
  content ← read_text tracker_filename;
  let metastring := strip content in
  '(iteration, release) ←
    match int metastring with
    | Some i => mret (i, false)
    | None =>
        let release := String.eqb metastring "release" in
        if negb release then
          print_rank_0 ("ERROR: Invalid metadata file " +:+ tracker_filename
                        +:+ ". Exiting");;
          sys_exit
        else mret (0, release)
    end;
  py_assert ((0 <? iteration) || release)
    ("error parsing metadata file " +:+ tracker_filename);;
  mret (iteration, release).

Definition read_metadata (tracker_filename : string) : M (Z * bool) :=
  '(iteration, release) ← read_tracker tracker_filename;
  (* Get the max iteration retrieved across the ranks. *)
  iters_cuda ← LongTensor iteration;
  max_iter ← all_reduce_max iters_cuda;
  (if negb (iteration =? max_iter) then
     pp ← gets (fun w => pipe_parallel_rank (topology w));
     print (rank_warning pp iteration max_iter)
   else mret tt);;
  mret (max_iter, release).

Section Coordinator.

Context (ext : external).

(** [str(v)] as interpolated into a message. *)
Definition py_format (v : pyval) : string :=
  match v with
  | PyNone => "None"
  | PyBool true => "True"
  | PyBool false => "False"
  | PyInt z => str z
  | PyStr s => s
  | _ => repr_object ext v
  end.

(** The inner function [_compare] of [check_checkpoint_args]. *)
Definition _compare (checkpoint_args : pyval) (a : args)
    (arg_name : string) (old_arg_name : option string) : M unit :=
  let name := default arg_name old_arg_name in
  checkpoint_value ←
    match checkpoint_args with
    | PyArgs ca =>
        match getattr ca name with
        | Some v => mret v
        | None => raise (AttributeError name)
        end
    | _ => raise (AttributeError name)
    end;
  args_value ←
    match getattr a arg_name with
    | Some v => mret v
    | None => raise (AttributeError arg_name)
    end;
  let error_message :=
    arg_name +:+ " value from checkpoint (" +:+ py_format checkpoint_value
    +:+ ") is not equal to the input argument value (" +:+
    py_format args_value +:+ ")." in
  py_assert (py_eq checkpoint_value args_value) error_message.

(** Ensure fixed arguments for a model are the same for the input
    arguments and the one retrieved from checkpoint.  The body consists
    of that docstring and the definition of [_compare]; it contains no
    call of [_compare]. *)
Definition check_checkpoint_args (checkpoint_args : pyval) (a : args) : M unit :=
  mret tt.

(** Lines 148-169 of [save_checkpoint]: arguments, iteration and model,
    then optimizer and RNG states. *)
Definition save_state_dict (iteration : Z) (epoch : pyval) : M blob :=
  a ← gets run_args;
  o ← gets objects;
  g ← gets rng;
  let state_dict : blob := ∅ in
  let state_dict := <["args" := PyArgs a]> state_dict in
  let state_dict := <["checkpoint_version" := PyFloat 3]> state_dict in
  let state_dict := <["iteration" := PyInt iteration]> state_dict in
  let state_dict := <["model" := model o]> state_dict in
  let state_dict := <["epoch" := epoch]> state_dict in
  (* Optimizer stuff. *)
  let state_dict :=
    if negb (no_save_optim a) then
      let state_dict :=
        match optimizer o with
        | Some sd => <["optimizer" := sd]> state_dict
        | None => state_dict
        end in
      match lr_scheduler o with
      | Some sd => <["lr_scheduler" := sd]> state_dict
      | None => state_dict
      end
    else state_dict in
  (* RNG states. *)
  let state_dict :=
    if negb (no_save_rng a) then
      <["rng_tracker_states" := rng_tracker_states g]>
        (<["cuda_rng_state" := cuda_rng_state g]>
           (<["torch_rng_state" := torch_rng_state g]>
              (<["np_rng_state" := np_rng_state g]>
                 (<["random_rng_state" := random_rng_state g]> state_dict))))
    else state_dict in
  mret state_dict.

(** [torch.save(state_dict, path)]. *)
Definition torch_save (state_dict : blob) (path : string) : M unit :=
  modify (fun w => set_checkpoints (<[path := state_dict]> (checkpoints w)) w).

(** Lines 191-195 of [save_checkpoint]: update the latest iteration. *)
Definition update_tracker (iteration : Z) : M unit :=
  a ← gets run_args;
  d ← gets distributed;
  if match d with Some g => group_rank g =? 0 | None => true end then
    let tracker_filename :=
      get_checkpoint_tracker_filename (output_dir a +:+ "/ckpt") in
    write_text tracker_filename (str iteration)
  else mret tt.

(** Save a model checkpoint.  [model], [optimizer], [lr_scheduler] and
    [args] are the objects of the process state; [unwrap_model] returns
    a single module unchanged. *)
Definition save_checkpoint (iteration : Z) (epoch : pyval) : M unit :=
  a ← gets run_args;
  print_rank_0 ("saving checkpoint at iteration " +:+ format_d 7 iteration
                +:+ " to " +:+ output_dir a +:+ "/ckpt");;
  d ← gets distributed;
  t ← gets topology;
  (if match d with Some _ => data_parallel_rank t =? 0 | None => true end
   then
     state_dict ← save_state_dict iteration epoch;
     checkpoint_name ←
       get_checkpoint_name (output_dir a +:+ "/ckpt") iteration false false;
     ensure_directory_exists checkpoint_name;;
     torch_save state_dict checkpoint_name
   else mret tt);;
  (* Wait so everyone is done (necessary) *)
  (if match d with Some _ => true | None => false end
   then barrier else mret tt);;
  print_rank_0 ("  successfully saved checkpoint at iteration " +:+
                format_d 7 iteration +:+ " to " +:+ output_dir a +:+ "/ckpt");;
  update_tracker iteration;;
  (* Wait so everyone is done (not necessary) *)
  (if match d with Some _ => true | None => false end
   then barrier else mret tt).

(** [obj.load_state_dict(v)] / a state setter for the blob key [key]. *)
Definition set_state (key : string) (v : pyval)
    (store : pyval -> world -> world) : M unit := fun w =>
  match set_state_error ext key v with
  | Some e => Raise e w
  | None => Return tt (store v w)
  end.

Definition store_model (v : pyval) (w : world) : world :=
  set_objects {| model := v; optimizer := optimizer (objects w);
                 lr_scheduler := lr_scheduler (objects w) |} w.
Definition store_optimizer (v : pyval) (w : world) : world :=
  set_objects {| model := model (objects w); optimizer := Some v;
                 lr_scheduler := lr_scheduler (objects w) |} w.
Definition store_lr_scheduler (v : pyval) (w : world) : world :=
  set_objects {| model := model (objects w);
                 optimizer := optimizer (objects w);
                 lr_scheduler := Some v |} w.

Definition store_random (v : pyval) (w : world) : world :=
  set_rng {| random_rng_state := v;
             np_rng_state := np_rng_state (rng w);
             torch_rng_state := torch_rng_state (rng w);
             cuda_rng_state := cuda_rng_state (rng w);
             rng_tracker_states := rng_tracker_states (rng w) |} w.
Definition store_np (v : pyval) (w : world) : world :=
  set_rng {| random_rng_state := random_rng_state (rng w);
             np_rng_state := v;
             torch_rng_state := torch_rng_state (rng w);
             cuda_rng_state := cuda_rng_state (rng w);
             rng_tracker_states := rng_tracker_states (rng w) |} w.
Definition store_torch (v : pyval) (w : world) : world :=
  set_rng {| random_rng_state := random_rng_state (rng w);
             np_rng_state := np_rng_state (rng w);
             torch_rng_state := v;
             cuda_rng_state := cuda_rng_state (rng w);
             rng_tracker_states := rng_tracker_states (rng w) |} w.
Definition store_cuda (v : pyval) (w : world) : world :=
  set_rng {| random_rng_state := random_rng_state (rng w);
             np_rng_state := np_rng_state (rng w);
             torch_rng_state := torch_rng_state (rng w);
             cuda_rng_state := v;
             rng_tracker_states := rng_tracker_states (rng w) |} w.
Definition store_tracker (v : pyval) (w : world) : world :=
  set_rng {| random_rng_state := random_rng_state (rng w);
             np_rng_state := np_rng_state (rng w);
             torch_rng_state := torch_rng_state (rng w);
             cuda_rng_state := cuda_rng_state (rng w);
             rng_tracker_states := v |} w.

(** [torch.load(path)] inside [try ... except BaseException]. *)
Definition torch_load (checkpoint_name : string) : M blob := fun w =>
  match checkpoints w !! checkpoint_name with
  | Some state_dict => Return state_dict w
  | None =>
      (print_rank_0 "could not load the checkpoint";;
       print_rank_0 (torch_load_error ext checkpoint_name);;
       sys_exit) w
  end.

(** Lines 246-259 of [load_checkpoint]: set iteration. *)
Definition load_iteration (state_dict : blob) (release : bool)
    (checkpoint_name : string) : M pyval :=
  a ← gets run_args;
  if finetune a || release then mret (PyInt 0)
  else
    match state_dict !! "iteration" with
    | Some v => mret v
    | None =>
        (* Backward compatible with older checkpoints *)
        match state_dict !! "total_iters" with
        | Some v => mret v
        | None =>
            print_rank_0
              ("A metadata file exists but unable to load iteration from checkpoint "
               +:+ checkpoint_name +:+ ", exiting");;
            sys_exit
        end
    end.

(** Lines 261-273 of [load_checkpoint]: check arguments. *)
Definition load_args (state_dict : blob) : M unit :=
  match state_dict !! "args" with
  | Some checkpoint_args =>
      a ← gets run_args;
      check_checkpoint_args checkpoint_args a;;
      modify (fun w =>
        set_run_args
          (set_extra "consumed_train_samples"
             (getattr_counter checkpoint_args "consumed_train_samples")
             (run_args w)) w);;
      modify (fun w =>
        set_run_args
          (set_extra "consumed_valid_samples"
             (getattr_counter checkpoint_args "consumed_valid_samples")
             (run_args w)) w)
  | None => print_rank_0 "could not find arguments in the checkpoint ..."
  end.

(** Lines 275-281 of [load_checkpoint]: model. *)
Definition load_model (state_dict : blob) (strict : bool) : M unit :=
  v ← getitem state_dict "model";
  (fun w =>
     match model_load_error ext v strict with
     | Some e => Raise e w
     | None => Return tt (store_model v w)
     end);;
  checkpoint_version ← get_checkpoint_version;
  print_rank_0 (" checkpoint version " +:+ py_format checkpoint_version).

(** Lines 223-281 of [load_checkpoint]: from reading the tracker to the
    loaded model. *)
Definition load_upto_model (load_dir tracker_filename : string)
    (strict : bool) : M load_locals :=
  '(iteration, release) ← read_metadata tracker_filename;
  (* Checkpoint. *)
  checkpoint_name ← get_checkpoint_name load_dir iteration release false;
  a ← gets run_args;
  print_rank_0 (" loading checkpoint from " +:+ resume_from_checkpoint a
                +:+ " at iteration " +:+ str iteration);;
  (* Load the checkpoint. *)
  print checkpoint_name;;
  state_dict ← torch_load checkpoint_name;
  (* set checkpoint version *)
  set_checkpoint_version
    (default (PyInt 0) (state_dict !! "checkpoint_version"));;
  (* load current epoch *)
  epoch ← getitem state_dict "epoch";
  iteration ← load_iteration state_dict release checkpoint_name;
  load_args state_dict;;
  load_model state_dict strict;;
  mret {| l_state_dict := state_dict; l_release := release;
          l_checkpoint_name := checkpoint_name;
          l_iteration := iteration; l_epoch := epoch |}.

(** The [try] block of the optimizer step (lines 286-289). *)
Definition restore_optimizer (state_dict : blob) : M unit :=
  o ← gets objects;
  match optimizer o with
  | Some _ =>
      v ← getitem state_dict "optimizer";
      set_state "optimizer" v store_optimizer
  | None => mret tt
  end;;
  match lr_scheduler o with
  | Some _ =>
      v ← getitem state_dict "lr_scheduler";
      set_state "lr_scheduler" v store_lr_scheduler
  | None => mret tt
  end.

(** Lines 283-295 of [load_checkpoint]: optimizer. *)
Definition load_optimizer (l : load_locals) : M unit :=
  a ← gets run_args;
  if negb (l_release l) && negb (finetune a) && negb (no_load_optim a) then
    except_KeyError
      (restore_optimizer (l_state_dict l))
      (print_rank_0 (optimizer_remediation (l_checkpoint_name l));;
       sys_exit)
  else mret tt.

(** The [try] block of the RNG step (lines 300-308). *)
Definition restore_rng (state_dict : blob) : M unit :=
  v ← getitem state_dict "random_rng_state";
  set_state "random_rng_state" v store_random;;
  v ← getitem state_dict "np_rng_state";
  set_state "np_rng_state" v store_np;;
  v ← getitem state_dict "torch_rng_state";
  set_state "torch_rng_state" v store_torch;;
  v ← getitem state_dict "cuda_rng_state";
  set_state "cuda_rng_state" v store_cuda;;
  (* Check for empty states array *)
  v ← getitem state_dict "rng_tracker_states";
  (if negb (py_truthy v) then raise (KeyError "") else mret tt);;
  v ← getitem state_dict "rng_tracker_states";
  set_state "rng_tracker_states" v store_tracker.

(** Lines 297-314 of [load_checkpoint]: rng states. *)
Definition load_rng (l : load_locals) : M unit :=
  a ← gets run_args;
  if negb (l_release l) && negb (finetune a) && negb (no_load_rng a) then
    except_KeyError
      (restore_rng (l_state_dict l))
      (print_rank_0 (rng_remediation (l_checkpoint_name l));;
       sys_exit)
  else mret tt.

(** Lines 316-323 of [load_checkpoint]: synchronize, report, return. *)
Definition load_finish (l : load_locals) : M load_result :=
  (* Some utilities want to load a checkpoint without distributed being
     initialized *)
  d ← gets distributed;
  (if match d with Some _ => true | None => false end
   then barrier else mret tt);;
  a ← gets run_args;
  print_rank_0 ("  successfully loaded checkpoint from " +:+
                resume_from_checkpoint a +:+ " at iteration " +:+
                py_format (l_iteration l));;
  mret (Pair (l_iteration l) (l_epoch l)).

(** Load a model checkpoint and return the iteration. *)
Definition load_checkpoint (strict : bool) : M load_result :=
  a ← gets run_args;
  let load_dir := resume_from_checkpoint a in
  (* Read the tracker file and set the iteration. *)
  let tracker_filename := get_checkpoint_tracker_filename load_dir in
  (* If no tracker file, return iretation zero. *)
  f ← gets files;
  if negb (bool_decide (is_Some (f !! tracker_filename))) then
    print_rank_0 ("WARNING: could not find the metadata file " +:+
                  tracker_filename +:+ " ");;
    print_rank_0
      "    will not load any checkpoints and will start from random";;
    mret (Bare (PyInt 0))
  else
    l ← load_upto_model load_dir tracker_filename strict;
    load_optimizer l;;
    load_rng l;;
    load_finish l.

End Coordinator.

(** ** [unwrap_model] *)

(** The [model] argument of the coordinators: one module or a list of
    modules, each given by its state. *)
Inductive model_arg :=
| OneModule (m : pyval)
| ModuleList (ms : list pyval).

(** [unwrap_model(model)]; [None] stands for the [IndexError] of
    [unwrapped_model[0]]. *)
Definition unwrap_model (model : model_arg) : option model_arg :=
  let '(model, return_list) :=
    match model with
    | ModuleList ms => (ms, true)
    | OneModule m => ([m], false)
    end in
  let unwrapped_model :=
    fold_left (fun acc model_module => acc ++ [model_module]) model [] in
  if negb return_list then OneModule <$> unwrapped_model !! 0%nat
  else Some (ModuleList unwrapped_model).

(** ** The module [examples/language-modeling/config.py] *)

#[local] Set Warnings "-register-all".

(** Values of the configuration literals. *)
Inductive config_value :=
| CNone
| CBool (b : bool)
| CInt (z : Z)
| CFloat (q : Q)
| CStr (s : string)
| CList (l : list config_value)
| CDict (items : list (string * config_value)).

(** The result of [load_config]: the dictionary, as its items in source
    order, or the [ValueError] with its message. *)
Inductive config_result :=
| Config (items : list (string * config_value))
| ValueError (msg : string).

Definition load_config (model_name : string) : config_result :=
  if String.eqb model_name "gpt2" then
    Config
      [("activation_function", CStr "gelu");
       ("architectures", CList [CStr "GPT2LMHeadModel"]);
       ("attn_pdrop", CFloat (1 # 10));
       ("bos_token_id", CInt 50256);
       ("embd_pdrop", CFloat (1 # 10));
       ("eos_token_id", CInt 50256);
       ("initializer_range", CFloat (2 # 100));
       ("layer_norm_epsilon", CFloat (1 # 100000));
       ("model_type", CStr "gpt2");
       ("n_ctx", CInt 1024);
       ("n_embd", CInt 768);
       ("n_head", CInt 12);
       ("n_layer", CInt 12);
       ("n_positions", CInt 1024);
       ("resid_pdrop", CFloat (1 # 10));
       ("summary_activation", CNone);
       ("summary_first_dropout", CFloat (1 # 10));
       ("summary_proj_to_labels", CBool true);
       ("summary_type", CStr "cls_index");
       ("summary_use_proj", CBool true);
       ("task_specific_params",
        CDict [("text-generation",
                CDict [("do_sample", CBool true); ("max_length", CInt 50)])]);
       ("vocab_size", CInt 50257);
       ("return_dict", CBool false);
       ("reorder_and_upcast_attn", CBool true);
       ("use_cache", CBool false)]
  else if String.eqb model_name "t5-base" then
    Config
      [("architectures", CList [CStr "T5WithLMHeadModel"]);
       ("d_ff", CInt 3072);
       ("d_kv", CInt 64);
       ("d_model", CInt 512);
       ("decoder_start_token_id", CInt 0);
       ("dropout_rate", CFloat (1 # 10));
       ("eos_token_id", CInt 1);
       ("initializer_factor", CFloat 1);
       ("is_encoder_decoder", CBool true);
       ("layer_norm_epsilon", CFloat (1 # 1000000));
       ("model_type", CStr "t5");
       ("n_positions", CInt 512);
       ("num_heads", CInt 16);
       ("num_layers", CInt 8);
       ("output_past", CBool true);
       ("pad_token_id", CInt 0);
       ("relative_attention_num_buckets", CInt 32);
       ("task_specific_params",
        CDict
          [("summarization",
            CDict [("early_stopping", CBool true);
                   ("length_penalty", CFloat 2);
                   ("max_length", CInt 200);
                   ("min_length", CInt 30);
                   ("no_repeat_ngram_size", CInt 3);
                   ("num_beams", CInt 4);
                   ("prefix", CStr "summarize: ")]);
           ("translation_en_to_de",
            CDict [("early_stopping", CBool true);
                   ("max_length", CInt 300);
                   ("num_beams", CInt 4);
                   ("prefix", CStr "translate English to German: ")]);
           ("translation_en_to_fr",
            CDict [("early_stopping", CBool true);
                   ("max_length", CInt 300);
                   ("num_beams", CInt 4);
                   ("prefix", CStr "translate English to French: ")]);
           ("translation_en_to_ro",
            CDict [("early_stopping", CBool true);
                   ("max_length", CInt 300);
                   ("num_beams", CInt 4);
                   ("prefix", CStr "translate English to Romanian: ")])]);
       ("vocab_size", CInt 32128);
       ("use_cache", CBool false);
       ("return_dict", CBool false)]
  else if String.eqb model_name "bert-large-uncased" then
    Config
      [("architectures", CList [CStr "BertForMaskedLM"]);
       ("attention_probs_dropout_prob", CFloat (1 # 10));
       ("gradient_checkpointing", CBool false);
       ("hidden_act", CStr "gelu");
       ("hidden_dropout_prob", CFloat (1 # 10));
       ("hidden_size", CInt 1024);
       ("initializer_range", CFloat (2 # 100));
       ("intermediate_size", CInt 4096);
       ("layer_norm_eps", CFloat (1 # 1000000000000));
       ("max_position_embeddings", CInt 512);
       ("model_type", CStr "bert");
       ("num_attention_heads", CInt 16);
       ("num_hidden_layers", CInt 24);
       ("pad_token_id", CInt 0);
       ("position_embedding_type", CStr "absolute");
       ("type_vocab_size", CInt 2);
       ("use_cache", CBool false);
       ("vocab_size", CInt 30522)]
  else ValueError ("No " +:+ model_name +:+ " config").

(** [config[key]] on the items of a dictionary literal: the last item
    with that key. *)
Fixpoint config_get (key : string) (items : list (string * config_value))
    : option config_value :=
  match items with
  | [] => None
  | (k, v) :: rest =>
      match config_get key rest with
      | Some v' => Some v'
      | None => if String.eqb k key then Some v else None
      end
  end.

(** ** The job: every rank runs [read_metadata] *)




(** ** Auxiliary notions for the statements below *)

(** Every character of [s] satisfies [p]. *)
Fixpoint all_chars (p : ascii -> bool) (s : string) : bool :=
  match s with
  | "" => true
  | String c r => p c && all_chars p r
  end.

(** An ASCII character: a code below 128. *)
Definition is_ascii (c : ascii) : bool := (N_of_ascii c <? 128)%N.

(** The number denoted by a string of decimal digits, read after [acc]. *)
Fixpoint dec_value (acc : Z) (s : string) : Z :=
  match s with
  | "" => acc
  | String c r => dec_value (10 * acc + default 0 (digit_val c)) r
  end.

(** Characters produced by the integer formats: digits and the sign. *)
Definition is_num_char (c : ascii) : bool := is_digit c || Ascii.eqb c "-".

(** The first argument of [os.path.join], ready for the next component:
    a separator is added unless the path is empty or already ends with
    one. *)
Definition with_sep (path : string) : string :=
  if String.eqb path "" || endswith_sep path then path else path +:+ "/".

(** Whether [print_rank_0] prints in this process. *)
Definition rank0_prints (w : world) : bool :=
  match distributed w with
  | Some g => group_rank g =? 0
  | None => true
  end.

(** The process after it has printed [lines]. *)
Definition logged (lines : list string) (w : world) : world :=
  set_stdout (stdout w ++ lines) w.

(** The lines [print_rank_0] adds for [line] in this process. *)
Definition rank0_lines (w : world) (line : string) : list string :=
  if rank0_prints w then [line] else [].

(** Whether this process writes the checkpoint file in [save_checkpoint]:
    it is data-parallel rank 0, or outside any process group. *)
Definition is_writer (w : world) : bool :=
  match distributed w with
  | Some _ => data_parallel_rank (topology w) =? 0
  | None => true
  end.

(** The parts of a process that loading a checkpoint never changes up to
    the restore of the optimizer: topology, process group, file store,
    the attributes of [args] other than the counters, the optimizer and
    scheduler objects and the RNG sources. *)
Definition same_setup (w w1 : world) : Prop :=
  topology w1 = topology w
  /\ distributed w1 = distributed w
  /\ files w1 = files w
  /\ checkpoints w1 = checkpoints w
  /\ output_dir (run_args w1) = output_dir (run_args w)
  /\ resume_from_checkpoint (run_args w1) = resume_from_checkpoint (run_args w)
  /\ finetune (run_args w1) = finetune (run_args w)
  /\ no_load_optim (run_args w1) = no_load_optim (run_args w)
  /\ no_load_rng (run_args w1) = no_load_rng (run_args w)
  /\ optimizer (objects w1) = optimizer (objects w)
  /\ lr_scheduler (objects w1) = lr_scheduler (objects w)
  /\ rng w1 = rng w.

(** The locals of [load_checkpoint] with another blob. *)
Definition with_state_dict (sd : blob) (l : load_locals) : load_locals :=
  {| l_state_dict := sd; l_release := l_release l;
     l_checkpoint_name := l_checkpoint_name l;
     l_iteration := l_iteration l; l_epoch := l_epoch l |}.

(** Every state setter returns on the value the blob holds for its
    key. *)
Definition setters_return (ext : external) (sd : blob) : Prop :=
  forall (key : string) (v : pyval),
    sd !! key = Some v -> set_state_error ext key v = None.

(** The blob keys of the five RNG sources, in the order they are
    restored. *)
Definition rng_keys : list string :=
  ["random_rng_state"; "np_rng_state"; "torch_rng_state"; "cuda_rng_state";
   "rng_tracker_states"].

(** The exception a call ended with, if any, and the lines printed by the
    end of the call. *)
Definition raised {A} (o : outcome A) : option exn :=
  match o with
  | Return _ _ => None
  | Raise e _ => Some e
  end.

Definition printed {A} (o : outcome A) : list string :=
  match o with
  | Return _ w => stdout w
  | Raise _ w => stdout w
  end.

(** ** A concrete single-rank job, used to instantiate the statements *)

Definition example_args : args :=
  {| output_dir := "/data/run"; resume_from_checkpoint := "/data/run/ckpt";
     no_save_optim := false; no_save_rng := false; finetune := false;
     no_load_optim := false; no_load_rng := false;
     extra := {[ "hidden_size" := 768 ]} |}.

Definition example_topology : mpu :=
  {| pipe_parallel_world_size := 1; tensor_model_parallel_rank := 1;
     model_parallel_rank := 1; pipe_parallel_rank := 0;
     data_parallel_rank := 0 |}.

Definition example_world : world :=
  {| topology := example_topology;
     distributed := Some {| group_rank := 0; peer_iterations := [] |};
     files := ∅; checkpoints := ∅;
     _CHECKPOINT_VERSION := PyNone; stdout := [];
     run_args := example_args;
     objects := {| model := PyState 1; optimizer := Some (PyState 2);
                   lr_scheduler := Some (PyState 3) |};
     rng := {| random_rng_state := PyState 4; np_rng_state := PyState 5;
               torch_rng_state := PyState 6; cuda_rng_state := PyState 7;
               rng_tracker_states :=
                 PyStates {[ "model-parallel-rng" := 8%N ]} |} |}.

Definition example_external : external :=
  {| repr_object := fun _ => "<object>";
     torch_load_error := fun path => "cannot read " +:+ path;
     model_load_error := fun _ _ => None;
     set_state_error := fun _ _ => None |}.



(** What can be observed of a call: the value returned and the lines
    printed, or nothing when it raised. *)
Definition observed {A} (o : outcome A) : option (A * list string) :=
  match o with
  | Return a w => Some (a, stdout w)
  | Raise _ _ => None
  end.

(** The process state a call leaves behind. *)
Definition final {A} (o : outcome A) : world :=
  match o with
  | Return _ w => w
  | Raise _ w => w
  end.

(** The example job after [save_checkpoint] at iteration 100, epoch 2. *)
Definition saved_world : world :=
  final (save_checkpoint 100 (PyInt 2) example_world).

(** The example configuration with [no_save_optim] set. *)
Definition example_args_no_save_optim : args :=
  {| output_dir := "/data/run"; resume_from_checkpoint := "/data/run/ckpt";
     no_save_optim := true; no_save_rng := false; finetune := false;
     no_load_optim := false; no_load_rng := false;
     extra := {[ "hidden_size" := 768 ]} |}.

(** The example job after a save with [no_save_optim] set, resumed by a
    run with the example configuration. *)
Definition saved_without_optimizer : world :=
  set_run_args example_args
    (final (save_checkpoint 100 (PyInt 2)
              (set_run_args example_args_no_save_optim example_world))).

(** The saved example job, resumed by a run whose configuration has
    another [hidden_size]. *)
Definition resumed_with_other_shape : world :=
  set_run_args (set_extra "hidden_size" 1024 example_args) saved_world.

(** The example job saved while its RNG tracker held no states. *)
Definition saved_with_empty_tracker : world :=
  final (save_checkpoint 100 (PyInt 2)
           (set_rng
              {| random_rng_state := PyState 4; np_rng_state := PyState 5;
                 torch_rng_state := PyState 6; cuda_rng_state := PyState 7;
                 rng_tracker_states := PyStates ∅ |}
              example_world)).

(** The example configuration with [no_save_rng] set. *)
Definition example_args_no_save_rng : args :=
  {| output_dir := "/data/run"; resume_from_checkpoint := "/data/run/ckpt";
     no_save_optim := false; no_save_rng := true; finetune := false;
     no_load_optim := false; no_load_rng := false;
     extra := {[ "hidden_size" := 768 ]} |}.

(** The example job after a save with [no_save_rng] set, resumed by a run
    with the example configuration. *)
Definition saved_without_rng : world :=
  set_run_args example_args
    (final (save_checkpoint 100 (PyInt 2)
              (set_run_args example_args_no_save_rng example_world))).

(** A rank of the example job that is neither data-parallel rank 0 nor
    global rank 0. *)
Definition example_peer_world : world :=
  {| topology :=
       {| pipe_parallel_world_size := 1; tensor_model_parallel_rank := 1;
          model_parallel_rank := 1; pipe_parallel_rank := 0;
          data_parallel_rank := 1 |};
     distributed := Some {| group_rank := 3; peer_iterations := [] |};
     files := files example_world; checkpoints := checkpoints example_world;
     _CHECKPOINT_VERSION := PyNone; stdout := [];
     run_args := example_args;
     objects := objects example_world; rng := rng example_world |}.

(** The example job resumed from a tracker file that holds [content]. *)
Definition resumed_from_tracker (content : string) : world :=
  set_files
    {[ "/data/run/ckpt/latest_checkpointed_iteration.txt" := content ]}
    saved_world.

(** The saved example job, resumed by a fine-tuning run. *)
Definition resumed_for_finetune : world :=
  set_run_args
    {| output_dir := "/data/run"; resume_from_checkpoint := "/data/run/ckpt";
       no_save_optim := false; no_save_rng := false; finetune := true;
       no_load_optim := false; no_load_rng := false;
       extra := {[ "hidden_size" := 768 ]} |}
    saved_world.

(** The saved example job, resumed after its checkpoint file has been
    removed. *)
Definition resumed_without_file : world :=
  set_checkpoints ∅ saved_world.

(** The saved example job with another blob in place of the saved one. *)
Definition resumed_with_blob (sd : blob) : world :=
  set_checkpoints
    {[ "/data/run/ckpt/iter_0000100/mp_rank_01/model_optim_rng.pt" := sd ]}
    saved_world.

(** A blob of an older format: no version tag, no argument snapshot,
    the iteration under ['total_iters']. *)
Definition legacy_blob : blob :=
  {[ "epoch" := PyInt 2; "total_iters" := PyInt 100;
     "model" := PyState 1; "optimizer" := PyState 2;
     "lr_scheduler" := PyState 3;
     "random_rng_state" := PyState 4; "np_rng_state" := PyState 5;
     "torch_rng_state" := PyState 6; "cuda_rng_state" := PyState 7;
     "rng_tracker_states" := PyStates {[ "model-parallel-rng" := 8%N ]} ]}.

(** A blob that records a model and an epoch and nothing else. *)
Definition bare_blob : blob :=
  {[ "epoch" := PyInt 2; "model" := PyState 1 ]}.

(** [load_checkpoint] in process [w] gets as far as [torch.load]: the
    tracker file exists, [read_metadata] returns [(it, rel)] after
    printing some lines, and the file [name] that [get_checkpoint_name]
    derives from it under the resume root holds the blob [sd]. *)
Definition opens_checkpoint (w : world) (it : Z) (rel : bool)
    (name : string) (sd : blob) : Prop :=
  is_Some (files w !! get_checkpoint_tracker_filename
                        (resume_from_checkpoint (run_args w)))
  /\ (exists lines : list string,
         read_metadata
           (get_checkpoint_tracker_filename
              (resume_from_checkpoint (run_args w))) w
         = Return (it, rel) (logged lines w))
  /\ get_checkpoint_name (resume_from_checkpoint (run_args w)) it rel false w
     = Return name w
  /\ checkpoints w !! name = Some sd.

(** Whether the version [value] of a checkpoint passes the check of
    [set_checkpoint_version] in a process whose stored version is
    [cur]. *)
Definition version_accepted (cur value : pyval) : bool :=
  match cur with
  | PyNone => true
  | _ => py_eq cur value
  end.

(** The example job saved after 6400 training samples, resumed by a run
    with the example configuration. *)
Definition saved_midway : world :=
  set_run_args example_args
    (final (save_checkpoint 100 (PyInt 2)
              (set_run_args
                 (set_extra "consumed_train_samples" 6400 example_args)
                 example_world))).

(** A freshly started process of the example job that resumes from the
    store left by the save: its model, optimizer and RNG sources hold
    other states, and it has no scheduler. *)
Definition fresh_resumed_world : world :=
  {| topology := example_topology;
     distributed := Some {| group_rank := 0; peer_iterations := [] |};
     files := files saved_world; checkpoints := checkpoints saved_world;
     _CHECKPOINT_VERSION := PyNone; stdout := [];
     run_args := example_args;
     objects := {| model := PyState 10; optimizer := Some (PyState 20);
                   lr_scheduler := None |};
     rng := {| random_rng_state := PyState 40; np_rng_state := PyState 50;
               torch_rng_state := PyState 60; cuda_rng_state := PyState 70;
               rng_tracker_states := PyStates ∅ |} |}.

(** A process with RNG states of its own that resumes from the
    checkpoint saved with empty tracker states. *)
Definition resumed_on_empty_tracker : world :=
  set_rng
    {| random_rng_state := PyState 40; np_rng_state := PyState 50;
       torch_rng_state := PyState 60; cuda_rng_state := PyState 70;
       rng_tracker_states := PyStates {[ "model-parallel-rng" := 80%N ]} |}
    saved_with_empty_tracker.

(** * Properties *)

(** ** The text primitives on sample inputs *)

Example str_100 : str 100 = "100". Proof. reflexivity. Qed.
Example str_0 : str 0 = "0". Proof. reflexivity. Qed.
Example str_neg : str (-42) = "-42". Proof. reflexivity. Qed.
Example int_100 : int "  100 " = Some 100. Proof. reflexivity. Qed.
Example int_us : int "1_000" = Some 1000. Proof. reflexivity. Qed.
Example int_bad_us : int "1__0" = None. Proof. reflexivity. Qed.
Example int_bad_trail : int "10_" = None. Proof. reflexivity. Qed.
Example int_release : int "release" = None. Proof. reflexivity. Qed.
Example int_empty : int "" = None. Proof. reflexivity. Qed.
Example fmt7 : format_0d 7 123 = "0000123". Proof. reflexivity. Qed.
Example fmt7neg : format_0d 7 (-5) = "-000005". Proof. reflexivity. Qed.
Example fmt2big : format_0d 2 123 = "123". Proof. reflexivity. Qed.
Example join1 : os_path_join "a" ["b"; "c"] = "a/b/c". Proof. reflexivity. Qed.
Example join2 : os_path_join "a/" ["b"; "/c"; "d"] = "/c/d". Proof. reflexivity. Qed.
Example join3 : os_path_join "" ["b"] = "b". Proof. reflexivity. Qed.
Example int_plus : int "+7" = Some 7. Proof. reflexivity. Qed.
Example int_padded : int "0000100" = Some 100. Proof. reflexivity. Qed.
Example strip_both : strip "  release  " = "release". Proof. reflexivity. Qed.
Example fmt_d : format_d 7 100 = "    100". Proof. reflexivity. Qed.
Example tracker_name :
  get_checkpoint_tracker_filename "/data/run/ckpt"
  = "/data/run/ckpt/latest_checkpointed_iteration.txt".
Proof. reflexivity. Qed.
Example py_eq_float_int : py_eq (PyFloat 3) (PyInt 3) = true.
Proof. reflexivity. Qed.
Example py_eq_versions : py_eq (PyFloat 3) (PyInt 0) = false.
Proof. reflexivity. Qed.
Example empty_states_falsy : py_truthy (PyStates ∅) = false.
Proof. reflexivity. Qed.

(** ** Strings *)

Lemma sapp_nil_l (s : string) : "" +:+ s = s.
Proof. reflexivity. Qed.

Lemma sapp_cons (c : ascii) (s t : string) :
  String c s +:+ t = String c (s +:+ t).
Proof. reflexivity. Qed.

Lemma sapp_nil_r (s : string) : s +:+ "" = s.
Proof. induction s as [|c s IH]; [done|]. by rewrite sapp_cons, IH. Qed.

Lemma sapp_assoc (s t u : string) : (s +:+ t) +:+ u = s +:+ t +:+ u.
Proof. induction s as [|c s IH]; [done|]. by rewrite !sapp_cons, IH. Qed.

Lemma slength_app (s t : string) :
  String.length (s +:+ t) = (String.length s + String.length t)%nat.
Proof. induction s as [|c s IH]; [done|]. rewrite sapp_cons. simpl. by rewrite IH. Qed.

Lemma sapp_eq_nil (s t : string) : s +:+ t = "" -> s = "" /\ t = "".
Proof. destruct s; [done|]. by rewrite sapp_cons. Qed.

Lemma all_chars_app p (s t : string) :
  all_chars p (s +:+ t) = all_chars p s && all_chars p t.
Proof.
  induction s as [|c s IH]; [done|].
  rewrite sapp_cons. simpl. rewrite IH. by rewrite andb_assoc.
Qed.

Lemma all_chars_weaken (p q : ascii -> bool) (s : string) :
  (forall c, p c = true -> q c = true) ->
  all_chars p s = true -> all_chars q s = true.
Proof.
  intros Hpq. induction s as [|c s IH]; [done|]. simpl.
  intros [Hc Hs]%andb_true_iff. rewrite (Hpq _ Hc). simpl. auto.
Qed.

(** Two strings free of a separator character, each followed by that
    separator, can only agree if they are equal. *)
Lemma split_at_sep p (sep : ascii) (s1 s2 r1 r2 : string) :
  p sep = false ->
  all_chars p s1 = true -> all_chars p s2 = true ->
  s1 +:+ String sep r1 = s2 +:+ String sep r2 ->
  s1 = s2 /\ r1 = r2.
Proof.
  intros Hsep. revert s2.
  induction s1 as [|c s1 IH]; intros [|d s2] H1 H2 Heq.
  - rewrite !sapp_nil_l in Heq. by injection Heq as ->.
  - rewrite sapp_nil_l, sapp_cons in Heq. injection Heq as <- _.
    simpl in H2. rewrite Hsep in H2. done.
  - rewrite sapp_nil_l, sapp_cons in Heq. injection Heq as -> _.
    simpl in H1. rewrite Hsep in H1. done.
  - rewrite !sapp_cons in Heq. injection Heq as -> Heq.
    simpl in H1, H2. apply andb_true_iff in H1 as [_ H1].
    apply andb_true_iff in H2 as [_ H2].
    destruct (IH s2 H1 H2 Heq) as [-> ->]. done.
Qed.

(** ** Decimal text *)

Lemma digit_val_char (d : Z) :
  0 <= d < 10 -> digit_val (digit_char d) = Some d.
Proof.
  intros Hd.
  assert (d = 0 \/ d = 1 \/ d = 2 \/ d = 3 \/ d = 4 \/ d = 5 \/ d = 6
          \/ d = 7 \/ d = 8 \/ d = 9) as Hcases by lia.
  repeat (destruct Hcases as [-> | Hcases]; [reflexivity|]).
  by subst.
Qed.

Lemma is_digit_char (d : Z) : 0 <= d < 10 -> is_digit (digit_char d) = true.
Proof. intros Hd. unfold is_digit. by rewrite digit_val_char. Qed.

Lemma digits_fuel_all_digits (fuel : nat) (n : Z) :
  all_chars is_digit (digits_fuel fuel n) = true.
Proof.
  revert n. induction fuel as [|f IH]; intros n; [done|].
  simpl. rewrite all_chars_app. simpl.
  rewrite is_digit_char by (apply Z.mod_pos_bound; lia).
  destruct (n / 10 =? 0); [done|]. by rewrite IH.
Qed.

Lemma digits_fuel_nonempty (fuel : nat) (n : Z) : digits_fuel (S fuel) n <> "".
Proof.
  simpl. intros H. apply sapp_eq_nil in H as [_ H]. done.
Qed.

Lemma dec_value_app (acc : Z) (s t : string) :
  dec_value acc (s +:+ t) = dec_value (dec_value acc s) t.
Proof.
  revert acc. induction s as [|c s IH]; intros acc; [done|].
  rewrite sapp_cons. simpl. apply IH.
Qed.

Lemma dec_value_digits_fuel (fuel : nat) (n : Z) :
  0 <= n < 2 ^ Z.of_nat fuel -> dec_value 0 (digits_fuel fuel n) = n.
Proof.
  revert n. induction fuel as [|f IH]; intros n Hn.
  - simpl in *. lia.
  - simpl digits_fuel. rewrite dec_value_app. simpl dec_value.
    rewrite digit_val_char by (apply Z.mod_pos_bound; lia). simpl.
    destruct (Z.eqb_spec (n / 10) 0) as [Hq|Hq].
    + simpl. pose proof (Z.div_mod n 10). lia.
    + rewrite IH.
      * pose proof (Z.div_mod n 10). lia.
      * rewrite Nat2Z.inj_succ, Z.pow_succ_r in Hn by lia.
        split; [apply Z.div_pos; lia|].
        apply Z.div_lt_upper_bound; lia.
Qed.

Lemma decimal_value (n : Z) : 0 <= n -> dec_value 0 (decimal n) = n.
Proof.
  intros Hn. unfold decimal. apply dec_value_digits_fuel.
  split; [done|].
  rewrite Nat2Z.inj_succ, Z2Nat.id by apply Z.log2_nonneg.
  destruct (Z.eq_dec n 0) as [->|Hne]; [done|].
  apply Z.log2_spec. lia.
Qed.

Lemma decimal_all_digits (n : Z) : all_chars is_digit (decimal n) = true.
Proof. apply digits_fuel_all_digits. Qed.

Lemma decimal_nonempty (n : Z) : decimal n <> "".
Proof. apply digits_fuel_nonempty. Qed.

Lemma is_digit_num_char (c : ascii) : is_digit c = true -> is_num_char c = true.
Proof. unfold is_num_char. by intros ->. Qed.

Lemma num_char_facts (c : ascii) :
  is_num_char c = true ->
  is_space c = false /\ Ascii.eqb c "_" = false /\ Ascii.eqb c "/" = false.
Proof.
  destruct c as [[] [] [] [] [] [] [] []]; vm_compute; intros H;
    first [discriminate H | done].
Qed.

Lemma digit_facts (c : ascii) :
  is_digit c = true ->
  Ascii.eqb c "-" = false /\ Ascii.eqb c "+" = false.
Proof.
  destruct c as [[] [] [] [] [] [] [] []]; vm_compute; intros H;
    first [discriminate H | done].
Qed.

Lemma rstrip_id (s : string) :
  all_chars (fun c => negb (is_space c)) s = true -> rstrip s = s.
Proof.
  induction s as [|c s IH]; [done|]. simpl.
  intros [Hc Hs]%andb_true_iff. rewrite (IH Hs).
  apply negb_true_iff in Hc. rewrite Hc. by destruct s.
Qed.

Lemma strip_id (s : string) :
  all_chars (fun c => negb (is_space c)) s = true -> strip s = s.
Proof.
  intros H. unfold strip.
  assert (lstrip s = s) as ->; [|by apply rstrip_id].
  destruct s as [|c s]; [done|]. simpl in *.
  apply andb_true_iff in H as [Hc _]. apply negb_true_iff in Hc.
  by rewrite Hc.
Qed.

Lemma num_chars_no_space (s : string) :
  all_chars is_num_char s = true ->
  all_chars (fun c => negb (is_space c)) s = true.
Proof.
  apply all_chars_weaken. intros c Hc.
  destruct (num_char_facts c Hc) as [-> _]. done.
Qed.

Lemma digits_num_chars (s : string) :
  all_chars is_digit s = true -> all_chars is_num_char s = true.
Proof. apply all_chars_weaken, is_digit_num_char. Qed.

Lemma int_digits_after_digit (acc : Z) (s : string) :
  all_chars is_digit s = true ->
  int_digits acc true s = Some (dec_value acc s).
Proof.
  revert acc. induction s as [|c s IH]; intros acc; [done|]. simpl.
  intros [Hc Hs]%andb_true_iff. unfold is_digit in Hc.
  destruct (digit_val c) as [d|]; [|done]. simpl. by apply IH.
Qed.

Lemma int_digits_value (s : string) :
  all_chars is_digit s = true -> s <> "" ->
  int_digits 0 false s = Some (dec_value 0 s).
Proof.
  destruct s as [|c s]; [done|]. simpl.
  intros [Hc Hs]%andb_true_iff _. unfold is_digit in Hc.
  destruct (digit_val c) as [d|]; [|done]. simpl.
  by apply int_digits_after_digit.
Qed.

(** The sign dispatch of [int] on a string that starts with neither sign. *)
Lemma sign_dispatch {T} (A B C : string -> T) (c : ascii) (r : string) :
  Ascii.eqb c "-" = false -> Ascii.eqb c "+" = false ->
  match String c r with
  | String "-" r' => A r'
  | String "+" r' => B r'
  | r' => C r'
  end = C (String c r).
Proof.
  destruct c as [[] [] [] [] [] [] [] []]; vm_compute; intros H1 H2;
    first [discriminate H1 | discriminate H2 | reflexivity].
Qed.

Lemma int_unsigned (s : string) :
  all_chars is_digit s = true -> s <> "" -> int s = Some (dec_value 0 s).
Proof.
  intros Hs Hne. unfold int.
  rewrite strip_id by by apply num_chars_no_space, digits_num_chars.
  destruct s as [|c r]; [done|].
  pose proof Hs as Hs'. simpl in Hs'.
  apply andb_true_iff in Hs' as [Hc _].
  destruct (digit_facts c Hc) as [Hm Hp].
  etrans;
    [exact (sign_dispatch (fun r' => Z.opp <$> int_digits 0 false r')
              (int_digits 0 false) (int_digits 0 false) c r Hm Hp)|].
  by apply int_digits_value.
Qed.

Lemma int_negative (s : string) :
  all_chars is_digit s = true -> s <> "" ->
  int ("-" +:+ s) = Some (- dec_value 0 s).
Proof.
  intros Hs Hne. unfold int.
  rewrite strip_id.
  - change ("-" +:+ s) with (String "-" s). cbv iota beta.
    by rewrite int_digits_value.
  - change ("-" +:+ s) with (String "-" s). simpl.
    by apply num_chars_no_space, digits_num_chars.
Qed.

(** [int] inverts [str]. *)
Lemma int_str (n : Z) : int (str n) = Some n.
Proof.
  unfold str. destruct (Z.ltb_spec n 0) as [Hn|Hn].
  - rewrite int_negative by auto using decimal_all_digits, decimal_nonempty.
    rewrite decimal_value by lia. f_equal. lia.
  - rewrite int_unsigned by auto using decimal_all_digits, decimal_nonempty.
    by rewrite decimal_value.
Qed.

Lemma zeros_all_digits (k : nat) : all_chars is_digit (zeros k) = true.
Proof. induction k as [|k IH]; [done|]. simpl. by rewrite IH. Qed.

Lemma dec_value_zeros (k : nat) : dec_value 0 (zeros k) = 0.
Proof. induction k as [|k IH]; [done|]. simpl. apply IH. Qed.

Lemma padded_all_digits (k : nat) (n : Z) :
  all_chars is_digit (zeros k +:+ decimal n) = true.
Proof. by rewrite all_chars_app, zeros_all_digits, decimal_all_digits. Qed.

Lemma padded_nonempty (k : nat) (n : Z) : zeros k +:+ decimal n <> "".
Proof. intros [_ H]%sapp_eq_nil. by apply decimal_nonempty in H. Qed.

Lemma padded_value (k : nat) (n : Z) :
  0 <= n -> dec_value 0 (zeros k +:+ decimal n) = n.
Proof.
  intros Hn. by rewrite dec_value_app, dec_value_zeros, decimal_value.
Qed.

(** [int] inverts the zero-padded format, whatever the width. *)
Lemma int_format_0d (width : nat) (n : Z) : int (format_0d width n) = Some n.
Proof.
  unfold format_0d. destruct (Z.ltb_spec n 0) as [Hn|Hn].
  - rewrite int_negative by auto using padded_all_digits, padded_nonempty.
    rewrite padded_value by lia. f_equal. lia.
  - rewrite sapp_nil_l.
    rewrite int_unsigned by auto using padded_all_digits, padded_nonempty.
    rewrite padded_value by lia. f_equal. lia.
Qed.

Lemma format_0d_inj (w1 w2 : nat) (a b : Z) :
  format_0d w1 a = format_0d w2 b -> a = b.
Proof.
  intros H. apply (f_equal int) in H. rewrite !int_format_0d in H.
  by injection H.
Qed.

Lemma format_0d_num_chars (width : nat) (n : Z) :
  all_chars is_num_char (format_0d width n) = true.
Proof.
  unfold format_0d. rewrite all_chars_app.
  rewrite (digits_num_chars _ (padded_all_digits _ _)).
  by destruct (n <? 0).
Qed.

Lemma format_0d_nonempty (width : nat) (n : Z) : format_0d width n <> "".
Proof.
  unfold format_0d. intros [_ H]%sapp_eq_nil. by apply padded_nonempty in H.
Qed.

Lemma zeros_length (k : nat) : String.length (zeros k) = k.
Proof. induction k as [|k IH]; [done|]. simpl. by rewrite IH. Qed.

Lemma digits_fuel_length (fuel : nat) (n : Z) (k : nat) :
  0 <= n < 10 ^ Z.of_nat k -> (1 <= k)%nat ->
  (String.length (digits_fuel fuel n) <= k)%nat.
Proof.
  revert n k. induction fuel as [|f IH]; intros n k Hn Hk; [simpl; lia|].
  simpl digits_fuel. rewrite slength_app. simpl.
  destruct (Z.eqb_spec (n / 10) 0) as [Hq|Hq]; [simpl; lia|].
  destruct k as [|[|k]]; [lia| |].
  - exfalso. apply Hq. apply Z.div_small. simpl in Hn. lia.
  - specialize (IH (n / 10) (S k)).
    rewrite (Nat2Z.inj_succ (S k)), Z.pow_succ_r in Hn by lia.
    assert (0 <= n / 10 < 10 ^ Z.of_nat (S k)) as Hdiv.
    { split; [apply Z.div_pos; lia|]. apply Z.div_lt_upper_bound; lia. }
    specialize (IH Hdiv). lia.
Qed.

(** A non-negative number below [10 ^ width] is rendered by the
    zero-padded format as exactly [width] decimal digits. *)
Lemma format_0d_width (width : nat) (n : Z) :
  0 <= n < 10 ^ Z.of_nat width -> (1 <= width)%nat ->
  String.length (format_0d width n) = width
  /\ all_chars is_digit (format_0d width n) = true
  /\ dec_value 0 (format_0d width n) = n.
Proof.
  intros Hn Hw. unfold format_0d.
  destruct (Z.ltb_spec n 0) as [?|_]; [lia|].
  rewrite sapp_nil_l, Z.abs_eq by lia.
  rewrite slength_app, zeros_length, padded_all_digits, padded_value by lia.
  pose proof (digits_fuel_length (S (Z.to_nat (Z.log2 n))) n width Hn Hw) as Hl.
  fold (decimal n) in Hl. simpl String.length. split; [lia|done].
Qed.

(** ** Paths *)

Lemma endswith_sep_cons (c : ascii) (s : string) :
  s <> "" -> endswith_sep (String c s) = endswith_sep s.
Proof. by destruct s. Qed.

Lemma endswith_sep_app (s t : string) :
  t <> "" -> endswith_sep (s +:+ t) = endswith_sep t.
Proof.
  intros Ht. induction s as [|c s IH]; [done|].
  rewrite sapp_cons, endswith_sep_cons; [done|].
  intros [_ ?]%sapp_eq_nil. done.
Qed.

Lemma endswith_sep_num_chars (s : string) :
  all_chars is_num_char s = true -> endswith_sep s = false.
Proof.
  induction s as [|c s IH]; [done|]. simpl.
  intros [Hc Hs]%andb_true_iff.
  destruct s as [|d s]; [by apply num_char_facts|by apply IH].
Qed.

Lemma join_step_with_sep (path b : string) :
  startswith_sep b = false -> join_step path b = with_sep path +:+ b.
Proof.
  intros Hb. unfold join_step, with_sep. rewrite Hb.
  destruct (String.eqb path "" || endswith_sep path); [done|].
  by rewrite sapp_assoc.
Qed.

Lemma with_sep_plain (path : string) :
  path <> "" -> endswith_sep path = false -> with_sep path = path +:+ "/".
Proof.
  intros Hne He. unfold with_sep. rewrite He.
  by apply String.eqb_neq in Hne as ->.
Qed.

(** A path component that starts with a fixed non-separator prefix and
    ends with a formatted number. *)
Lemma component_facts (pre s : string) :
  startswith_sep pre = false -> pre <> "" ->
  all_chars is_num_char s = true -> s <> "" ->
  startswith_sep (pre +:+ s) = false
  /\ pre +:+ s <> ""
  /\ endswith_sep (pre +:+ s) = false.
Proof.
  intros Hp Hne Hs Hsne. split_and!.
  - destruct pre; [done|]. by rewrite sapp_cons.
  - intros [? _]%sapp_eq_nil. done.
  - rewrite endswith_sep_app by done. by apply endswith_sep_num_chars.
Qed.

Lemma join_after (path d b : string) :
  startswith_sep b = false -> d <> "" -> endswith_sep d = false ->
  join_step (path +:+ d) b = path +:+ d +:+ "/" +:+ b.
Proof.
  intros Hb Hd He. rewrite join_step_with_sep by done.
  rewrite with_sep_plain.
  - by rewrite !sapp_assoc.
  - intros [_ ?]%sapp_eq_nil. done.
  - by rewrite endswith_sep_app.
Qed.

(** [os.path.join(root, d, x, f)] for plain components. *)
Lemma os_path_join_3 (root d x f : string) :
  startswith_sep d = false -> d <> "" -> endswith_sep d = false ->
  startswith_sep x = false -> x <> "" -> endswith_sep x = false ->
  startswith_sep f = false ->
  os_path_join root [d; x; f] = with_sep root +:+ d +:+ "/" +:+ x +:+ "/" +:+ f.
Proof.
  intros Hd1 Hd2 Hd3 Hx1 Hx2 Hx3 Hf. unfold os_path_join. simpl.
  rewrite (join_step_with_sep root d Hd1).
  rewrite (join_after (with_sep root) d x Hx1 Hd2 Hd3).
  replace (with_sep root +:+ d +:+ "/" +:+ x)
    with ((with_sep root +:+ d +:+ "/") +:+ x) by by rewrite !sapp_assoc.
  rewrite (join_after _ x f Hf Hx2 Hx3). by rewrite !sapp_assoc.
Qed.

(** [os.path.join(root, x, f)] for plain components. *)
Lemma os_path_join_2 (root x f : string) :
  startswith_sep x = false -> x <> "" -> endswith_sep x = false ->
  startswith_sep f = false ->
  os_path_join root [x; f] = with_sep root +:+ x +:+ "/" +:+ f.
Proof.
  intros Hx1 Hx2 Hx3 Hf. unfold os_path_join. simpl.
  rewrite (join_step_with_sep root x Hx1).
  rewrite (join_after (with_sep root) x f Hf Hx2 Hx3). done.
Qed.

(** ** The checkpoint namer *)

#[local] Arguments os_path_join : simpl never.
#[local] Arguments format_0d : simpl never.

Lemma directory_facts (release : bool) (iteration : Z) :
  let d := if release then "release" else "iter_" +:+ format_0d 7 iteration in
  startswith_sep d = false /\ d <> "" /\ endswith_sep d = false.
Proof.
  destruct release; [done|].
  apply (component_facts "iter_" (format_0d 7 iteration));
    auto using format_0d_num_chars, format_0d_nonempty.
Qed.

Lemma rank_component_facts (pre : string) (width : nat) (n : Z) :
  startswith_sep pre = false -> pre <> "" ->
  startswith_sep (pre +:+ format_0d width n) = false
  /\ pre +:+ format_0d width n <> ""
  /\ endswith_sep (pre +:+ format_0d width n) = false.
Proof.
  intros. apply component_facts;
    auto using format_0d_num_chars, format_0d_nonempty.
Qed.

(** The path in the four branches of [get_checkpoint_name], with the
    joins carried out. *)
Lemma get_checkpoint_name_plain_single root iteration release w :
  pipe_parallel_world_size (topology w) = 1 ->
  get_checkpoint_name root iteration release false w =
    Return (with_sep root +:+
              (if release then "release" else "iter_" +:+ format_0d 7 iteration)
              +:+ "/" +:+ "mp_rank_" +:+
              format_0d 2 (tensor_model_parallel_rank (topology w)) +:+
              "/" +:+ "model_optim_rng.pt") w.
Proof.
  intros HW. unfold get_checkpoint_name, mbind, M_bind, gets, mret, M_ret.
  rewrite HW. simpl.
  destruct (directory_facts release iteration) as (Hd1 & Hd2 & Hd3).
  destruct (rank_component_facts "mp_rank_" 2
              (tensor_model_parallel_rank (topology w))) as (Hx1 & Hx2 & Hx3);
    [done..|].
  rewrite os_path_join_3 by done. by rewrite !sapp_assoc.
Qed.

Lemma get_checkpoint_name_complete_single root iteration release w :
  pipe_parallel_world_size (topology w) = 1 ->
  get_checkpoint_name root iteration release true w =
    Return (with_sep root +:+ "iter_" +:+ format_0d 7 iteration +:+
              "_mp_rank_" +:+
              format_0d 2 (tensor_model_parallel_rank (topology w)) +:+
              "/" +:+ "complete_model_optim.pt") w.
Proof.
  intros HW. unfold get_checkpoint_name, mbind, M_bind, gets, mret, M_ret.
  rewrite HW. simpl.
  destruct (rank_component_facts
              ("iter_" +:+ format_0d 7 iteration +:+ "_mp_rank_") 2
              (tensor_model_parallel_rank (topology w))) as (Hx1 & Hx2 & Hx3);
    [done..|].
  rewrite !sapp_assoc in Hx1, Hx2, Hx3.
  rewrite os_path_join_2 by done. by rewrite !sapp_assoc.
Qed.

Lemma get_checkpoint_name_plain_pipeline root iteration release w :
  pipe_parallel_world_size (topology w) <> 1 ->
  get_checkpoint_name root iteration release false w =
    Return (with_sep root +:+
              (if release then "release" else "iter_" +:+ format_0d 7 iteration)
              +:+ "/" +:+ "mp_rank_" +:+
              format_0d 2 (model_parallel_rank (topology w)) +:+
              "_pp_rank_" +:+
              format_0d 3 (pipe_parallel_rank (topology w)) +:+
              "/" +:+ "model_optim_rng.pt") w.
Proof.
  intros HW. unfold get_checkpoint_name, mbind, M_bind, gets, mret, M_ret.
  apply Z.eqb_neq in HW. rewrite HW. simpl.
  destruct (directory_facts release iteration) as (Hd1 & Hd2 & Hd3).
  destruct (rank_component_facts
              ("mp_rank_" +:+ format_0d 2 (model_parallel_rank (topology w))
               +:+ "_pp_rank_") 3
              (pipe_parallel_rank (topology w))) as (Hx1 & Hx2 & Hx3);
    [done..|].
  rewrite !sapp_assoc in Hx1, Hx2, Hx3.
  rewrite os_path_join_3 by done. by rewrite !sapp_assoc.
Qed.

Lemma get_checkpoint_name_complete_pipeline root iteration release w :
  pipe_parallel_world_size (topology w) <> 1 ->
  get_checkpoint_name root iteration release true w =
    Return (with_sep root +:+
              (if release then "release" else "iter_" +:+ format_0d 7 iteration)
              +:+ "/" +:+ "iter_" +:+ format_0d 7 iteration +:+
              "_mp_rank_" +:+
              format_0d 2 (model_parallel_rank (topology w)) +:+
              "_pp_rank_" +:+
              format_0d 3 (pipe_parallel_rank (topology w)) +:+
              "/" +:+ "complete_model_optim.pt") w.
Proof.
  intros HW. unfold get_checkpoint_name, mbind, M_bind, gets, mret, M_ret.
  apply Z.eqb_neq in HW. rewrite HW. simpl.
  destruct (directory_facts release iteration) as (Hd1 & Hd2 & Hd3).
  destruct (rank_component_facts
              ("iter_" +:+ format_0d 7 iteration +:+ "_mp_rank_" +:+
               format_0d 2 (model_parallel_rank (topology w))
               +:+ "_pp_rank_") 3
              (pipe_parallel_rank (topology w))) as (Hx1 & Hx2 & Hx3);
    [done..|].
  rewrite !sapp_assoc in Hx1, Hx2, Hx3.
  rewrite os_path_join_3 by done. by rewrite !sapp_assoc.
Qed.

(** A formatted rank followed by a separator determines the rank. *)
Lemma rank_then_sep_inj (w1 w2 : nat) (a b : Z) (sep : ascii) (r1 r2 : string) :
  is_num_char sep = false ->
  format_0d w1 a +:+ String sep r1 = format_0d w2 b +:+ String sep r2 ->
  a = b /\ r1 = r2.
Proof.
  intros Hsep Heq.
  apply (split_at_sep is_num_char) in Heq as [Hf ->];
    auto using format_0d_num_chars.
  by apply format_0d_inj in Hf.
Qed.




(** C10. When the pipeline-parallel world size is 1 and [complete] is
    true, the path returned by [get_checkpoint_name] does not depend on
    the release flag: it is
    [root/iter_<iteration, 7 digits>_mp_rank_<tensor rank, 2 digits>/complete_model_optim.pt]
    for a release checkpoint too, so the directory component always
    carries the iteration and never is the [release] directory. *)
Theorem complete_name_independent_of_release
    (root : string) (iteration : Z) (w : world) :
  pipe_parallel_world_size (topology w) = 1 ->
  let dir :=
    "iter_" +:+ format_0d 7 iteration +:+ "_mp_rank_" +:+
    format_0d 2 (tensor_model_parallel_rank (topology w)) in
  (forall release1 release2 : bool,
      get_checkpoint_name root iteration release1 true w
      = get_checkpoint_name root iteration release2 true w)
  /\ (forall release : bool,
        get_checkpoint_name root iteration release true w
        = Return (os_path_join root [dir; "complete_model_optim.pt"]) w)
  /\ os_path_join root [dir; "complete_model_optim.pt"]
     = with_sep root +:+ dir +:+ "/" +:+ "complete_model_optim.pt"
  /\ (0 <= iteration < 10 ^ 7 ->
      String.length (format_0d 7 iteration) = 7%nat
      /\ all_chars is_digit (format_0d 7 iteration) = true
      /\ dec_value 0 (format_0d 7 iteration) = iteration).
Proof.
  intros HW dir.
  assert (forall release : bool,
             get_checkpoint_name root iteration release true w
             = Return (os_path_join root [dir; "complete_model_optim.pt"]) w)
    as Hjoin.
  { intros release.
    unfold get_checkpoint_name, mbind, M_bind, gets, mret, M_ret.
    by rewrite HW. }
  split_and!.
  - intros release1 release2. by rewrite !Hjoin.
  - exact Hjoin.
  - pose proof (get_checkpoint_name_complete_single root iteration true w HW)
      as Hform.
    rewrite Hjoin in Hform. injection Hform as ->.
    subst dir. by rewrite !sapp_assoc.
  - intros Hrange. apply (format_0d_width 7 iteration); [done|lia].
Qed.

Lemma complete_name_independent_of_release_witness :
  pipe_parallel_world_size (topology example_world) = 1
  /\ get_checkpoint_name "/data/run/ckpt" 100 true true example_world
     = Return "/data/run/ckpt/iter_0000100_mp_rank_01/complete_model_optim.pt"
         example_world
  /\ get_checkpoint_name "/data/run/ckpt" 100 true true example_world
     = get_checkpoint_name "/data/run/ckpt" 100 false true example_world.
Proof.
  destruct (complete_name_independent_of_release "/data/run/ckpt" 100
              example_world eq_refl) as (Hsame & Hname & _ & _).
  split; [reflexivity|]. split.
  - exact (Hname true).
  - exact (Hsame true false).
Defined.

(** ** The checkpoint version *)

Lemma args_eqb_refl (a : args) : args_eqb a a = true.
Proof.
  unfold args_eqb.
  rewrite !String.eqb_refl, !Bool.eqb_reflx, bool_decide_eq_true_2; done.
Qed.

Lemma py_eq_refl (v : pyval) : py_eq v v = true.
Proof.
  destruct v; unfold py_eq; simpl;
    try (apply Qeq_bool_iff; reflexivity).
  - done.
  - apply String.eqb_refl.
  - apply N.eqb_refl.
  - by apply bool_decide_eq_true_2.
  - apply args_eqb_refl.
Qed.

(** C6. Once a call of [set_checkpoint_version] has stored a version [v1]
    (a value other than the unset marker [None]), a further call in the
    same process with a value that differs from it ([==] is false) fails
    with the assertion "checkpoint versions do not match", while a further
    call with [v1] itself returns and leaves the whole process state,
    stored version included, unchanged. *)
Theorem set_checkpoint_version_write_once (v1 v2 : pyval) (w w1 : world) :
  v1 <> PyNone ->
  set_checkpoint_version v1 w = Return tt w1 ->
  _CHECKPOINT_VERSION w1 = v1
  /\ (py_eq v1 v2 = false ->
      set_checkpoint_version v2 w1
      = Raise (AssertionError "checkpoint versions do not match") w1)
  /\ set_checkpoint_version v1 w1 = Return tt w1.
Proof.
  intros Hv1 Hfirst.
  assert (w1 = set_version v1 w) as ->.
  { unfold set_checkpoint_version, mbind, M_bind, gets, modify, py_assert,
      mret, M_ret, raise in Hfirst.
    destruct (_CHECKPOINT_VERSION w); try destruct (py_eq _ v1);
      by inversion Hfirst. }
  split_and!; [done| |].
  - intros Hne.
    unfold set_checkpoint_version, mbind, M_bind, gets, modify, py_assert,
      mret, M_ret, raise. simpl.
    rewrite Hne. by destruct v1.
  - unfold set_checkpoint_version, mbind, M_bind, gets, modify, py_assert,
      mret, M_ret, raise. simpl.
    rewrite py_eq_refl. by destruct v1.
Qed.

Lemma set_checkpoint_version_witness :
  PyFloat 3 <> PyNone
  /\ set_checkpoint_version (PyFloat 3) example_world
     = Return tt (set_version (PyFloat 3) example_world)
  /\ py_eq (PyFloat 3) (PyInt 0) = false
  /\ (set_checkpoint_version (PyFloat 3);; set_checkpoint_version (PyInt 0))
       example_world
     = Raise (AssertionError "checkpoint versions do not match")
         (set_version (PyFloat 3) example_world)
  /\ (set_checkpoint_version (PyFloat 3);; set_checkpoint_version (PyFloat 3))
       example_world
     = Return tt (set_version (PyFloat 3) example_world).
Proof.
  assert (PyFloat 3 <> PyNone) as Hne by discriminate.
  destruct (set_checkpoint_version_write_once (PyFloat 3) (PyInt 0)
              example_world (set_version (PyFloat 3) example_world)
              Hne eq_refl) as (_ & Hdiff & Hsame).
  split; [exact Hne|]. split; [reflexivity|]. split; [reflexivity|]. split.
  - exact (Hdiff eq_refl).
  - exact Hsame.
Defined.

(** ** Running the program monad *)


Lemma bind_Return {A B} (m : M A) (k : A -> M B) (w w' : world) (a : A) :
  m w = Return a w' -> (m ≫= k) w = k a w'.
Proof. unfold mbind, M_bind. by intros ->. Qed.

Lemma bind_Raise {A B} (m : M A) (k : A -> M B) (w w' : world) (e : exn) :
  m w = Raise e w' -> (m ≫= k) w = Raise e w'.
Proof. unfold mbind, M_bind. by intros ->. Qed.

Lemma logged_nil (w : world) : logged [] w = w.
Proof. unfold logged. rewrite app_nil_r. by destruct w. Qed.

Lemma logged_logged (l1 l2 : list string) (w : world) :
  logged l2 (logged l1 w) = logged (l1 ++ l2) w.
Proof. unfold logged. simpl. by rewrite app_assoc. Qed.

Lemma print_run (line : string) (w : world) :
  print line w = Return tt (logged [line] w).
Proof. reflexivity. Qed.

Lemma print_rank_0_run (line : string) (w : world) :
  print_rank_0 line w = Return tt (logged (rank0_lines w line) w).
Proof.
  unfold print_rank_0, rank0_lines, rank0_prints.
  destruct (distributed w) as [g|]; [|done].
  destruct (group_rank g =? 0); [done|]. by rewrite logged_nil.
Qed.

(** One step of a sequence whose first call returns. *)
Ltac step :=
  cbv beta iota;
  erewrite bind_Return by
    first [ apply print_rank_0_run | apply print_run | reflexivity
          | eassumption ].

Lemma rank0_prints_logged (l : list string) (w : world) :
  rank0_prints (logged l w) = rank0_prints w.
Proof. reflexivity. Qed.

Lemma get_checkpoint_name_returns
    (root : string) (iteration : Z) (release complete : bool) (w : world) :
  exists path,
    forall w', topology w' = topology w ->
      get_checkpoint_name root iteration release complete w' = Return path w'.
Proof.
  unfold get_checkpoint_name, mbind, M_bind, gets, mret, M_ret.
  destruct (pipe_parallel_world_size (topology w) =? 1) eqn:HW, complete;
    eexists; intros w' ->; rewrite HW; reflexivity.
Qed.

(** ** Saving *)

(** The blob assembled by [save_checkpoint], key by key. *)
Lemma save_state_dict_returns (iteration : Z) (epoch : pyval) (w : world) :
  exists sd : blob,
    save_state_dict iteration epoch w = Return sd w
    /\ sd !! "args" = Some (PyArgs (run_args w))
    /\ sd !! "checkpoint_version" = Some (PyFloat 3)
    /\ sd !! "iteration" = Some (PyInt iteration)
    /\ sd !! "model" = Some (model (objects w))
    /\ sd !! "epoch" = Some epoch
    /\ sd !! "optimizer"
       = (if no_save_optim (run_args w) then None else optimizer (objects w))
    /\ sd !! "lr_scheduler"
       = (if no_save_optim (run_args w) then None
          else lr_scheduler (objects w))
    /\ sd !! "rng_tracker_states"
       = (if no_save_rng (run_args w) then None
          else Some (rng_tracker_states (rng w))).
Proof.
  unfold save_state_dict, mbind, M_bind, gets, mret, M_ret.
  eexists. split; [reflexivity|].
  destruct (no_save_optim (run_args w)), (no_save_rng (run_args w)),
    (optimizer (objects w)), (lr_scheduler (objects w)); simpl;
    split_and!; reflexivity.
Qed.

Lemma save_state_dict_frame (iteration : Z) (epoch : pyval) (w w' : world)
    (sd : blob) :
  run_args w' = run_args w -> objects w' = objects w -> rng w' = rng w ->
  save_state_dict iteration epoch w = Return sd w ->
  save_state_dict iteration epoch w' = Return sd w'.
Proof.
  unfold save_state_dict, mbind, M_bind, gets, mret, M_ret.
  intros -> -> -> H. by injection H as ->.
Qed.

Lemma update_tracker_run (iteration : Z) (w : world) :
  update_tracker iteration w
  = Return tt
      (if rank0_prints w
       then set_files
              (<[get_checkpoint_tracker_filename
                   (output_dir (run_args w) +:+ "/ckpt") := str iteration]>
                 (files w)) w
       else w).
Proof.
  unfold update_tracker, rank0_prints, write_text, modify, mbind, M_bind,
    gets, mret, M_ret.
  destruct (distributed w) as [g|]; [|done].
  by destruct (group_rank g =? 0).
Qed.

(** [save_checkpoint] always returns; its effect, field by field. *)
Lemma save_checkpoint_run (iteration : Z) (epoch : pyval) (w : world) :
  exists (sd : blob) (name : string) (w' : world),
    save_checkpoint iteration epoch w = Return tt w'
    /\ save_state_dict iteration epoch w = Return sd w
    /\ get_checkpoint_name (output_dir (run_args w) +:+ "/ckpt")
         iteration false false w = Return name w
    /\ checkpoints w'
       = (if is_writer w then <[name := sd]> (checkpoints w)
          else checkpoints w)
    /\ files w'
       = (if rank0_prints w
          then <[get_checkpoint_tracker_filename
                   (output_dir (run_args w) +:+ "/ckpt") := str iteration]>
                 (files w)
          else files w)
    /\ topology w' = topology w /\ distributed w' = distributed w
    /\ _CHECKPOINT_VERSION w' = _CHECKPOINT_VERSION w
    /\ run_args w' = run_args w /\ objects w' = objects w /\ rng w' = rng w.
Proof.
  destruct (get_checkpoint_name_returns
              (output_dir (run_args w) +:+ "/ckpt") iteration false false w)
    as [name Hname].
  destruct (save_state_dict_returns iteration epoch w) as (sd & Hsd & _).
  exists sd, name.
  unfold save_checkpoint. step. step. step. step.
  set (m1 := "saving checkpoint at iteration " +:+ _).
  set (m2 := "  successfully saved checkpoint at iteration " +:+ _).
  set (w1 := logged (rank0_lines w m1) w).
  assert (exists w2,
    (if match distributed w1 with
        | Some _ => data_parallel_rank (topology w1) =? 0
        | None => true
        end
     then
       state_dict ← save_state_dict iteration epoch;
       checkpoint_name ←
         get_checkpoint_name (output_dir (run_args w1) +:+ "/ckpt")
           iteration false false;
       ensure_directory_exists checkpoint_name;;
       torch_save state_dict checkpoint_name
     else mret tt) w1 = Return tt w2
    /\ w2 = if is_writer w
            then set_checkpoints (<[name := sd]> (checkpoints w)) w1
            else w1)
    as (w2 & Hw2 & Ew2).
  { unfold is_writer. change (distributed w1) with (distributed w).
    change (topology w1) with (topology w).
    destruct (match distributed w with Some _ => _ | None => true end).
    - eexists. split; [|reflexivity].
      erewrite bind_Return
        by (eapply save_state_dict_frame; [..|exact Hsd]; reflexivity).
      erewrite bind_Return by (apply Hname; reflexivity).
      reflexivity.
    - eexists. split; reflexivity. }
  erewrite bind_Return by exact Hw2.
  erewrite (bind_Return _ _ _ w2 tt) by by destruct (distributed w1).
  step. erewrite bind_Return by apply update_tracker_run.
  eexists. split; [by destruct (distributed w1)|].
  split; [done|]. split; [by apply Hname|].
  subst w2 w1. unfold rank0_lines.
  destruct (is_writer w), (rank0_prints w) eqn:Hr0; simpl;
    unfold rank0_prints in *; simpl; rewrite ?Hr0; simpl;
    split_and!; reflexivity.
Qed.

Lemma load_args_with_snapshot (sd : blob) (ca : pyval) (w : world) :
  sd !! "args" = Some ca ->
  load_args sd w
  = Return tt
      (set_run_args
         (set_extra "consumed_valid_samples"
            (getattr_counter ca "consumed_valid_samples")
            (set_extra "consumed_train_samples"
               (getattr_counter ca "consumed_train_samples") (run_args w)))
         w).
Proof. intros H. unfold load_args. rewrite H. reflexivity. Qed.

(** C9. [save_checkpoint] always returns, and every blob it writes (every
    checkpoint file that is new or replaced afterwards) is the assembled
    [state_dict], which holds the run configuration under ['args'],
    [3.0] under ['checkpoint_version'], and ['iteration'], ['model'] and
    ['epoch'], whatever [no_save_optim] and [no_save_rng] are.  On a writer
    rank that blob is stored under the checkpoint's name.  Given such a
    blob, the argument check of [load_checkpoint] takes the snapshot
    branch and prints nothing, so its "could not find arguments" warning
    cannot come from a blob of this writer. *)
Theorem saved_blob_always_has_snapshot
    (iteration : Z) (epoch : pyval) (w : world) :
  exists (sd : blob) (w' : world),
    save_checkpoint iteration epoch w = Return tt w'
    /\ (forall (path : string) (b : blob),
          checkpoints w' !! path = Some b ->
          checkpoints w !! path = Some b \/ b = sd)
    /\ (is_writer w = true ->
        exists name : string,
          get_checkpoint_name (output_dir (run_args w) +:+ "/ckpt")
            iteration false false w = Return name w
          /\ checkpoints w' !! name = Some sd)
    /\ sd !! "args" = Some (PyArgs (run_args w))
    /\ sd !! "checkpoint_version" = Some (PyFloat 3)
    /\ sd !! "iteration" = Some (PyInt iteration)
    /\ sd !! "model" = Some (model (objects w))
    /\ sd !! "epoch" = Some epoch
    /\ (forall w0 : world,
          exists w0' : world,
            load_args sd w0 = Return tt w0' /\ stdout w0' = stdout w0).
Proof.
  destruct (save_checkpoint_run iteration epoch w)
    as (sd & name & w' & Hsave & Hsd & Hname & Hcp & _).
  destruct (save_state_dict_returns iteration epoch w)
    as (sd' & Hsd' & Hargs & Hver & Hit & Hmodel & Hepoch & _).
  assert (sd' = sd) as -> by congruence.
  exists sd, w'. split_and!; try done.
  - intros path b Hb. rewrite Hcp in Hb.
    destruct (is_writer w); [|by left].
    destruct (decide (name = path)) as [->|Hne].
    + rewrite lookup_insert_eq in Hb. right. congruence.
    + rewrite lookup_insert_ne in Hb by done. by left.
  - intros Hw. exists name. split; [done|].
    by rewrite Hcp, Hw, lookup_insert_eq.
  - intros w0. eexists. split.
    + by apply load_args_with_snapshot with (ca := PyArgs (run_args w)).
    + reflexivity.
Qed.

Lemma saved_blob_always_has_snapshot_witness :
  is_writer example_world = true
  /\ exists (sd : blob) (w' : world) (name : string),
       save_checkpoint 100 (PyInt 2) example_world = Return tt w'
       /\ checkpoints w' !! name = Some sd
       /\ sd !! "args" = Some (PyArgs example_args)
       /\ sd !! "checkpoint_version" = Some (PyFloat 3).
Proof.
  split; [reflexivity|].
  destruct (saved_blob_always_has_snapshot 100 (PyInt 2) example_world)
    as (sd & w' & Hsave & _ & Hwriter & Hargs & Hver & _).
  destruct (Hwriter eq_refl) as (name & _ & Hname).
  exists sd, w', name. split_and!; assumption.
Defined.

(** ** The tracker *)

Lemma read_tracker_returns (tracker_filename : string) (w w' : world)
    (r : Z * bool) :
  read_tracker tracker_filename w = Return r w' ->
  w' = w
  /\ exists content : string,
       files w !! tracker_filename = Some content
       /\ ((int (strip content) = Some r.1 /\ 0 < r.1 /\ r.2 = false)
           \/ (int (strip content) = None /\ strip content = "release"
               /\ r = (0, true))).
Proof.
  unfold read_tracker, read_text.
  intros H. unfold mbind at 1, M_bind at 1 in H.
  destruct (files w !! tracker_filename) as [content|]; [|done].
  destruct (int (strip content)) as [i|] eqn:Hint.
  - unfold mbind, M_bind, mret, M_ret, py_assert, raise in H. simpl in H.
    destruct (Z.ltb_spec 0 i) as [Hi|Hi]; simpl in H; [|done].
    injection H as <- <-. split; [done|]. exists content. split; [done|].
    left. by rewrite Hint.
  - destruct (String.eqb_spec (strip content) "release") as [Hrel|Hrel].
    + unfold mbind, M_bind, mret, M_ret, py_assert, raise in H. simpl in H.
      injection H as <- <-. split; [done|]. exists content.
      split; [done|]. right. by rewrite Hint.
    + simpl in H. unfold mbind at 1, M_bind at 1 in H.
      unfold mbind at 1, M_bind at 1 in H.
      rewrite print_rank_0_run in H. done.
Qed.

Lemma read_tracker_content (tracker_filename content : string) (w : world) :
  files w !! tracker_filename = Some content ->
  read_tracker tracker_filename w
  = match int (strip content) with
    | Some i =>
        if 0 <? i then Return (i, false) w
        else Raise (AssertionError
                      ("error parsing metadata file " +:+ tracker_filename)) w
    | None =>
        if String.eqb (strip content) "release" then Return (0, true) w
        else Raise SystemExit
               (logged (rank0_lines w
                          ("ERROR: Invalid metadata file " +:+
                           tracker_filename +:+ ". Exiting")) w)
    end.
Proof.
  intros Hf. unfold read_tracker, read_text.
  unfold mbind at 1, M_bind at 1. rewrite Hf.
  destruct (int (strip content)) as [i|].
  - unfold mbind, M_bind, mret, M_ret, py_assert, raise. simpl.
    by destruct (0 <? i).
  - destruct (String.eqb (strip content) "release"); [done|].
    simpl. unfold mbind at 1, M_bind at 1. unfold mbind at 1, M_bind at 1.
    by rewrite print_rank_0_run.
Qed.

(** [read_metadata] once the local read has succeeded, in an initialized
    process group. *)
Lemma read_metadata_after_tracker (tracker_filename : string) (w : world)
    (iteration : Z) (release : bool) (g : process_group) :
  read_tracker tracker_filename w = Return (iteration, release) w ->
  int64_min <= iteration <= int64_max ->
  distributed w = Some g ->
  let max_iter := fold_right Z.max iteration (peer_iterations g) in
  read_metadata tracker_filename w
  = Return (max_iter, release)
      (if iteration =? max_iter then w
       else logged [rank_warning (pipe_parallel_rank (topology w))
                      iteration max_iter] w).
Proof.
  intros Hread Hrange Hd max_iter. unfold read_metadata.
  erewrite bind_Return by exact Hread. cbv beta iota.
  unfold LongTensor.
  assert ((int64_min <=? iteration) && (iteration <=? int64_max) = true)
    as -> by (apply andb_true_iff; split; apply Z.leb_le; lia).
  step.
  erewrite (bind_Return (all_reduce_max iteration) _ _ w max_iter)
    by (unfold all_reduce_max; by rewrite Hd).
  fold max_iter. destruct (iteration =? max_iter); simpl.
  - reflexivity.
  - step. reflexivity.
Qed.

Lemma str_num_chars (n : Z) : all_chars is_num_char (str n) = true.
Proof.
  unfold str. destruct (n <? 0).
  - change ("-" +:+ decimal (- n)) with (String "-" (decimal (- n))).
    simpl. apply digits_num_chars, decimal_all_digits.
  - apply digits_num_chars, decimal_all_digits.
Qed.

Lemma strip_str (n : Z) : strip (str n) = str n.
Proof. apply strip_id, num_chars_no_space, str_num_chars. Qed.

Lemma fold_max_bounded (v : Z) (l : list Z) :
  Forall (fun x => x <= v) l -> fold_right Z.max v l = v.
Proof. induction 1 as [|x l Hx _ IH]; simpl; [done|]. rewrite IH. lia. Qed.

(** Reading a tracker file that holds [str N], for a positive [N]. *)
Lemma read_tracker_str (tracker_filename : string) (N : Z) (w : world) :
  files w !! tracker_filename = Some (str N) -> 0 < N ->
  read_tracker tracker_filename w = Return (N, false) w.
Proof.
  intros Hf HN. rewrite (read_tracker_content _ _ _ Hf).
  rewrite strip_str, int_str.
  by apply Z.ltb_lt in HN as ->.
Qed.

(** C1 (amended). For every positive [N] that fits the 64-bit tensor of
    the reduction, in an initialized process group none of whose peers
    has read a later iteration: a rank whose tracker file holds [str N]
    gets [(N, false)] from [read_metadata], without any warning; and on
    global rank 0 [save_checkpoint] writes exactly that text, so that
    saving and then reading the tracker yields [(N, false)]. *)
Theorem tracker_round_trip_positive
    (N : Z) (tracker : string) (w : world) (g : process_group) :
  0 < N <= int64_max ->
  distributed w = Some g ->
  Forall (fun v => v <= N) (peer_iterations g) ->
  (files w !! tracker = Some (str N) ->
   read_metadata tracker w = Return (N, false) w)
  /\ (group_rank g = 0 ->
      tracker = get_checkpoint_tracker_filename
                  (output_dir (run_args w) +:+ "/ckpt") ->
      forall epoch : pyval,
      exists w' : world,
        save_checkpoint N epoch w = Return tt w'
        /\ files w' !! tracker = Some (str N)
        /\ (save_checkpoint N epoch;; read_metadata tracker) w
           = Return (N, false) w').
Proof.
  intros HN Hd Hpeers.
  assert (forall w0 : world,
             distributed w0 = Some g ->
             files w0 !! tracker = Some (str N) ->
             read_metadata tracker w0 = Return (N, false) w0) as Hread.
  { intros w0 Hd0 Hf.
    rewrite (read_metadata_after_tracker tracker w0 N false g);
      [|by apply read_tracker_str; [|lia]|unfold int64_min; lia|done].
    rewrite fold_max_bounded by done. by rewrite Z.eqb_refl. }
  split; [by apply Hread|].
  intros Hrank -> epoch.
  destruct (save_checkpoint_run N epoch w)
    as (sd & name & w' & Hsave & _ & _ & _ & Hfiles & _ & Hd' & _).
  assert (files w' !! get_checkpoint_tracker_filename
                        (output_dir (run_args w) +:+ "/ckpt")
          = Some (str N)) as Hf.
  { rewrite Hfiles. unfold rank0_prints. rewrite Hd, Hrank. simpl.
    apply lookup_insert_eq. }
  exists w'. split_and!; [done..|].
  erewrite bind_Return by exact Hsave.
  apply Hread; [by rewrite Hd'|done].
Qed.

Lemma tracker_round_trip_positive_witness :
  let tracker := "/data/run/ckpt/latest_checkpointed_iteration.txt" in
  0 < 100 <= int64_max
  /\ Forall (fun v => v <= 100) ([] : list Z)
  /\ exists w' : world,
       files w' !! tracker = Some "100"
       /\ (save_checkpoint 100 (PyInt 2);; read_metadata tracker)
            example_world
          = Return (100, false) w'.
Proof.
  intros tracker.
  assert (0 < 100 <= int64_max) as Hrange by (unfold int64_max; lia).
  destruct (tracker_round_trip_positive 100 tracker example_world
              {| group_rank := 0; peer_iterations := [] |}
              Hrange eq_refl (Forall_nil_2 _)) as [_ Hsave].
  destruct (Hsave eq_refl eq_refl (PyInt 2)) as (w' & _ & Hf & Hrt).
  split; [exact Hrange|]. split; [constructor|].
  exists w'. split; [exact Hf | exact Hrt].
Defined.

(** C1, as stated, fails at [N = 0]: [save_checkpoint] writes ["0"] to the
    tracker and [read_metadata] then fails its assertion
    [iteration > 0 or release] instead of returning [(0, false)]. *)
Lemma tracker_round_trip_fails_at_zero :
  let tracker := "/data/run/ckpt/latest_checkpointed_iteration.txt" in
  (exists w' : world,
      (save_checkpoint 0 (PyInt 0);; read_metadata tracker) example_world
      = Raise (AssertionError ("error parsing metadata file " +:+ tracker)) w'
      /\ files w' !! tracker = Some (str 0))
  /\ ~ (exists w' : world,
          (save_checkpoint 0 (PyInt 0);; read_metadata tracker) example_world
          = Return (0, false) w').
Proof.
  intros tracker.
  assert (exists w' : world,
      (save_checkpoint 0 (PyInt 0);; read_metadata tracker) example_world
      = Raise (AssertionError ("error parsing metadata file " +:+ tracker)) w'
      /\ files w' !! tracker = Some (str 0)) as Hfail.
  { destruct (save_checkpoint_run 0 (PyInt 0) example_world)
      as (sd & name & w' & Hsave & _ & _ & _ & Hfiles & _).
    exists w'.
    assert (files w' !! tracker = Some (str 0)) as Hf.
    { rewrite Hfiles. apply lookup_insert_eq. }
    split; [|done].
    erewrite bind_Return by exact Hsave.
    unfold read_metadata.
    erewrite bind_Raise; [reflexivity|].
    by rewrite (read_tracker_content _ _ _ Hf). }
  split; [exact Hfail|].
  destruct Hfail as (w' & Hw' & _). intros (w'' & Hw'').
  rewrite Hw' in Hw''. discriminate.
Qed.

(** ** Reconciliation across ranks *)










(** ** Loading: what the steps before the optimizer leave unchanged *)

Lemma bind_Return_inv {A B} (m : M A) (k : A -> M B) (w w2 : world) (b : B) :
  (m ≫= k) w = Return b w2 ->
  exists (a : A) (w1 : world), m w = Return a w1 /\ k a w1 = Return b w2.
Proof.
  unfold mbind, M_bind. destruct (m w) as [a w1|e w1]; [|done].
  intros H. by exists a, w1.
Qed.

Lemma same_setup_refl (w : world) : same_setup w w.
Proof. by repeat split. Qed.

Lemma same_setup_trans (w1 w2 w3 : world) :
  same_setup w1 w2 -> same_setup w2 w3 -> same_setup w1 w3.
Proof.
  unfold same_setup. intros H1 H2. destruct_and!.
  split_and!; congruence.
Qed.

Lemma same_setup_logged (lines : list string) (w : world) :
  same_setup w (logged lines w).
Proof. by repeat split. Qed.

Lemma read_metadata_returns (tracker_filename : string) (w w1 : world)
    (r : Z * bool) :
  read_metadata tracker_filename w = Return r w1 ->
  exists lines : list string, w1 = logged lines w.
Proof.
  unfold read_metadata. intros H.
  apply bind_Return_inv in H as ([it rel] & wa & Hread & H).
  apply read_tracker_returns in Hread as [-> _].
  apply bind_Return_inv in H as (t & wb & Ht & H).
  assert (wb = w) as ->.
  { unfold LongTensor in Ht. destruct (_ && _); by inversion Ht. }
  apply bind_Return_inv in H as (mx & wc & Hmx & H).
  assert (wc = w) as ->.
  { unfold all_reduce_max in Hmx. destruct (distributed w); by inversion Hmx. }
  apply bind_Return_inv in H as ([] & wd & Hwarn & H).
  injection H as _ <-.
  destruct (negb (it =? mx)).
  - apply bind_Return_inv in Hwarn as (pp & we & Hpp & Hwarn).
    injection Hpp as _ <-. rewrite print_run in Hwarn.
    injection Hwarn as <-. by eexists.
  - injection Hwarn as <-. exists []. by rewrite logged_nil.
Qed.

Lemma torch_load_returns (ext : external) (checkpoint_name : string)
    (w w1 : world) (sd : blob) :
  torch_load ext checkpoint_name w = Return sd w1 ->
  w1 = w /\ checkpoints w !! checkpoint_name = Some sd.
Proof.
  unfold torch_load. destruct (checkpoints w !! checkpoint_name).
  - by intros [= -> ->].
  - intros H. apply bind_Return_inv in H as (? & ? & _ & H).
    apply bind_Return_inv in H as (? & ? & _ & H). done.
Qed.

Lemma set_checkpoint_version_returns (v : pyval) (w w1 : world) :
  set_checkpoint_version v w = Return tt w1 -> w1 = set_version v w.
Proof.
  unfold set_checkpoint_version, mbind, M_bind, gets, modify, py_assert,
    mret, M_ret, raise.
  destruct (_CHECKPOINT_VERSION w); try destruct (py_eq _ v);
    by intros [= <-].
Qed.

Lemma getitem_returns (d : blob) (key : string) (w w1 : world) (v : pyval) :
  getitem d key w = Return v w1 -> w1 = w /\ d !! key = Some v.
Proof.
  unfold getitem. destruct (d !! key); [|done]. by intros [= -> ->].
Qed.

Lemma load_iteration_returns (sd : blob) (release : bool)
    (checkpoint_name : string) (w w1 : world) (v : pyval) :
  load_iteration sd release checkpoint_name w = Return v w1 -> w1 = w.
Proof.
  unfold load_iteration. intros H.
  apply bind_Return_inv in H as (a & wa & [= <- <-] & H).
  destruct (finetune _ || release); [by injection H|].
  destruct (sd !! "iteration"); [by injection H|].
  destruct (sd !! "total_iters"); [by injection H|].
  apply bind_Return_inv in H as (? & ? & _ & H). done.
Qed.

Lemma load_args_returns (sd : blob) (w w1 : world) :
  load_args sd w = Return tt w1 -> same_setup w w1.
Proof.
  unfold load_args. destruct (sd !! "args") as [ca|].
  - intros [= <-]. by repeat split.
  - rewrite print_rank_0_run. intros [= <-]. apply same_setup_logged.
Qed.

Lemma load_model_returns (ext : external) (sd : blob) (strict : bool)
    (w w1 : world) :
  load_model ext sd strict w = Return tt w1 -> same_setup w w1.
Proof.
  unfold load_model. intros H.
  apply bind_Return_inv in H as (v & wa & Hv & H).
  apply getitem_returns in Hv as [-> _].
  apply bind_Return_inv in H as ([] & wb & Hload & H).
  apply bind_Return_inv in H as (cv & wc & [= _ <-] & H).
  rewrite print_rank_0_run in H. injection H as <-.
  destruct (model_load_error ext v strict); [done|].
  injection Hload as <-. by repeat split.
Qed.

(** When the steps of [load_checkpoint] up to the loaded model return,
    the blob in hand is the file stored under the checkpoint's name, and
    the setup of the process is as before. *)
Lemma load_upto_model_returns (ext : external)
    (load_dir tracker_filename : string) (strict : bool)
    (w w1 : world) (l : load_locals) :
  load_upto_model ext load_dir tracker_filename strict w = Return l w1 ->
  same_setup w w1
  /\ checkpoints w !! l_checkpoint_name l = Some (l_state_dict l).
Proof.
  unfold load_upto_model. intros H.
  apply bind_Return_inv in H as ([it rel] & wa & Hmeta & H).
  apply read_metadata_returns in Hmeta as [lines ->].
  apply bind_Return_inv in H as (name & wb & Hname & H).
  destruct (get_checkpoint_name_returns load_dir it rel false (logged lines w))
    as [name' Hname'].
  rewrite (Hname' _ eq_refl) in Hname. injection Hname as <- <-.
  apply bind_Return_inv in H as (a & wc & [= _ <-] & H).
  apply bind_Return_inv in H as ([] & wd & Hp1 & H).
  rewrite print_rank_0_run, logged_logged in Hp1. injection Hp1 as <-.
  apply bind_Return_inv in H as ([] & we & Hp2 & H).
  rewrite print_run, logged_logged in Hp2. injection Hp2 as <-.
  apply bind_Return_inv in H as (sd & wf & Hload & H).
  apply torch_load_returns in Hload as [-> Hblob].
  apply bind_Return_inv in H as ([] & wg & Hver & H).
  apply set_checkpoint_version_returns in Hver as ->.
  apply bind_Return_inv in H as (epoch & wh & Hepoch & H).
  apply getitem_returns in Hepoch as [-> _].
  apply bind_Return_inv in H as (iteration & wi & Hit & H).
  apply load_iteration_returns in Hit as ->.
  apply bind_Return_inv in H as ([] & wj & Hargs & H).
  apply load_args_returns in Hargs.
  apply bind_Return_inv in H as ([] & wk & Hmodel & H).
  apply load_model_returns in Hmodel.
  injection H as <- <-. simpl. split; [|exact Hblob].
  eapply same_setup_trans; [|exact Hmodel].
  eapply same_setup_trans; [|exact Hargs].
  by repeat split.
Qed.

(** ** Loading: the coordinator *)

Lemma load_checkpoint_with_tracker (ext : external) (strict : bool)
    (w : world) :
  is_Some (files w !!
             get_checkpoint_tracker_filename
               (resume_from_checkpoint (run_args w))) ->
  load_checkpoint ext strict w
  = (l ← load_upto_model ext (resume_from_checkpoint (run_args w))
           (get_checkpoint_tracker_filename
              (resume_from_checkpoint (run_args w))) strict;
     load_optimizer ext l;; load_rng ext l;; load_finish ext l) w.
Proof.
  intros Hf. unfold load_checkpoint. step. step.
  by rewrite bool_decide_eq_true_2.
Qed.

Lemma load_finish_run (ext : external) (l : load_locals) (w : world) :
  load_finish ext l w
  = Return (Pair (l_iteration l) (l_epoch l))
      (logged (rank0_lines w
                 ("  successfully loaded checkpoint from " +:+
                  resume_from_checkpoint (run_args w) +:+
                  " at iteration " +:+ py_format ext (l_iteration l))) w).
Proof.
  unfold load_finish. step.
  erewrite (bind_Return _ _ _ w tt) by by destruct (distributed w).
  step. step. reflexivity.
Qed.

(** C3. What [load_checkpoint] does when no tracker file exists at the
    resume root: it raises nothing, prints the two warning lines through
    [print_rank_0] and returns the bare integer [0].  That value is not a
    pair: no [(iteration, epoch)] tuple is returned on this path, unlike
    on the path that ends in [return iteration, epoch]. *)
Theorem load_checkpoint_without_tracker
    (ext : external) (strict : bool) (w : world) :
  files w !! get_checkpoint_tracker_filename
               (resume_from_checkpoint (run_args w)) = None ->
  load_checkpoint ext strict w
  = Return (Bare (PyInt 0))
      (logged
         (rank0_lines w
            ("WARNING: could not find the metadata file " +:+
             get_checkpoint_tracker_filename
               (resume_from_checkpoint (run_args w)) +:+ " ")
          ++ rank0_lines w
               "    will not load any checkpoints and will start from random")
         w)
  /\ (forall (iteration epoch : pyval) (w' : world),
        load_checkpoint ext strict w <> Return (Pair iteration epoch) w').
Proof.
  intros Hf.
  assert (load_checkpoint ext strict w
          = Return (Bare (PyInt 0))
              (logged
                 (rank0_lines w
                    ("WARNING: could not find the metadata file " +:+
                     get_checkpoint_tracker_filename
                       (resume_from_checkpoint (run_args w)) +:+ " ")
                  ++ rank0_lines w
                       "    will not load any checkpoints and will start from random")
                 w)) as Hrun.
  { unfold load_checkpoint. step. step.
    rewrite Hf, bool_decide_eq_false_2 by by intros [? ?].
    simpl. step. step. by rewrite logged_logged. }
  split; [exact Hrun|].
  intros iteration epoch w'. rewrite Hrun. discriminate.
Qed.

Lemma load_checkpoint_without_tracker_witness :
  files example_world !! "/data/run/ckpt/latest_checkpointed_iteration.txt"
  = None
  /\ observed (load_checkpoint example_external true example_world)
     = Some (Bare (PyInt 0),
             ["WARNING: could not find the metadata file /data/run/ckpt/latest_checkpointed_iteration.txt ";
              "    will not load any checkpoints and will start from random"]).
Proof.
  split; [reflexivity|].
  destruct (load_checkpoint_without_tracker example_external true
              example_world eq_refl) as [Hrun _].
  rewrite Hrun. reflexivity.
Defined.

Lemma load_optimizer_missing_key (ext : external) (l : load_locals)
    (w : world) (o : pyval) :
  l_release l = false ->
  finetune (run_args w) = false ->
  no_load_optim (run_args w) = false ->
  optimizer (objects w) = Some o ->
  l_state_dict l !! "optimizer" = None ->
  load_optimizer ext l w
  = Raise SystemExit
      (logged (rank0_lines w (optimizer_remediation (l_checkpoint_name l))) w).
Proof.
  intros Hrel Hft Hno Hopt Hkey. unfold load_optimizer. step.
  rewrite Hrel, Hft, Hno. simpl.
  unfold except_KeyError.
  assert (restore_optimizer ext (l_state_dict l) w
          = Raise (KeyError "optimizer") w) as ->.
  { unfold restore_optimizer. step. rewrite Hopt.
    apply bind_Raise. apply bind_Raise. unfold getitem. by rewrite Hkey. }
  step. reflexivity.
Qed.

(** C7. Saving with [no_save_optim] set: [save_checkpoint] returns and the
    blob it assembles and writes has neither an ['optimizer'] nor an
    ['lr_scheduler'] key.  Loading a blob without the ['optimizer'] key:
    when the steps of [load_checkpoint] up to the loaded model have
    returned for a non-release checkpoint, an optimizer is present and
    [finetune] and [no_load_optim] are false, [load_checkpoint] ends in
    [sys.exit()] right after handing to [print_rank_0] (which prints on
    global rank 0, or outside a process group) the message
    [Unable to load optimizer from checkpoint <name>. Specify
    --no-load-optim or --finetune to prevent attempting to load the
    optimizer state, exiting ...]. *)
Theorem skip_optimizer_asymmetry :
  (forall (iteration : Z) (epoch : pyval) (w : world),
      no_save_optim (run_args w) = true ->
      exists (sd : blob) (w' : world),
        save_checkpoint iteration epoch w = Return tt w'
        /\ save_state_dict iteration epoch w = Return sd w
        /\ sd !! "optimizer" = None
        /\ sd !! "lr_scheduler" = None
        /\ (forall (path : string) (b : blob),
              checkpoints w' !! path = Some b ->
              checkpoints w !! path = Some b \/ b = sd))
  /\ (forall (ext : external) (strict : bool) (w w1 : world)
             (l : load_locals) (o : pyval),
        let load_dir := resume_from_checkpoint (run_args w) in
        let tracker := get_checkpoint_tracker_filename load_dir in
        is_Some (files w !! tracker) ->
        load_upto_model ext load_dir tracker strict w = Return l w1 ->
        l_state_dict l !! "optimizer" = None ->
        optimizer (objects w) = Some o ->
        l_release l = false ->
        finetune (run_args w) = false ->
        no_load_optim (run_args w) = false ->
        checkpoints w !! l_checkpoint_name l = Some (l_state_dict l)
        /\ load_checkpoint ext strict w
           = Raise SystemExit
               (logged
                  (rank0_lines w
                     ("Unable to load optimizer from checkpoint " +:+
                      l_checkpoint_name l +:+
                      ". Specify --no-load-optim or --finetune to prevent attempting to load the optimizer state, exiting ..."))
                  w1)).
Proof.
  split.
  - intros iteration epoch w Hno.
    destruct (save_checkpoint_run iteration epoch w)
      as (sd & name & w' & Hsave & Hsd & _ & Hcp & _).
    destruct (save_state_dict_returns iteration epoch w)
      as (sd' & Hsd' & _ & _ & _ & _ & _ & Hopt & Hlr & _).
    assert (sd' = sd) as -> by congruence.
    rewrite Hno in Hopt, Hlr.
    exists sd, w'. split_and!; try done.
    intros path b Hb. rewrite Hcp in Hb.
    destruct (is_writer w); [|by left].
    destruct (decide (name = path)) as [->|Hne].
    + rewrite lookup_insert_eq in Hb. right. congruence.
    + rewrite lookup_insert_ne in Hb by done. by left.
  - intros ext strict w w1 l o load_dir tracker Hf Hpre Hkey Hopt Hrel Hft Hno.
    destruct (load_upto_model_returns _ _ _ _ _ _ _ Hpre) as [Hsame Hblob].
    split; [exact Hblob|].
    rewrite load_checkpoint_with_tracker by exact Hf.
    erewrite bind_Return by exact Hpre. cbv beta.
    apply bind_Raise.
    unfold same_setup in Hsame. destruct_and!.
    rewrite (load_optimizer_missing_key ext l w1 o) by congruence.
    unfold optimizer_remediation, rank0_lines, rank0_prints.
    by replace (distributed w1) with (distributed w).
Qed.

Lemma skip_optimizer_asymmetry_witness :
  let tracker := "/data/run/ckpt/latest_checkpointed_iteration.txt" in
  let name := "/data/run/ckpt/iter_0000100/mp_rank_01/model_optim_rng.pt" in
  no_save_optim
    (run_args (set_run_args example_args_no_save_optim example_world)) = true
  /\ (exists (sd : blob) (w' : world),
        save_checkpoint 100 (PyInt 2)
          (set_run_args example_args_no_save_optim example_world)
        = Return tt w'
        /\ sd !! "optimizer" = None
        /\ checkpoints w' !! name = Some sd)
  /\ (exists (l : load_locals) (w1 : world),
        is_Some (files saved_without_optimizer !! tracker)
        /\ load_upto_model example_external "/data/run/ckpt" tracker true
             saved_without_optimizer = Return l w1
        /\ l_state_dict l !! "optimizer" = None
        /\ optimizer (objects saved_without_optimizer) = Some (PyState 2)
        /\ l_release l = false
        /\ l_checkpoint_name l = name
        /\ load_checkpoint example_external true saved_without_optimizer
           = Raise SystemExit (logged
               ["Unable to load optimizer from checkpoint /data/run/ckpt/iter_0000100/mp_rank_01/model_optim_rng.pt. Specify --no-load-optim or --finetune to prevent attempting to load the optimizer state, exiting ..."]
               w1))
  /\ raised (load_checkpoint example_external true saved_without_optimizer)
     = Some SystemExit
  /\ last (printed (load_checkpoint example_external true
                      saved_without_optimizer))
     = Some "Unable to load optimizer from checkpoint /data/run/ckpt/iter_0000100/mp_rank_01/model_optim_rng.pt. Specify --no-load-optim or --finetune to prevent attempting to load the optimizer state, exiting ...".
Proof.
  intros tracker name.
  destruct skip_optimizer_asymmetry as [Hsave Hload].
  split; [reflexivity|]. split; [|split; [|split]].
  - destruct (Hsave 100 (PyInt 2)
                (set_run_args example_args_no_save_optim example_world)
                eq_refl) as (sd & w' & Hrun & _ & Hopt & _ & Hall).
    exists sd, w'. split; [exact Hrun|]. split; [exact Hopt|].
    assert (match checkpoints
                    (final (save_checkpoint 100 (PyInt 2)
                              (set_run_args example_args_no_save_optim
                                 example_world))) !! name,
                  checkpoints
                    (set_run_args example_args_no_save_optim example_world)
                    !! name
            with
            | Some _, None => true
            | _, _ => false
            end = true) as Hnew by (vm_compute; reflexivity).
    rewrite Hrun in Hnew. simpl final in Hnew.
    destruct (checkpoints w' !! name) as [b|] eqn:Hb; [|discriminate Hnew].
    destruct (Hall name b Hb) as [Hold | ->]; [|reflexivity].
    rewrite Hold in Hnew. discriminate Hnew.
  - assert (match load_upto_model example_external "/data/run/ckpt" tracker
                    true saved_without_optimizer with
            | Return l _ =>
                l_state_dict l !! "optimizer" = None
                /\ l_release l = false /\ l_checkpoint_name l = name
            | Raise _ _ => False
            end) as Hfacts by (vm_compute; repeat split; reflexivity).
    destruct (load_upto_model example_external "/data/run/ckpt" tracker
                true saved_without_optimizer) as [l w1|e w1] eqn:Hpre;
      [|destruct Hfacts].
    destruct Hfacts as (Hkey & Hrel & Hname).
    assert (is_Some (files saved_without_optimizer !! tracker)) as Hf
      by (vm_compute; eexists; reflexivity).
    destruct (Hload example_external true saved_without_optimizer w1 l
                (PyState 2) Hf Hpre Hkey eq_refl Hrel eq_refl eq_refl)
      as [_ Hexit].
    rewrite Hname in Hexit.
    exists l, w1. split_and!; try assumption; reflexivity.
  - vm_compute. reflexivity.
  - vm_compute. reflexivity.
Defined.

(** ** Loading: the RNG step *)

Lemma set_state_returns (ext : external) (key : string) (v : pyval)
    (store : pyval -> world -> world) (w w' : world) :
  set_state ext key v store w = Return tt w' -> w' = store v w.
Proof.
  unfold set_state. destruct (set_state_error ext key v); [done|].
  by intros [= <-].
Qed.

Lemma set_state_accepted (ext : external) (key : string) (v : pyval)
    (store : pyval -> world -> world) (w : world) :
  set_state_error ext key v = None ->
  set_state ext key v store w = Return tt (store v w).
Proof. unfold set_state. by intros ->. Qed.

(** The [try] block of the RNG step when it returns: all five sources
    have been set from the blob, and the tracker states are not empty. *)
Lemma restore_rng_returns (ext : external) (sd : blob) (w w' : world) :
  restore_rng ext sd w = Return tt w' ->
  exists v1 v2 v3 v4 v5 : pyval,
    sd !! "random_rng_state" = Some v1
    /\ sd !! "np_rng_state" = Some v2
    /\ sd !! "torch_rng_state" = Some v3
    /\ sd !! "cuda_rng_state" = Some v4
    /\ sd !! "rng_tracker_states" = Some v5
    /\ py_truthy v5 = true
    /\ w' = store_tracker v5
              (store_cuda v4 (store_torch v3 (store_np v2 (store_random v1 w)))).
Proof.
  unfold restore_rng. intros H.
  apply bind_Return_inv in H as (v1 & wa & [-> H1]%getitem_returns & H).
  apply bind_Return_inv in H as ([] & wb & ->%set_state_returns & H).
  apply bind_Return_inv in H as (v2 & wc & [-> H2]%getitem_returns & H).
  apply bind_Return_inv in H as ([] & wd & ->%set_state_returns & H).
  apply bind_Return_inv in H as (v3 & we & [-> H3]%getitem_returns & H).
  apply bind_Return_inv in H as ([] & wf & ->%set_state_returns & H).
  apply bind_Return_inv in H as (v4 & wg & [-> H4]%getitem_returns & H).
  apply bind_Return_inv in H as ([] & wh & ->%set_state_returns & H).
  apply bind_Return_inv in H as (v5 & wi & [-> H5]%getitem_returns & H).
  apply bind_Return_inv in H as ([] & wj & Hcheck & H).
  apply bind_Return_inv in H as (v5' & wk & [-> H5']%getitem_returns & H).
  apply set_state_returns in H as ->.
  assert (v5' = v5) as -> by congruence.
  destruct (py_truthy v5) eqn:Htruthy; [|done].
  injection Hcheck as <-.
  by exists v1, v2, v3, v4, v5.
Qed.

(** The [try] block of the RNG step when a key is missing or the tracker
    states are empty, the setters returning on what is there: a
    [KeyError], and nothing printed. *)
Lemma restore_rng_raises (ext : external) (sd : blob) (w : world) :
  setters_return ext sd ->
  (exists v, sd !! "rng_tracker_states" = Some v /\ py_truthy v = false)
  \/ (exists key, key ∈ rng_keys /\ sd !! key = None) ->
  exists (key : string) (w' : world),
    restore_rng ext sd w = Raise (KeyError key) w'
    /\ stdout w' = stdout w /\ distributed w' = distributed w.
Proof.
  intros Hset Hbad. unfold restore_rng.
  destruct (sd !! "random_rng_state") as [v1|] eqn:H1; cycle 1.
  { eexists _, _.
    split; [apply bind_Raise; unfold getitem; by rewrite H1|done]. }
  erewrite bind_Return by (unfold getitem; by rewrite H1).
  erewrite bind_Return by (apply set_state_accepted; by eapply Hset).
  destruct (sd !! "np_rng_state") as [v2|] eqn:H2; cycle 1.
  { eexists _, _.
    split; [apply bind_Raise; unfold getitem; by rewrite H2|done]. }
  erewrite bind_Return by (unfold getitem; by rewrite H2).
  erewrite bind_Return by (apply set_state_accepted; by eapply Hset).
  destruct (sd !! "torch_rng_state") as [v3|] eqn:H3; cycle 1.
  { eexists _, _.
    split; [apply bind_Raise; unfold getitem; by rewrite H3|done]. }
  erewrite bind_Return by (unfold getitem; by rewrite H3).
  erewrite bind_Return by (apply set_state_accepted; by eapply Hset).
  destruct (sd !! "cuda_rng_state") as [v4|] eqn:H4; cycle 1.
  { eexists _, _.
    split; [apply bind_Raise; unfold getitem; by rewrite H4|done]. }
  erewrite bind_Return by (unfold getitem; by rewrite H4).
  erewrite bind_Return by (apply set_state_accepted; by eapply Hset).
  destruct (sd !! "rng_tracker_states") as [v5|] eqn:H5; cycle 1.
  { eexists _, _.
    split; [apply bind_Raise; unfold getitem; by rewrite H5|done]. }
  erewrite bind_Return by (unfold getitem; by rewrite H5).
  assert (py_truthy v5 = false) as Hempty.
  { destruct Hbad as [(v & Hv & Hfalse) | (key & Hkey & Hnone)].
    - congruence.
    - unfold rng_keys in Hkey.
      repeat (apply elem_of_cons in Hkey as [->|Hkey]; [congruence|]).
      by apply elem_of_nil in Hkey. }
  eexists _, _. split; [apply bind_Raise; by rewrite Hempty|done].
Qed.

Lemma except_KeyError_bind {A B} (m : M A) (k1 k2 : A -> M B) (h : M B)
    (w : world) :
  (forall a w', m w = Return a w' ->
     except_KeyError (k1 a) h w' = except_KeyError (k2 a) h w') ->
  except_KeyError (m ≫= k1) h w = except_KeyError (m ≫= k2) h w.
Proof.
  intros Hk. unfold except_KeyError at 1 2. unfold mbind, M_bind.
  destruct (m w) as [a w'|e w'] eqn:Hm; [|done].
  by apply Hk.
Qed.

Lemma load_rng_unfold (ext : external) (l : load_locals) (w : world) :
  load_rng ext l w
  = if negb (l_release l) && negb (finetune (run_args w))
       && negb (no_load_rng (run_args w))
    then except_KeyError (restore_rng ext (l_state_dict l))
           (print_rank_0 (rng_remediation (l_checkpoint_name l));; sys_exit) w
    else Return tt w.
Proof.
  unfold load_rng. step.
  by destruct (negb (l_release l) && negb (finetune (run_args w))
               && negb (no_load_rng (run_args w))).
Qed.

(** The RNG step cannot tell a blob whose tracker states are empty from
    the same blob without the key. *)
Lemma load_rng_empty_as_missing (ext : external) (l : load_locals)
    (sd : blob) (v : pyval) (w : world) :
  py_truthy v = false ->
  load_rng ext (with_state_dict (<["rng_tracker_states" := v]> sd) l) w
  = load_rng ext (with_state_dict (delete "rng_tracker_states" sd) l) w.
Proof.
  intros Hv. rewrite !load_rng_unfold.
  simpl l_release. simpl l_state_dict. simpl l_checkpoint_name.
  destruct (negb (l_release l) && negb (finetune (run_args w))
            && negb (no_load_rng (run_args w))); [|done].
  unfold restore_rng, getitem.
  rewrite (lookup_insert_ne sd "rng_tracker_states" "random_rng_state"),
    (lookup_insert_ne sd "rng_tracker_states" "np_rng_state"),
    (lookup_insert_ne sd "rng_tracker_states" "torch_rng_state"),
    (lookup_insert_ne sd "rng_tracker_states" "cuda_rng_state"),
    (lookup_delete_ne sd "rng_tracker_states" "random_rng_state"),
    (lookup_delete_ne sd "rng_tracker_states" "np_rng_state"),
    (lookup_delete_ne sd "rng_tracker_states" "torch_rng_state"),
    (lookup_delete_ne sd "rng_tracker_states" "cuda_rng_state") by done.
  rewrite lookup_insert_eq, lookup_delete_eq.
  do 8 (apply except_KeyError_bind; intros ? ? _).
  unfold except_KeyError, mbind, M_bind, mret, M_ret, raise. simpl.
  by rewrite Hv.
Qed.

Lemma load_rng_fatal (ext : external) (l : load_locals) (w : world) :
  l_release l = false ->
  finetune (run_args w) = false ->
  no_load_rng (run_args w) = false ->
  setters_return ext (l_state_dict l) ->
  (exists v, l_state_dict l !! "rng_tracker_states" = Some v
             /\ py_truthy v = false)
  \/ (exists key, key ∈ rng_keys /\ l_state_dict l !! key = None) ->
  exists w' : world,
    load_rng ext l w = Raise SystemExit w'
    /\ stdout w'
       = stdout w ++ rank0_lines w (rng_remediation (l_checkpoint_name l)).
Proof.
  intros Hrel Hft Hno Hset Hbad.
  rewrite load_rng_unfold, Hrel, Hft, Hno. simpl.
  destruct (restore_rng_raises ext (l_state_dict l) w Hset Hbad)
    as (key & w' & Hraise & Hout & Hd).
  unfold except_KeyError. rewrite Hraise. step.
  eexists. split; [reflexivity|]. simpl.
  unfold rank0_lines, rank0_prints. by rewrite Hout, Hd.
Qed.

Lemma load_rng_returns (ext : external) (l : load_locals) (w w' : world) :
  l_release l = false ->
  finetune (run_args w) = false ->
  no_load_rng (run_args w) = false ->
  load_rng ext l w = Return tt w' ->
  exists v1 v2 v3 v4 v5 : pyval,
    l_state_dict l !! "random_rng_state" = Some v1
    /\ l_state_dict l !! "np_rng_state" = Some v2
    /\ l_state_dict l !! "torch_rng_state" = Some v3
    /\ l_state_dict l !! "cuda_rng_state" = Some v4
    /\ l_state_dict l !! "rng_tracker_states" = Some v5
    /\ py_truthy v5 = true
    /\ w' = store_tracker v5
              (store_cuda v4 (store_torch v3 (store_np v2 (store_random v1 w)))).
Proof.
  intros Hrel Hft Hno. rewrite load_rng_unfold, Hrel, Hft, Hno. simpl.
  unfold except_KeyError.
  destruct (restore_rng ext (l_state_dict l) w) as [[] w1|e w1] eqn:Hbody.
  - intros [= <-]. by apply restore_rng_returns in Hbody.
  - destruct e; try done. step. done.
Qed.

Lemma load_optimizer_returns (ext : external) (l : load_locals)
    (w w' : world) :
  load_optimizer ext l w = Return tt w' ->
  exists ob : trainer, w' = set_objects ob w.
Proof.
  unfold load_optimizer. intros H.
  apply bind_Return_inv in H as (a & wa & [= _ <-] & H).
  destruct (negb (l_release l) && negb (finetune a) && negb (no_load_optim a)).
  - unfold except_KeyError in H.
    destruct (restore_optimizer ext (l_state_dict l) w) as [[] w1|e w1]
      eqn:Hbody.
    + injection H as <-. unfold restore_optimizer in Hbody.
      apply bind_Return_inv in Hbody as (o & wb & [= <- <-] & Hbody).
      apply bind_Return_inv in Hbody as ([] & wc & Hopt & Hlr).
      assert (exists ob, wc = set_objects ob w) as [ob ->].
      { destruct (optimizer (objects w)).
        - apply bind_Return_inv in Hopt
            as (v & wd & [-> _]%getitem_returns & ->%set_state_returns).
          by eexists.
        - injection Hopt as <-. exists (objects w). by destruct w. }
      destruct (lr_scheduler (objects w)).
      * apply bind_Return_inv in Hlr
          as (v & wd & [-> _]%getitem_returns & ->%set_state_returns).
        by eexists.
      * injection Hlr as <-. by eexists.
    + destruct e; try done. revert H. step. done.
  - injection H as <-. exists (objects w). by destruct w.
Qed.

(** C8 (amended). With [release], [finetune] and [no_load_rng] all
    false, the RNG step of [load_checkpoint] ends exactly the same way,
    final process state included, on a blob whose ['rng_tracker_states']
    is empty and on that blob without the key.  When the earlier steps
    have returned and the setters accept what the blob holds, a blob
    with empty tracker states and a blob that misses any of the five RNG
    keys both make [load_checkpoint] end in [sys.exit()] right after
    handing to [print_rank_0] the same message,
    [Unable to load rng state from checkpoint <name>. Specify
    --no-load-rng or --finetune to prevent attempting to load the rng
    state, exiting ...].  Whenever [load_checkpoint] returns, all five
    RNG sources hold the states of the blob.  The restore is not
    all-or-nothing on the fatal path: the sources are set one after the
    other, so when the tracker states are the missing or empty ones, the
    four other sources already hold the states of the blob at the exit
    and only the tracker states are as before. *)
(** The RNG step on a blob that has the four plain states and whose
    tracker states are missing or empty: the four sources are set before
    the [KeyError] is raised. *)
Lemma load_rng_stops_at_tracker (ext : external) (l : load_locals)
    (w : world) (v1 v2 v3 v4 : pyval) :
  l_release l = false ->
  finetune (run_args w) = false ->
  no_load_rng (run_args w) = false ->
  setters_return ext (l_state_dict l) ->
  l_state_dict l !! "random_rng_state" = Some v1 ->
  l_state_dict l !! "np_rng_state" = Some v2 ->
  l_state_dict l !! "torch_rng_state" = Some v3 ->
  l_state_dict l !! "cuda_rng_state" = Some v4 ->
  (l_state_dict l !! "rng_tracker_states" = None
   \/ exists v, l_state_dict l !! "rng_tracker_states" = Some v
                /\ py_truthy v = false) ->
  load_rng ext l w
  = Raise SystemExit
      (logged (rank0_lines w (rng_remediation (l_checkpoint_name l)))
         (store_cuda v4 (store_torch v3 (store_np v2 (store_random v1 w))))).
Proof.
  intros Hrel Hft Hno Hset Hk1 Hk2 Hk3 Hk4 Hbad.
  rewrite load_rng_unfold, Hrel, Hft, Hno. simpl.
  assert (exists key : string,
             restore_rng ext (l_state_dict l) w
             = Raise (KeyError key)
                 (store_cuda v4
                    (store_torch v3 (store_np v2 (store_random v1 w)))))
    as [key Hraise].
  { unfold restore_rng.
    erewrite bind_Return by (unfold getitem; by rewrite Hk1).
    erewrite bind_Return by (apply set_state_accepted; by eapply Hset).
    erewrite bind_Return by (unfold getitem; by rewrite Hk2).
    erewrite bind_Return by (apply set_state_accepted; by eapply Hset).
    erewrite bind_Return by (unfold getitem; by rewrite Hk3).
    erewrite bind_Return by (apply set_state_accepted; by eapply Hset).
    erewrite bind_Return by (unfold getitem; by rewrite Hk4).
    erewrite bind_Return by (apply set_state_accepted; by eapply Hset).
    destruct Hbad as [Hnone | (v & Hv & Hfalse)].
    - exists "rng_tracker_states". apply bind_Raise.
      unfold getitem. by rewrite Hnone.
    - exists "". erewrite bind_Return by (unfold getitem; by rewrite Hv).
      apply bind_Raise. by rewrite Hfalse. }
  unfold except_KeyError. rewrite Hraise. step. reflexivity.
Qed.

Theorem rng_restore_empty_tracker_as_missing_key :
  (forall (ext : external) (l : load_locals) (sd : blob) (v : pyval)
          (w : world),
      py_truthy v = false ->
      load_rng ext (with_state_dict (<["rng_tracker_states" := v]> sd) l) w
      = load_rng ext (with_state_dict (delete "rng_tracker_states" sd) l) w)
  /\ (forall (ext : external) (strict : bool) (w w1 w2 : world)
             (l : load_locals),
        let load_dir := resume_from_checkpoint (run_args w) in
        let tracker := get_checkpoint_tracker_filename load_dir in
        is_Some (files w !! tracker) ->
        load_upto_model ext load_dir tracker strict w = Return l w1 ->
        load_optimizer ext l w1 = Return tt w2 ->
        l_release l = false ->
        finetune (run_args w) = false ->
        no_load_rng (run_args w) = false ->
        setters_return ext (l_state_dict l) ->
        (exists v, l_state_dict l !! "rng_tracker_states" = Some v
                   /\ py_truthy v = false)
        \/ (exists key, key ∈ rng_keys /\ l_state_dict l !! key = None) ->
        exists w' : world,
          load_checkpoint ext strict w = Raise SystemExit w'
          /\ stdout w'
             = stdout w2 ++
               rank0_lines w
                 ("Unable to load rng state from checkpoint " +:+
                  l_checkpoint_name l +:+
                  ". Specify --no-load-rng or --finetune to prevent attempting to load the rng state, exiting ..."))
  /\ (forall (ext : external) (strict : bool) (w w1 w' : world)
             (l : load_locals) (r : load_result),
        let load_dir := resume_from_checkpoint (run_args w) in
        let tracker := get_checkpoint_tracker_filename load_dir in
        is_Some (files w !! tracker) ->
        load_upto_model ext load_dir tracker strict w = Return l w1 ->
        l_release l = false ->
        finetune (run_args w) = false ->
        no_load_rng (run_args w) = false ->
        load_checkpoint ext strict w = Return r w' ->
        exists v1 v2 v3 v4 v5 : pyval,
          l_state_dict l !! "random_rng_state" = Some v1
          /\ l_state_dict l !! "np_rng_state" = Some v2
          /\ l_state_dict l !! "torch_rng_state" = Some v3
          /\ l_state_dict l !! "cuda_rng_state" = Some v4
          /\ l_state_dict l !! "rng_tracker_states" = Some v5
          /\ py_truthy v5 = true
          /\ rng w' = {| random_rng_state := v1; np_rng_state := v2;
                         torch_rng_state := v3; cuda_rng_state := v4;
                         rng_tracker_states := v5 |})
  /\ (forall (ext : external) (strict : bool) (w w1 w2 : world)
             (l : load_locals) (v1 v2 v3 v4 : pyval),
        let load_dir := resume_from_checkpoint (run_args w) in
        let tracker := get_checkpoint_tracker_filename load_dir in
        is_Some (files w !! tracker) ->
        load_upto_model ext load_dir tracker strict w = Return l w1 ->
        load_optimizer ext l w1 = Return tt w2 ->
        l_release l = false ->
        finetune (run_args w) = false ->
        no_load_rng (run_args w) = false ->
        setters_return ext (l_state_dict l) ->
        l_state_dict l !! "random_rng_state" = Some v1 ->
        l_state_dict l !! "np_rng_state" = Some v2 ->
        l_state_dict l !! "torch_rng_state" = Some v3 ->
        l_state_dict l !! "cuda_rng_state" = Some v4 ->
        (l_state_dict l !! "rng_tracker_states" = None
         \/ exists v, l_state_dict l !! "rng_tracker_states" = Some v
                      /\ py_truthy v = false) ->
        exists w' : world,
          load_checkpoint ext strict w = Raise SystemExit w'
          /\ rng w' = {| random_rng_state := v1; np_rng_state := v2;
                         torch_rng_state := v3; cuda_rng_state := v4;
                         rng_tracker_states := rng_tracker_states (rng w) |}).
Proof.
  split_and!.
  - intros. by apply load_rng_empty_as_missing.
  - intros ext strict w w1 w2 l load_dir tracker Hf Hpre Hopt Hrel Hft Hno
      Hset Hbad.
    destruct (load_upto_model_returns _ _ _ _ _ _ _ Hpre) as [Hsame _].
    destruct (load_optimizer_returns _ _ _ _ Hopt) as [ob ->].
    unfold same_setup in Hsame. destruct_and!.
    destruct (load_rng_fatal ext l (set_objects ob w1)) as (w' & Hexit & Hout);
      [done|simpl; congruence|simpl; congruence|done|done|].
    exists w'. split.
    + rewrite load_checkpoint_with_tracker by exact Hf.
      erewrite bind_Return by exact Hpre. cbv beta.
      erewrite bind_Return by exact Hopt.
      by apply bind_Raise.
    + rewrite Hout. unfold rng_remediation, rank0_lines, rank0_prints. simpl.
      by replace (distributed w1) with (distributed w).
  - intros ext strict w w1 w' l r load_dir tracker Hf Hpre Hrel Hft Hno Hrun.
    destruct (load_upto_model_returns _ _ _ _ _ _ _ Hpre) as [Hsame _].
    rewrite load_checkpoint_with_tracker in Hrun by exact Hf.
    erewrite bind_Return in Hrun by exact Hpre. cbv beta in Hrun.
    apply bind_Return_inv in Hrun as ([] & w2 & Hopt & Hrun).
    apply bind_Return_inv in Hrun as ([] & w3 & Hrng & Hrun).
    rewrite load_finish_run in Hrun. injection Hrun as _ <-.
    destruct (load_optimizer_returns _ _ _ _ Hopt) as [ob ->].
    unfold same_setup in Hsame. destruct_and!.
    apply load_rng_returns in Hrng
      as (v1 & v2 & v3 & v4 & v5 & Hk1 & Hk2 & Hk3 & Hk4 & Hk5 & Htruthy & ->);
      [|done|simpl; congruence|simpl; congruence].
    by exists v1, v2, v3, v4, v5.
  - intros ext strict w w1 w2 l v1 v2 v3 v4 load_dir tracker Hf Hpre Hopt
      Hrel Hft Hno Hset Hk1 Hk2 Hk3 Hk4 Hbad.
    destruct (load_upto_model_returns _ _ _ _ _ _ _ Hpre) as [Hsame _].
    destruct (load_optimizer_returns _ _ _ _ Hopt) as [ob ->].
    unfold same_setup in Hsame.
    destruct Hsame as (_ & _ & _ & _ & _ & _ & Hft1 & _ & Hnlr1 & _ & _
                       & Hrng1).
    eexists. split.
    + rewrite load_checkpoint_with_tracker by exact Hf.
      erewrite bind_Return by exact Hpre. cbv beta.
      erewrite bind_Return by exact Hopt.
      apply bind_Raise.
      apply (load_rng_stops_at_tracker ext l (set_objects ob w1)
               v1 v2 v3 v4);
        [done|simpl; congruence|simpl; congruence|done|done|done|done|done
        |done].
    + simpl. by rewrite Hrng1.
Qed.


Lemma rng_restore_empty_tracker_as_missing_key_witness :
  let tracker := "/data/run/ckpt/latest_checkpointed_iteration.txt" in
  let name := "/data/run/ckpt/iter_0000100/mp_rank_01/model_optim_rng.pt" in
  (exists (l : load_locals) (w1 w2 w' : world),
      is_Some (files saved_with_empty_tracker !! tracker)
      /\ load_upto_model example_external "/data/run/ckpt" tracker true
           saved_with_empty_tracker = Return l w1
      /\ load_optimizer example_external l w1 = Return tt w2
      /\ l_release l = false
      /\ l_checkpoint_name l = name
      /\ setters_return example_external (l_state_dict l)
      /\ l_state_dict l !! "rng_tracker_states" = Some (PyStates ∅)
      /\ py_truthy (PyStates ∅) = false
      /\ load_checkpoint example_external true saved_with_empty_tracker
         = Raise SystemExit w'
      /\ stdout w' = stdout w2 ++
           ["Unable to load rng state from checkpoint /data/run/ckpt/iter_0000100/mp_rank_01/model_optim_rng.pt. Specify --no-load-rng or --finetune to prevent attempting to load the rng state, exiting ..."])
  /\ raised (load_checkpoint example_external true saved_with_empty_tracker)
     = Some SystemExit
  /\ last (printed (load_checkpoint example_external true
                      saved_with_empty_tracker))
     = Some "Unable to load rng state from checkpoint /data/run/ckpt/iter_0000100/mp_rank_01/model_optim_rng.pt. Specify --no-load-rng or --finetune to prevent attempting to load the rng state, exiting ..."
  /\ raised (load_checkpoint example_external true saved_without_rng)
     = Some SystemExit
  /\ last (printed (load_checkpoint example_external true saved_without_rng))
     = Some "Unable to load rng state from checkpoint /data/run/ckpt/iter_0000100/mp_rank_01/model_optim_rng.pt. Specify --no-load-rng or --finetune to prevent attempting to load the rng state, exiting ..."
  /\ (exists (r : load_result) (w' : world),
        load_checkpoint example_external true saved_world = Return r w'
        /\ rng w' = rng example_world).
Proof.
  intros tracker name.
  destruct rng_restore_empty_tracker_as_missing_key
    as (_ & Hfatal & Hall & _).
  split; [|split; [|split; [|split; [|split]]]].
  - assert (match load_upto_model example_external "/data/run/ckpt" tracker
                    true saved_with_empty_tracker with
            | Return l w1 =>
                l_release l = false /\ l_checkpoint_name l = name
                /\ l_state_dict l !! "rng_tracker_states"
                   = Some (PyStates ∅)
                /\ raised (load_optimizer example_external l w1) = None
            | Raise _ _ => False
            end) as Hfacts by (vm_compute; repeat split; reflexivity).
    destruct (load_upto_model example_external "/data/run/ckpt" tracker
                true saved_with_empty_tracker) as [l w1|e w1] eqn:Hpre;
      [|destruct Hfacts].
    destruct Hfacts as (Hrel & Hname & Hkey & Hopt).
    destruct (load_optimizer example_external l w1) as [[] w2|e w2]
      eqn:Hopt'; [|discriminate Hopt].
    assert (is_Some (files saved_with_empty_tracker !! tracker)) as Hf
      by (vm_compute; eexists; reflexivity).
    assert (setters_return example_external (l_state_dict l)) as Hset
      by (intros ? ? _; reflexivity).
    destruct (Hfatal example_external true saved_with_empty_tracker
                w1 w2 l Hf Hpre Hopt' Hrel eq_refl eq_refl Hset
                (or_introl (ex_intro _ (PyStates ∅) (conj Hkey eq_refl))))
      as (w' & Hexit & Hout).
    rewrite Hname in Hout.
    exists l, w1, w2, w'. split_and!; try assumption; reflexivity.
  - vm_compute. reflexivity.
  - vm_compute. reflexivity.
  - vm_compute. reflexivity.
  - vm_compute. reflexivity.
  - assert (match load_upto_model example_external "/data/run/ckpt" tracker
                    true saved_world with
            | Return l _ =>
                l_release l = false
                /\ l_state_dict l !! "random_rng_state" = Some (PyState 4)
                /\ l_state_dict l !! "np_rng_state" = Some (PyState 5)
                /\ l_state_dict l !! "torch_rng_state" = Some (PyState 6)
                /\ l_state_dict l !! "cuda_rng_state" = Some (PyState 7)
                /\ l_state_dict l !! "rng_tracker_states"
                   = Some (rng_tracker_states (rng example_world))
            | Raise _ _ => False
            end) as Hfacts by (vm_compute; repeat split; reflexivity).
    destruct (load_upto_model example_external "/data/run/ckpt" tracker
                true saved_world) as [l w1|e w1] eqn:Hpre;
      [|destruct Hfacts].
    destruct Hfacts as (Hrel & Hk1 & Hk2 & Hk3 & Hk4 & Hk5).
    assert (raised (load_checkpoint example_external true saved_world)
            = None) as Hret by (vm_compute; reflexivity).
    destruct (load_checkpoint example_external true saved_world)
      as [r w'|e w'] eqn:Hrun; [|discriminate Hret].
    assert (is_Some (files saved_world !! tracker)) as Hf
      by (vm_compute; eexists; reflexivity).
    destruct (Hall example_external true saved_world w1 w' l r
                Hf Hpre Hrel eq_refl eq_refl Hrun)
      as (v1 & v2 & v3 & v4 & v5 & H1 & H2 & H3 & H4 & H5 & _ & Hrng).
    exists r, w'. split; [reflexivity|].
    rewrite Hrng.
    rewrite Hk1 in H1. rewrite Hk2 in H2. rewrite Hk3 in H3.
    rewrite Hk4 in H4. rewrite Hk5 in H5.
    injection H1 as <-. injection H2 as <-. injection H3 as <-.
    injection H4 as <-. injection H5 as <-. reflexivity.
Defined.

(** C8, as stated, fails on the fatal path: a process whose five RNG
    sources hold states of its own resumes from a checkpoint saved with
    empty tracker states; [load_checkpoint] ends in [sys.exit()], and at
    that point four of its five RNG sources hold the states of the blob
    while its tracker states are still its own: a proper subset of the
    RNG sources has been restored. *)
Lemma rng_restore_partial_on_exit :
  rng resumed_on_empty_tracker
  = {| random_rng_state := PyState 40; np_rng_state := PyState 50;
       torch_rng_state := PyState 60; cuda_rng_state := PyState 70;
       rng_tracker_states := PyStates {[ "model-parallel-rng" := 80%N ]} |}
  /\ exists w' : world,
       load_checkpoint example_external true resumed_on_empty_tracker
       = Raise SystemExit w'
       /\ rng w'
          = {| random_rng_state := PyState 4; np_rng_state := PyState 5;
               torch_rng_state := PyState 6; cuda_rng_state := PyState 7;
               rng_tracker_states :=
                 PyStates {[ "model-parallel-rng" := 80%N ]} |}.
Proof.
  split; [reflexivity|].
  assert (match load_checkpoint example_external true
                  resumed_on_empty_tracker with
          | Raise SystemExit w' =>
              rng w'
              = {| random_rng_state := PyState 4; np_rng_state := PyState 5;
                   torch_rng_state := PyState 6; cuda_rng_state := PyState 7;
                   rng_tracker_states :=
                     PyStates {[ "model-parallel-rng" := 80%N ]} |}
          | _ => False
          end) as Hexit by (vm_compute; reflexivity).
  destruct (load_checkpoint example_external true resumed_on_empty_tracker)
    as [r w'|e w']; [destruct Hexit|].
  destruct e; [|destruct Hexit..].
  exists w'. split; [reflexivity|exact Hexit].
Qed.

(** C2. What the code does with a snapshot that disagrees with the run:
    [check_checkpoint_args] returns for every stored snapshot and every
    run configuration without comparing a single field (its body only
    defines [_compare]), so the argument step of [load_checkpoint]
    returns for every blob that carries a snapshot.  In particular, a
    checkpoint saved with [hidden_size = 768] and resumed by a run with
    [hidden_size = 1024] loads to the end and returns
    [(iteration, epoch)], although [_compare] applied to that field would
    have failed its assertion. *)
Theorem check_checkpoint_args_compares_nothing :
  (forall (checkpoint_args : pyval) (a : args) (w : world),
      check_checkpoint_args checkpoint_args a w = Return tt w)
  /\ (forall (sd : blob) (checkpoint_args : pyval) (w : world),
        exists w' : world,
          load_args (<["args" := checkpoint_args]> sd) w = Return tt w')
  /\ (checkpoints resumed_with_other_shape
        !! "/data/run/ckpt/iter_0000100/mp_rank_01/model_optim_rng.pt")
       ≫= (fun sd : blob => sd !! "args")
     = Some (PyArgs example_args)
  /\ getattr example_args "hidden_size" = Some (PyInt 768)
  /\ getattr (run_args resumed_with_other_shape) "hidden_size"
     = Some (PyInt 1024)
  /\ observed (load_checkpoint example_external true resumed_with_other_shape)
     = Some (Pair (PyInt 100) (PyInt 2),
             stdout resumed_with_other_shape ++
             [" loading checkpoint from /data/run/ckpt at iteration 100";
              "/data/run/ckpt/iter_0000100/mp_rank_01/model_optim_rng.pt";
              " checkpoint version <object>";
              "  successfully loaded checkpoint from /data/run/ckpt at iteration 100"])
  /\ raised (_compare example_external (PyArgs example_args)
               (run_args resumed_with_other_shape) "hidden_size" None
               resumed_with_other_shape)
     = Some (AssertionError
               "hidden_size value from checkpoint (768) is not equal to the input argument value (1024).").
Proof.
  split_and!.
  - reflexivity.
  - intros sd checkpoint_args w. eexists.
    apply load_args_with_snapshot with (ca := checkpoint_args).
    apply lookup_insert_eq.
  - vm_compute. reflexivity.
  - vm_compute. reflexivity.
  - vm_compute. reflexivity.
  - vm_compute. reflexivity.
  - vm_compute. reflexivity.
Qed.

(** * Further properties of the code *)

(** ** [unwrap_model] and [load_config] *)

Lemma fold_append_each {A} (l acc : list A) :
  fold_left (fun a x => a ++ [x]) l acc = acc ++ l.
Proof.
  revert acc. induction l as [|x l IH]; intros acc; simpl.
  - by rewrite app_nil_r.
  - rewrite IH. by rewrite <- app_assoc.
Qed.

(** X1. [unwrap_model] hands back what it was given: a single module
    comes back as that module (the index [0] of the one-element list is
    always there), a list comes back as a list of the same modules in the
    same order, the empty list included; no module is unwrapped or
    replaced. *)
Theorem unwrap_model_returns_its_argument (model : model_arg) :
  unwrap_model model = Some model.
Proof.
  destruct model as [m|ms]; unfold unwrap_model; simpl;
    rewrite ?fold_append_each; reflexivity.
Qed.

(** X2. [load_config] returns a dictionary exactly for the three names
    ["gpt2"], ["t5-base"] and ["bert-large-uncased"], compared as exact,
    case-sensitive strings; for every other name it raises [ValueError]
    with the message [No <name> config]. *)
Theorem load_config_known_names (model_name : string) :
  ((exists items, load_config model_name = Config items)
   <-> model_name ∈ ["gpt2"; "t5-base"; "bert-large-uncased"])
  /\ (model_name ∉ ["gpt2"; "t5-base"; "bert-large-uncased"] ->
      load_config model_name
      = ValueError ("No " +:+ model_name +:+ " config")).
Proof.
  unfold load_config.
  destruct (String.eqb_spec model_name "gpt2") as [->|H1].
  { split; [split; [intros _; set_solver|by eexists]|set_solver]. }
  destruct (String.eqb_spec model_name "t5-base") as [->|H2].
  { split; [split; [intros _; set_solver|by eexists]|set_solver]. }
  destruct (String.eqb_spec model_name "bert-large-uncased") as [->|H3].
  { split; [split; [intros _; set_solver|by eexists]|set_solver]. }
  split; [|done]. split; [by intros [? ?]|].
  intros Hin. repeat (apply elem_of_cons in Hin as [->|Hin]; [done|]).
  by apply elem_of_nil in Hin.
Qed.

Lemma load_config_known_names_witness :
  ("GPT2" ∉ ["gpt2"; "t5-base"; "bert-large-uncased"])
  /\ load_config "GPT2" = ValueError "No GPT2 config".
Proof.
  assert ("GPT2" ∉ ["gpt2"; "t5-base"; "bert-large-uncased"]) as Hnot.
  { intros Hin. repeat (apply elem_of_cons in Hin as [Heq|Hin];
                        [discriminate Heq|]).
    by apply elem_of_nil in Hin. }
  split; [exact Hnot|].
  exact (proj2 (load_config_known_names "GPT2") Hnot).
Defined.

(** X3. Every dictionary [load_config] returns has no key written twice,
    turns the cache off (['use_cache'] is [False]), and carries a positive
    integer ['vocab_size'], a ['model_type'] string and an
    ['architectures'] list with exactly one name. *)
Theorem load_config_common_fields
    (model_name : string) (items : list (string * config_value)) :
  load_config model_name = Config items ->
  NoDup items.*1
  /\ config_get "use_cache" items = Some (CBool false)
  /\ (exists v, config_get "vocab_size" items = Some (CInt v) /\ 0 < v)
  /\ (exists t, config_get "model_type" items = Some (CStr t))
  /\ (exists a, config_get "architectures" items = Some (CList [CStr a])).
Proof.
  unfold load_config.
  destruct (String.eqb model_name "gpt2");
    [|destruct (String.eqb model_name "t5-base");
      [|destruct (String.eqb model_name "bert-large-uncased"); [|done]]];
    intros [= <-];
    (split; [apply (bool_decide_unpack _); vm_compute; reflexivity|]);
    (split; [reflexivity|]);
    (split; [eexists; split; [reflexivity|reflexivity]|]);
    (split; eexists; reflexivity).
Qed.

Lemma load_config_common_fields_witness :
  exists items,
    load_config "t5-base" = Config items
    /\ config_get "use_cache" items = Some (CBool false)
    /\ config_get "vocab_size" items = Some (CInt 32128).
Proof.
  destruct (load_config "t5-base") as [items|msg] eqn:Hload;
    [|discriminate Hload].
  destruct (load_config_common_fields "t5-base" items Hload)
    as (_ & Hcache & _).
  exists items. split; [reflexivity|]. split; [exact Hcache|].
  injection Hload as <-. reflexivity.
Defined.

(** ** More on the checkpoint namer *)

(** Two processes of one topology that get the same non-release path
    were asked for the same iteration. *)
Lemma checkpoint_name_determines_iteration
    (root : string) (it1 it2 : Z) (complete : bool) (w1 w2 : world)
    (path : string) :
  topology w1 = topology w2 ->
  get_checkpoint_name root it1 false complete w1 = Return path w1 ->
  get_checkpoint_name root it2 false complete w2 = Return path w2 ->
  it1 = it2.
Proof.
  intros Ht H1 H2.
  destruct (Z.eq_dec (pipe_parallel_world_size (topology w1)) 1) as [HW|HW];
    pose proof HW as HW2; rewrite Ht in HW2; destruct complete.
  - rewrite get_checkpoint_name_complete_single in H1, H2 by done.
    injection H1 as <-. injection H2 as H2.
    do 2 apply String.app_inj in H2.
    by apply rank_then_sep_inj in H2 as [? _].
  - rewrite get_checkpoint_name_plain_single in H1, H2 by done.
    injection H1 as <-. injection H2 as H2.
    apply String.app_inj in H2. rewrite !sapp_assoc in H2.
    apply String.app_inj in H2.
    by apply rank_then_sep_inj in H2 as [? _].
  - rewrite get_checkpoint_name_complete_pipeline in H1, H2 by done.
    injection H1 as <-. injection H2 as H2.
    apply String.app_inj in H2. rewrite !sapp_assoc in H2.
    apply String.app_inj in H2.
    by apply rank_then_sep_inj in H2 as [? _].
  - rewrite get_checkpoint_name_plain_pipeline in H1, H2 by done.
    injection H1 as <-. injection H2 as H2.
    apply String.app_inj in H2. rewrite !sapp_assoc in H2.
    apply String.app_inj in H2.
    by apply rank_then_sep_inj in H2 as [? _].
Qed.

(** X4. For checkpoints that are not release checkpoints, the path names
    the iteration: with the same root, completeness flag and rank, two
    iterations that get the same path are equal, in all four branches of
    [get_checkpoint_name]; put the other way round, different iterations
    get different paths. *)
Theorem get_checkpoint_name_iteration_injective
    (root : string) (it1 it2 : Z) (complete : bool) (w : world) :
  (forall path : string,
      get_checkpoint_name root it1 false complete w = Return path w ->
      get_checkpoint_name root it2 false complete w = Return path w ->
      it1 = it2)
  /\ (it1 <> it2 ->
      get_checkpoint_name root it1 false complete w
      <> get_checkpoint_name root it2 false complete w).
Proof.
  split.
  - intros path H1 H2.
    by apply (checkpoint_name_determines_iteration root it1 it2 complete
                w w path).
  - intros Hne Heq.
    destruct (get_checkpoint_name_returns root it1 false complete w)
      as [path Hpath].
    apply Hne.
    apply (checkpoint_name_determines_iteration root it1 it2 complete
             w w path); [done|by apply Hpath|].
    rewrite <- Heq. by apply Hpath.
Qed.

Lemma get_checkpoint_name_iteration_injective_witness :
  100 <> 200
  /\ get_checkpoint_name "/data/run/ckpt" 100 false false example_world
     <> get_checkpoint_name "/data/run/ckpt" 200 false false example_world.
Proof.
  assert (100 <> 200) as Hne by discriminate.
  split; [exact Hne|].
  exact (proj2 (get_checkpoint_name_iteration_injective "/data/run/ckpt"
                  100 200 false example_world) Hne).
Defined.

(** X5. Unless [complete] is set in a topology whose pipeline dimension
    has size 1, the path of a release checkpoint is the path of no
    iteration: the [release] directory never coincides with an
    [iter_<n>] directory. *)
Theorem release_name_is_no_iteration_name
    (root : string) (it1 it2 : Z) (complete : bool) (w : world)
    (path : string) :
  complete = false \/ pipe_parallel_world_size (topology w) <> 1 ->
  get_checkpoint_name root it1 true complete w = Return path w ->
  get_checkpoint_name root it2 false complete w <> Return path w.
Proof.
  intros Hmode H1 H2.
  destruct (Z.eq_dec (pipe_parallel_world_size (topology w)) 1) as [HW|HW],
    complete; try (destruct Hmode; done).
  - rewrite get_checkpoint_name_plain_single in H1, H2 by done.
    injection H1 as <-. injection H2 as H2.
    apply String.app_inj in H2. discriminate H2.
  - rewrite get_checkpoint_name_complete_pipeline in H1, H2 by done.
    injection H1 as <-. injection H2 as H2.
    apply String.app_inj in H2. discriminate H2.
  - rewrite get_checkpoint_name_plain_pipeline in H1, H2 by done.
    injection H1 as <-. injection H2 as H2.
    apply String.app_inj in H2. discriminate H2.
Qed.

Lemma release_name_is_no_iteration_name_witness :
  get_checkpoint_name "/data/run/ckpt" 0 true false example_world
  = Return "/data/run/ckpt/release/mp_rank_01/model_optim_rng.pt"
      example_world
  /\ forall it : Z,
       get_checkpoint_name "/data/run/ckpt" it false false example_world
       <> Return "/data/run/ckpt/release/mp_rank_01/model_optim_rng.pt"
            example_world.
Proof.
  split; [reflexivity|]. intros it.
  exact (release_name_is_no_iteration_name "/data/run/ckpt" 0 it false
           example_world _ (or_introl eq_refl) eq_refl).
Defined.

(** ** More on saving *)


(** X6. Who writes in [save_checkpoint]: whenever it returns, in a
    process group a process that is not data-parallel rank 0 has left
    every checkpoint file as it was, and a process that is not global
    rank 0 has left every text file, the tracker included, as it was.
    On no rank has saving changed the model, optimizer or scheduler, the
    RNG sources, the run configuration or the stored checkpoint
    version. *)
Theorem save_checkpoint_writer_roles
    (iteration : Z) (epoch : pyval) (w w' : world) :
  save_checkpoint iteration epoch w = Return tt w' ->
  (forall g : process_group,
      distributed w = Some g ->
      data_parallel_rank (topology w) <> 0 ->
      checkpoints w' = checkpoints w)
  /\ (forall g : process_group,
        distributed w = Some g -> group_rank g <> 0 ->
        files w' = files w)
  /\ objects w' = objects w /\ rng w' = rng w
  /\ run_args w' = run_args w
  /\ _CHECKPOINT_VERSION w' = _CHECKPOINT_VERSION w.
Proof.
  intros Hreturns.
  destruct (save_checkpoint_run iteration epoch w)
    as (sd & name & w0 & Hsave & _ & _ & Hcp & Hfiles & _ & _
        & Hver & Hargs & Hobj & Hrng).
  rewrite Hreturns in Hsave. injection Hsave as <-.
  split_and!; try done.
  - intros g Hd Hdp. rewrite Hcp. unfold is_writer. rewrite Hd.
    by apply Z.eqb_neq in Hdp as ->.
  - intros g Hd Hr. rewrite Hfiles. unfold rank0_prints. rewrite Hd.
    by apply Z.eqb_neq in Hr as ->.
Qed.

Lemma save_checkpoint_writer_roles_witness :
  distributed example_peer_world
  = Some {| group_rank := 3; peer_iterations := [] |}
  /\ data_parallel_rank (topology example_peer_world) <> 0
  /\ exists w' : world,
       save_checkpoint 100 (PyInt 2) example_peer_world = Return tt w'
       /\ checkpoints w' = checkpoints example_peer_world
       /\ files w' = files example_peer_world.
Proof.
  assert (raised (save_checkpoint 100 (PyInt 2) example_peer_world) = None)
    as Hret by (vm_compute; reflexivity).
  destruct (save_checkpoint 100 (PyInt 2) example_peer_world)
    as [[] w'|e w'] eqn:Hsave; [|discriminate Hret].
  destruct (save_checkpoint_writer_roles 100 (PyInt 2) example_peer_world
              w' Hsave) as (Hcp & Hfiles & _).
  assert (data_parallel_rank (topology example_peer_world) <> 0) as Hdp
    by discriminate.
  assert (group_rank {| group_rank := 3; peer_iterations := [] |} <> 0)
    as Hrank by discriminate.
  split; [reflexivity|]. split; [exact Hdp|].
  exists w'. split; [reflexivity|]. split.
  - exact (Hcp _ eq_refl Hdp).
  - exact (Hfiles _ eq_refl Hrank).
Defined.

(** X7. What the tracker advertises after a save: on a process that
    writes both the checkpoint file and the tracker (data-parallel rank 0
    and global rank 0, or a process outside any group), once
    [save_checkpoint] has returned the tracker file holds the decimal
    text of the iteration, [int] reads that iteration back from it, and
    the checkpoint file that [get_checkpoint_name] derives for this
    iteration under the same root exists and holds the assembled blob. *)
Theorem saved_tracker_names_existing_checkpoint
    (iteration : Z) (epoch : pyval) (w : world) :
  is_writer w = true -> rank0_prints w = true ->
  let root := output_dir (run_args w) +:+ "/ckpt" in
  exists (w' : world) (name : string) (sd : blob),
    save_checkpoint iteration epoch w = Return tt w'
    /\ files w' !! get_checkpoint_tracker_filename root = Some (str iteration)
    /\ int (strip (str iteration)) = Some iteration
    /\ get_checkpoint_name root iteration false false w' = Return name w'
    /\ checkpoints w' !! name = Some sd
    /\ save_state_dict iteration epoch w = Return sd w.
Proof.
  intros Hwriter Hrank root. subst root.
  destruct (save_checkpoint_run iteration epoch w)
    as (sd & name & w' & Hsave & Hsd & Hname & Hcp & Hfiles & Htopo & _).
  exists w', name, sd. split_and!; try done.
  - rewrite Hfiles, Hrank. apply lookup_insert_eq.
  - by rewrite strip_str, int_str.
  - destruct (get_checkpoint_name_returns
                (output_dir (run_args w) +:+ "/ckpt") iteration false false w)
      as [name' Hname'].
    rewrite (Hname' w eq_refl) in Hname. injection Hname as ->.
    by apply Hname'.
  - rewrite Hcp, Hwriter. apply lookup_insert_eq.
Qed.

Lemma saved_tracker_names_existing_checkpoint_witness :
  is_writer example_world = true
  /\ rank0_prints example_world = true
  /\ exists (w' : world) (name : string),
       save_checkpoint 100 (PyInt 2) example_world = Return tt w'
       /\ files w' !! "/data/run/ckpt/latest_checkpointed_iteration.txt"
          = Some "100"
       /\ get_checkpoint_name "/data/run/ckpt" 100 false false w'
          = Return name w'
       /\ is_Some (checkpoints w' !! name).
Proof.
  destruct (saved_tracker_names_existing_checkpoint 100 (PyInt 2)
              example_world eq_refl eq_refl)
    as (w' & name & sd & Hsave & Hfile & _ & Hname & Hcp & _).
  split; [reflexivity|]. split; [reflexivity|].
  exists w', name. split; [exact Hsave|]. split; [exact Hfile|].
  split; [exact Hname|]. exists sd. exact Hcp.
Defined.

(** X8. A later save does not disturb an earlier checkpoint: after a
    writer has saved iteration [it1], whatever the process does to its
    model, optimizer and RNG state in between, a save at another
    iteration [it2] under the same output directory and topology leaves
    the file of [it1] in place with the blob saved then; only the tracker
    moves on to [it2]. *)
Theorem later_save_keeps_earlier_checkpoint
    (it1 it2 : Z) (ep1 ep2 : pyval) (w w1 w1' w2 : world) :
  is_writer w = true ->
  it1 <> it2 ->
  save_checkpoint it1 ep1 w = Return tt w1 ->
  checkpoints w1' = checkpoints w1 ->
  topology w1' = topology w ->
  output_dir (run_args w1') = output_dir (run_args w) ->
  save_checkpoint it2 ep2 w1' = Return tt w2 ->
  exists (name1 : string) (sd1 : blob),
    get_checkpoint_name (output_dir (run_args w) +:+ "/ckpt") it1 false false w
    = Return name1 w
    /\ save_state_dict it1 ep1 w = Return sd1 w
    /\ checkpoints w2 !! name1 = Some sd1
    /\ (rank0_prints w1' = true ->
        files w2 !! get_checkpoint_tracker_filename
                      (output_dir (run_args w) +:+ "/ckpt")
        = Some (str it2)).
Proof.
  intros Hwriter Hne Hsave1 Hcp Htopo Hdir Hsave2.
  destruct (save_checkpoint_run it1 ep1 w)
    as (sd1 & name1 & w1_ & Hrun1 & Hsd1 & Hname1 & Hcp1 & _).
  rewrite Hsave1 in Hrun1. injection Hrun1 as <-.
  destruct (save_checkpoint_run it2 ep2 w1')
    as (sd2 & name2 & w2_ & Hrun2 & _ & Hname2 & Hcp2 & Hfiles2 & _).
  rewrite Hsave2 in Hrun2. injection Hrun2 as <-.
  exists name1, sd1. split_and!; try done.
  - assert (checkpoints w1' !! name1 = Some sd1) as Hold.
    { rewrite Hcp, Hcp1, Hwriter. apply lookup_insert_eq. }
    rewrite Hcp2. destruct (is_writer w1'); [|done].
    rewrite lookup_insert_ne; [done|].
    intros ->. apply Hne.
    rewrite Hdir in Hname2.
    apply (checkpoint_name_determines_iteration
             (output_dir (run_args w) +:+ "/ckpt") it1 it2 false
             w w1' name1); [by symmetry|exact Hname1|exact Hname2].
  - intros Hrank. rewrite Hfiles2, Hrank, Hdir. apply lookup_insert_eq.
Qed.

Lemma later_save_keeps_earlier_checkpoint_witness :
  is_writer example_world = true
  /\ 100 <> 200
  /\ exists (w2 : world) (sd1 : blob),
       save_checkpoint 200 (PyInt 3) saved_world = Return tt w2
       /\ checkpoints w2
            !! "/data/run/ckpt/iter_0000100/mp_rank_01/model_optim_rng.pt"
          = Some sd1
       /\ sd1 !! "iteration" = Some (PyInt 100)
       /\ files w2 !! "/data/run/ckpt/latest_checkpointed_iteration.txt"
          = Some "200".
Proof.
  assert (100 <> 200) as Hne by discriminate.
  destruct (save_checkpoint_run 100 (PyInt 2) example_world)
    as (sd & name & w1 & Hsave1 & _).
  assert (saved_world = w1) as Hw1
    by (unfold saved_world; rewrite Hsave1; reflexivity).
  destruct (save_checkpoint_run 200 (PyInt 3) saved_world)
    as (sd' & name' & w2 & Hsave2 & _).
  assert (topology saved_world = topology example_world) as Htopo
    by (vm_compute; reflexivity).
  assert (output_dir (run_args saved_world)
          = output_dir (run_args example_world)) as Hdir
    by (vm_compute; reflexivity).
  rewrite <- Hw1 in Hsave1.
  destruct (later_save_keeps_earlier_checkpoint 100 200 (PyInt 2) (PyInt 3)
              example_world saved_world saved_world w2
              eq_refl Hne Hsave1 eq_refl Htopo Hdir Hsave2)
    as (name1 & sd1 & Hname1 & Hsd1 & Hkept & Htracker).
  split; [reflexivity|]. split; [exact Hne|].
  exists w2, sd1. split; [exact Hsave2|].
  injection Hname1 as <-.
  split; [exact Hkept|]. split.
  - destruct (save_state_dict_returns 100 (PyInt 2) example_world)
      as (sd0 & Hsd0 & _ & _ & Hit & _).
    rewrite Hsd1 in Hsd0. injection Hsd0 as <-. exact Hit.
  - apply Htracker. vm_compute. reflexivity.
Defined.

(** ** More on loading *)

(** [load_upto_model] once the tracker has been read and the checkpoint
    file found: what remains to run, and in which state. *)
Lemma load_upto_model_from_blob (ext : external)
    (load_dir tracker_filename : string) (strict : bool) (w w0 : world)
    (it : Z) (rel : bool) (name : string) (sd : blob) :
  read_metadata tracker_filename w = Return (it, rel) w0 ->
  get_checkpoint_name load_dir it rel false w0 = Return name w0 ->
  checkpoints w0 !! name = Some sd ->
  load_upto_model ext load_dir tracker_filename strict w
  = (set_checkpoint_version (default (PyInt 0) (sd !! "checkpoint_version"));;
     epoch ← getitem sd "epoch";
     iteration ← load_iteration sd rel name;
     load_args sd;;
     load_model ext sd strict;;
     mret {| l_state_dict := sd; l_release := rel;
             l_checkpoint_name := name;
             l_iteration := iteration; l_epoch := epoch |})
      (logged
         (rank0_lines w0
            (" loading checkpoint from " +:+
             resume_from_checkpoint (run_args w0) +:+ " at iteration " +:+
             str it) ++ [name]) w0).
Proof.
  intros Hmeta Hname Hblob. unfold load_upto_model.
  erewrite bind_Return by exact Hmeta. cbv beta iota.
  erewrite bind_Return by exact Hname.
  step. step. step. rewrite logged_logged.
  erewrite bind_Return; [reflexivity|].
  unfold torch_load. simpl checkpoints. by rewrite Hblob.
Qed.

Lemma load_upto_model_missing_file (ext : external)
    (load_dir tracker_filename : string) (strict : bool) (w w0 : world)
    (it : Z) (rel : bool) (name : string) :
  read_metadata tracker_filename w = Return (it, rel) w0 ->
  get_checkpoint_name load_dir it rel false w0 = Return name w0 ->
  checkpoints w0 !! name = None ->
  load_upto_model ext load_dir tracker_filename strict w
  = Raise SystemExit
      (logged
         (rank0_lines w0
            (" loading checkpoint from " +:+
             resume_from_checkpoint (run_args w0) +:+ " at iteration " +:+
             str it)
          ++ [name]
          ++ rank0_lines w0 "could not load the checkpoint"
          ++ rank0_lines w0 (torch_load_error ext name)) w0).
Proof.
  intros Hmeta Hname Hblob. unfold load_upto_model.
  erewrite bind_Return by exact Hmeta. cbv beta iota.
  erewrite bind_Return by exact Hname.
  step. step. step. rewrite logged_logged.
  apply bind_Raise. unfold torch_load. simpl checkpoints. rewrite Hblob.
  step. step. rewrite !logged_logged. unfold sys_exit, raise.
  by rewrite <- !app_assoc.
Qed.

Lemma load_iteration_value (sd : blob) (release : bool)
    (checkpoint_name : string) (w w1 : world) (v : pyval) :
  load_iteration sd release checkpoint_name w = Return v w1 ->
  if finetune (run_args w) || release then v = PyInt 0
  else sd !! "iteration" = Some v
       \/ (sd !! "iteration" = None /\ sd !! "total_iters" = Some v).
Proof.
  unfold load_iteration. intros H.
  apply bind_Return_inv in H as (a & wa & [= <- <-] & H).
  destruct (finetune (run_args w) || release); [by injection H|].
  destruct (sd !! "iteration"); [injection H as -> _; by left|].
  destruct (sd !! "total_iters"); [injection H as -> _; by right|].
  apply bind_Return_inv in H as (? & ? & _ & H). done.
Qed.

Lemma load_rng_frame (ext : external) (l : load_locals) (w w' : world) :
  load_rng ext l w = Return tt w' -> exists g : generators, w' = set_rng g w.
Proof.
  rewrite load_rng_unfold.
  destruct (negb (l_release l) && negb (finetune (run_args w))
            && negb (no_load_rng (run_args w))).
  - unfold except_KeyError.
    destruct (restore_rng ext (l_state_dict l) w) as [[] w1|e w1] eqn:Hbody.
    + intros [= <-].
      apply restore_rng_returns in Hbody
        as (v1 & v2 & v3 & v4 & v5 & _ & _ & _ & _ & _ & _ & ->).
      by eexists.
    + destruct e; try done. step. done.
  - intros [= <-]. exists (rng w). by destruct w.
Qed.

(** What a returning [load_upto_model] has read and done. *)
Lemma load_upto_model_inv (ext : external)
    (load_dir tracker_filename : string) (strict : bool)
    (w w1 : world) (l : load_locals) :
  load_upto_model ext load_dir tracker_filename strict w = Return l w1 ->
  exists (it : Z) (w0 : world) (v : pyval),
    read_metadata tracker_filename w = Return (it, l_release l) w0
    /\ get_checkpoint_name load_dir it (l_release l) false w
       = Return (l_checkpoint_name l) w
    /\ checkpoints w !! l_checkpoint_name l = Some (l_state_dict l)
    /\ l_state_dict l !! "epoch" = Some (l_epoch l)
    /\ (if finetune (run_args w) || l_release l then l_iteration l = PyInt 0
        else l_state_dict l !! "iteration" = Some (l_iteration l)
             \/ (l_state_dict l !! "iteration" = None
                 /\ l_state_dict l !! "total_iters" = Some (l_iteration l)))
    /\ _CHECKPOINT_VERSION w1
       = default (PyInt 0) (l_state_dict l !! "checkpoint_version")
    /\ l_state_dict l !! "model" = Some v
    /\ objects w1 = {| model := v; optimizer := optimizer (objects w);
                       lr_scheduler := lr_scheduler (objects w) |}
    /\ run_args w1
       = match l_state_dict l !! "args" with
         | Some ca =>
             set_extra "consumed_valid_samples"
               (getattr_counter ca "consumed_valid_samples")
               (set_extra "consumed_train_samples"
                  (getattr_counter ca "consumed_train_samples") (run_args w))
         | None => run_args w
         end
    /\ rng w1 = rng w.
Proof.
  unfold load_upto_model. intros H.
  apply bind_Return_inv in H as ([it rel] & wa & Hmeta & H).
  pose proof Hmeta as Hmeta'.
  apply read_metadata_returns in Hmeta' as [lines ->].
  apply bind_Return_inv in H as (name & wb & Hname & H).
  destruct (get_checkpoint_name_returns load_dir it rel false w)
    as [name' Hname'].
  rewrite (Hname' (logged lines w) eq_refl) in Hname.
  injection Hname as <- <-.
  apply bind_Return_inv in H as (a & wc & [= _ <-] & H).
  apply bind_Return_inv in H as ([] & wd & Hp1 & H).
  rewrite print_rank_0_run, logged_logged in Hp1. injection Hp1 as <-.
  apply bind_Return_inv in H as ([] & we & Hp2 & H).
  rewrite print_run, logged_logged in Hp2. injection Hp2 as <-.
  apply bind_Return_inv in H as (sd & wf & Hload & H).
  apply torch_load_returns in Hload as [-> Hblob].
  apply bind_Return_inv in H as ([] & wg & Hver & H).
  apply set_checkpoint_version_returns in Hver as ->.
  apply bind_Return_inv in H as (epoch & wh & Hepoch & H).
  apply getitem_returns in Hepoch as [-> Hepoch].
  apply bind_Return_inv in H as (iteration & wi & Hit & H).
  pose proof (load_iteration_value _ _ _ _ _ _ Hit) as Hvalue.
  apply load_iteration_returns in Hit as ->.
  apply bind_Return_inv in H as ([] & wj & Hargs & H).
  apply bind_Return_inv in H as ([] & wk & Hmodel & H).
  injection H as <- <-. simpl.
  exists it, (logged lines w).
  unfold load_model in Hmodel.
  apply bind_Return_inv in Hmodel as (v & wl & [-> Hv]%getitem_returns & Hmodel).
  apply bind_Return_inv in Hmodel as ([] & wm & Hset & Hmodel).
  apply bind_Return_inv in Hmodel as (cv & wn & [= _ <-] & Hmodel).
  rewrite print_rank_0_run in Hmodel. injection Hmodel as <-.
  destruct (model_load_error ext v strict); [done|].
  injection Hset as <-.
  exists v. split; [exact Hmeta|]. split; [by apply Hname'|].
  split; [exact Hblob|]. split; [exact Hepoch|]. split; [exact Hvalue|].
  unfold load_args in Hargs.
  destruct (sd !! "args") as [ca|].
  - injection Hargs as <-. by repeat split.
  - rewrite print_rank_0_run in Hargs. injection Hargs as <-.
    by repeat split.
Qed.

(** A returning [load_checkpoint] that found a tracker has gone through
    all the steps. *)
Lemma load_checkpoint_returns_inv (ext : external) (strict : bool)
    (w w' : world) (r : load_result) :
  is_Some (files w !!
             get_checkpoint_tracker_filename
               (resume_from_checkpoint (run_args w))) ->
  load_checkpoint ext strict w = Return r w' ->
  exists (l : load_locals) (w1 w2 w3 : world) (lines : list string),
    load_upto_model ext (resume_from_checkpoint (run_args w))
      (get_checkpoint_tracker_filename (resume_from_checkpoint (run_args w)))
      strict w = Return l w1
    /\ load_optimizer ext l w1 = Return tt w2
    /\ load_rng ext l w2 = Return tt w3
    /\ r = Pair (l_iteration l) (l_epoch l)
    /\ w' = logged lines w3.
Proof.
  intros Hf Hrun. rewrite load_checkpoint_with_tracker in Hrun by exact Hf.
  apply bind_Return_inv in Hrun as (l & w1 & Hpre & Hrun).
  apply bind_Return_inv in Hrun as ([] & w2 & Hopt & Hrun).
  apply bind_Return_inv in Hrun as ([] & w3 & Hrng & Hrun).
  rewrite load_finish_run in Hrun. injection Hrun as <- <-.
  exists l, w1, w2, w3. eexists. by repeat split.
Qed.

Lemma read_metadata_tracker_inv (tracker_filename : string) (w w0 : world)
    (it : Z) (rel : bool) :
  read_metadata tracker_filename w = Return (it, rel) w0 ->
  exists it0 : Z, read_tracker tracker_filename w = Return (it0, rel) w.
Proof.
  unfold read_metadata. intros H.
  apply bind_Return_inv in H as ([it0 rel0] & wa & Hread & H).
  pose proof (read_tracker_returns _ _ _ _ Hread) as [-> _].
  apply bind_Return_inv in H as (t & wb & _ & H).
  apply bind_Return_inv in H as (mx & wc & _ & H).
  apply bind_Return_inv in H as ([] & wd & _ & H).
  injection H as _ <- _. by exists it0.
Qed.

(** The release flag [read_metadata] returns says whether the tracker
    holds the release marker. *)
Lemma read_metadata_release (tracker_filename content : string)
    (w w0 : world) (it : Z) (rel : bool) :
  files w !! tracker_filename = Some content ->
  read_metadata tracker_filename w = Return (it, rel) w0 ->
  rel = bool_decide (strip content = "release").
Proof.
  intros Hf Hmeta.
  apply read_metadata_tracker_inv in Hmeta as [it0 Hread].
  apply read_tracker_returns in Hread as (_ & content' & Hf' & Hcases).
  rewrite Hf in Hf'. injection Hf' as <-. simpl in Hcases.
  destruct Hcases as [(Hint & _ & ->) | (_ & Hrel & [= _ ->])].
  - symmetry. apply bool_decide_eq_false_2. intros Hrel.
    rewrite Hrel in Hint. discriminate Hint.
  - symmetry. by apply bool_decide_eq_true_2.
Qed.

(** X9. A tracker file of ASCII text that is neither an integer nor the
    release marker stops [load_checkpoint] with [sys.exit()] after the
    "Invalid metadata file" line has gone to [print_rank_0]; a tracker
    file that holds an integer that is not positive stops it with the
    assertion error "error parsing metadata file".  In both cases
    nothing else has happened: no checkpoint file is read and, apart
    from the printed line, the process state is as before. *)
Theorem load_checkpoint_malformed_tracker
    (ext : external) (strict : bool) (w : world) (content : string) :
  let tracker :=
    get_checkpoint_tracker_filename (resume_from_checkpoint (run_args w)) in
  files w !! tracker = Some content ->
  (all_chars is_ascii content = true ->
   int (strip content) = None -> strip content <> "release" ->
   load_checkpoint ext strict w
   = Raise SystemExit
       (logged (rank0_lines w ("ERROR: Invalid metadata file " +:+ tracker
                               +:+ ". Exiting")) w))
  /\ (forall i : Z,
        int (strip content) = Some i -> i <= 0 ->
        load_checkpoint ext strict w
        = Raise (AssertionError ("error parsing metadata file " +:+ tracker))
            w).
Proof.
  intros tracker Hf. subst tracker.
  assert (is_Some (files w !! get_checkpoint_tracker_filename
                                (resume_from_checkpoint (run_args w))))
    as Hsome by by eexists.
  split.
  - intros _ Hint Hrel. rewrite load_checkpoint_with_tracker by exact Hsome.
    apply bind_Raise. unfold load_upto_model. apply bind_Raise.
    unfold read_metadata. apply bind_Raise.
    rewrite (read_tracker_content _ _ _ Hf), Hint.
    by apply String.eqb_neq in Hrel as ->.
  - intros i Hint Hi. rewrite load_checkpoint_with_tracker by exact Hsome.
    apply bind_Raise. unfold load_upto_model. apply bind_Raise.
    unfold read_metadata. apply bind_Raise.
    rewrite (read_tracker_content _ _ _ Hf), Hint.
    by apply Z.ltb_ge in Hi as ->.
Qed.

Lemma load_checkpoint_malformed_tracker_witness :
  let tracker := "/data/run/ckpt/latest_checkpointed_iteration.txt" in
  files (resumed_from_tracker "latest") !! tracker = Some "latest"
  /\ all_chars is_ascii "latest" = true
  /\ int (strip "latest") = None
  /\ strip "latest" <> "release"
  /\ raised (load_checkpoint example_external true
               (resumed_from_tracker "latest")) = Some SystemExit
  /\ files (resumed_from_tracker "-3") !! tracker = Some "-3"
  /\ int (strip "-3") = Some (-3)
  /\ raised (load_checkpoint example_external true
               (resumed_from_tracker "-3"))
     = Some (AssertionError ("error parsing metadata file " +:+ tracker)).
Proof.
  intros tracker.
  assert (strip "latest" <> "release") as Hne by discriminate.
  assert (-3 <= 0) as Hle by discriminate.
  destruct (load_checkpoint_malformed_tracker example_external true
              (resumed_from_tracker "latest") "latest" eq_refl)
    as [Hexit _].
  destruct (load_checkpoint_malformed_tracker example_external true
              (resumed_from_tracker "-3") "-3" eq_refl)
    as [_ Hassert].
  split; [reflexivity|]. split; [reflexivity|]. split; [reflexivity|].
  split; [exact Hne|].
  split; [by rewrite (Hexit eq_refl eq_refl Hne)|].
  split; [reflexivity|]. split; [reflexivity|].
  by rewrite (Hassert (-3) eq_refl Hle).
Defined.

(** X10. Fine-tune and release reset the progress: if the tracker file
    holds the release marker, or [args.finetune] is set, every return of
    [load_checkpoint] carries iteration [0], whatever iteration the blob
    stores; and for the release marker the blob is the file that
    [get_checkpoint_name] names with [release] set. *)
Theorem load_checkpoint_resets_iteration
    (ext : external) (strict : bool) (w w' : world) (content : string)
    (r : load_result) :
  let load_dir := resume_from_checkpoint (run_args w) in
  files w !! get_checkpoint_tracker_filename load_dir = Some content ->
  load_checkpoint ext strict w = Return r w' ->
  (finetune (run_args w) = true \/ strip content = "release" ->
   exists epoch : pyval, r = Pair (PyInt 0) epoch)
  /\ (strip content = "release" ->
      exists (it : Z) (name : string),
        get_checkpoint_name load_dir it true false w = Return name w
        /\ is_Some (checkpoints w !! name)).
Proof.
  intros load_dir Hf Hrun. subst load_dir.
  assert (is_Some (files w !! get_checkpoint_tracker_filename
                                (resume_from_checkpoint (run_args w))))
    as Hsome by by eexists.
  destruct (load_checkpoint_returns_inv _ _ _ _ _ Hsome Hrun)
    as (l & w1 & w2 & w3 & lines & Hpre & _ & _ & -> & _).
  destruct (load_upto_model_inv _ _ _ _ _ _ _ Hpre)
    as (it & w0 & v & Hmeta & Hname & Hblob & _ & Hit & _).
  pose proof (read_metadata_release _ _ _ _ _ _ Hf Hmeta) as Hrel.
  split.
  - intros Hreset. exists (l_epoch l). f_equal.
    destruct Hreset as [Hft | Hmarker].
    + by rewrite Hft in Hit.
    + rewrite Hrel, bool_decide_eq_true_2, orb_true_r in Hit by done. done.
  - intros Hmarker. rewrite Hrel, bool_decide_eq_true_2 in Hname by done.
    exists it, (l_checkpoint_name l). split; [done|by eexists].
Qed.

Lemma load_checkpoint_resets_iteration_witness :
  files resumed_for_finetune
    !! "/data/run/ckpt/latest_checkpointed_iteration.txt" = Some "100"
  /\ finetune (run_args resumed_for_finetune) = true
  /\ exists (epoch : pyval) (w' : world),
       load_checkpoint example_external true resumed_for_finetune
       = Return (Pair (PyInt 0) epoch) w'.
Proof.
  split; [reflexivity|]. split; [reflexivity|].
  assert (raised (load_checkpoint example_external true resumed_for_finetune)
          = None) as Hret by (vm_compute; reflexivity).
  destruct (load_checkpoint example_external true resumed_for_finetune)
    as [r w'|e w'] eqn:Hrun; [|discriminate Hret].
  destruct (load_checkpoint_resets_iteration example_external true
              resumed_for_finetune w' "100" r eq_refl Hrun) as [Hreset _].
  destruct (Hreset (or_introl eq_refl)) as [epoch ->].
  by exists epoch, w'.
Defined.

(** X11. Where the returned progress comes from: when the tracker holds
    no release marker and [args.finetune] is off, a [load_checkpoint]
    that returns gives back the epoch stored under ['epoch'] in the blob
    of the checkpoint file and the iteration stored under ['iteration'];
    the legacy key ['total_iters'] is used only when ['iteration'] is
    absent.  So it never returns for a blob that lacks ['epoch'] or both
    iteration keys. *)
Theorem load_checkpoint_returns_stored_progress
    (ext : external) (strict : bool) (w w' : world) (content : string)
    (r : load_result) :
  let load_dir := resume_from_checkpoint (run_args w) in
  files w !! get_checkpoint_tracker_filename load_dir = Some content ->
  finetune (run_args w) = false ->
  strip content <> "release" ->
  load_checkpoint ext strict w = Return r w' ->
  exists (it : Z) (name : string) (sd : blob) (iteration epoch : pyval),
    get_checkpoint_name load_dir it false false w = Return name w
    /\ checkpoints w !! name = Some sd
    /\ r = Pair iteration epoch
    /\ sd !! "epoch" = Some epoch
    /\ (sd !! "iteration" = Some iteration
        \/ (sd !! "iteration" = None /\ sd !! "total_iters" = Some iteration)).
Proof.
  intros load_dir Hf Hft Hmarker Hrun. subst load_dir.
  assert (is_Some (files w !! get_checkpoint_tracker_filename
                                (resume_from_checkpoint (run_args w))))
    as Hsome by by eexists.
  destruct (load_checkpoint_returns_inv _ _ _ _ _ Hsome Hrun)
    as (l & w1 & w2 & w3 & lines & Hpre & _ & _ & -> & _).
  destruct (load_upto_model_inv _ _ _ _ _ _ _ Hpre)
    as (it & w0 & v & Hmeta & Hname & Hblob & Hepoch & Hit & _).
  pose proof (read_metadata_release _ _ _ _ _ _ Hf Hmeta) as Hrel.
  rewrite bool_decide_eq_false_2 in Hrel by done.
  rewrite Hrel in Hname. rewrite Hrel, Hft in Hit. simpl in Hit.
  exists it, (l_checkpoint_name l), (l_state_dict l), (l_iteration l),
    (l_epoch l).
  by repeat split.
Qed.

Lemma load_checkpoint_returns_stored_progress_witness :
  files saved_world !! "/data/run/ckpt/latest_checkpointed_iteration.txt"
  = Some "100"
  /\ finetune (run_args saved_world) = false
  /\ strip "100" <> "release"
  /\ exists (sd : blob) (w' : world),
       checkpoints saved_world
         !! "/data/run/ckpt/iter_0000100/mp_rank_01/model_optim_rng.pt"
       = Some sd
       /\ sd !! "iteration" = Some (PyInt 100)
       /\ load_checkpoint example_external true saved_world
          = Return (Pair (PyInt 100) (PyInt 2)) w'.
Proof.
  assert (strip "100" <> "release") as Hne by discriminate.
  split; [reflexivity|]. split; [reflexivity|]. split; [exact Hne|].
  assert (raised (load_checkpoint example_external true saved_world) = None)
    as Hret by (vm_compute; reflexivity).
  destruct (load_checkpoint example_external true saved_world)
    as [r w'|e w'] eqn:Hrun; [|discriminate Hret].
  destruct (load_checkpoint_returns_stored_progress example_external true
              saved_world w' "100" r eq_refl eq_refl Hne Hrun)
    as (it & name & sd & iteration & epoch & Hname & Hblob & -> & Hepoch
        & Hit).
  assert (match checkpoints saved_world
                  !! "/data/run/ckpt/iter_0000100/mp_rank_01/model_optim_rng.pt"
          with
          | Some sd0 =>
              sd0 !! "iteration" = Some (PyInt 100)
              /\ sd0 !! "epoch" = Some (PyInt 2)
          | None => False
          end) as Hfacts by (vm_compute; split; reflexivity).
  assert (observed (load_checkpoint example_external true saved_world)
          = Some (Pair (PyInt 100) (PyInt 2),
                  printed (load_checkpoint example_external true saved_world)))
    as Hobs by (vm_compute; reflexivity).
  rewrite Hrun in Hobs. simpl in Hobs. injection Hobs as -> ->.
  destruct (checkpoints saved_world
              !! "/data/run/ckpt/iter_0000100/mp_rank_01/model_optim_rng.pt")
    as [sd0|]; [|destruct Hfacts].
  destruct Hfacts as [Hit0 _].
  exists sd0, w'. by repeat split.
Defined.

(** X12. A checkpoint file that cannot be read is fatal: when the tracker
    has been read and reconciled and there is no checkpoint file under
    the name derived from it, [load_checkpoint] ends in [sys.exit()]
    after ["could not load the checkpoint"] and the text of the
    exception have gone to [print_rank_0].  Only lines have been printed
    by then: the checkpoint version, the run configuration, the model,
    the optimizer and the RNG sources are untouched. *)
Theorem load_checkpoint_missing_file
    (ext : external) (strict : bool) (w w0 : world) (it : Z) (rel : bool)
    (name : string) :
  let load_dir := resume_from_checkpoint (run_args w) in
  let tracker := get_checkpoint_tracker_filename load_dir in
  is_Some (files w !! tracker) ->
  read_metadata tracker w = Return (it, rel) w0 ->
  get_checkpoint_name load_dir it rel false w = Return name w ->
  checkpoints w !! name = None ->
  exists lines : list string,
    load_checkpoint ext strict w
    = Raise SystemExit
        (logged (lines
                 ++ rank0_lines w (" loading checkpoint from " +:+ load_dir
                                   +:+ " at iteration " +:+ str it)
                 ++ [name]
                 ++ rank0_lines w "could not load the checkpoint"
                 ++ rank0_lines w (torch_load_error ext name)) w)
    /\ w0 = logged lines w.
Proof.
  intros load_dir tracker Hf Hmeta Hname Hblob. subst load_dir tracker.
  destruct (read_metadata_returns _ _ _ _ Hmeta) as [lines ->].
  exists lines. split; [|done].
  rewrite load_checkpoint_with_tracker by exact Hf.
  apply bind_Raise.
  destruct (get_checkpoint_name_returns
              (resume_from_checkpoint (run_args w)) it rel false w)
    as [name' Hname'].
  rewrite (Hname' w eq_refl) in Hname. injection Hname as ->.
  rewrite (load_upto_model_missing_file ext _ _ strict w (logged lines w)
             it rel name Hmeta (Hname' (logged lines w) eq_refl) Hblob).
  by rewrite logged_logged.
Qed.

Lemma load_checkpoint_missing_file_witness :
  let tracker := "/data/run/ckpt/latest_checkpointed_iteration.txt" in
  let name := "/data/run/ckpt/iter_0000100/mp_rank_01/model_optim_rng.pt" in
  is_Some (files resumed_without_file !! tracker)
  /\ read_metadata tracker resumed_without_file
     = Return (100, false) resumed_without_file
  /\ checkpoints resumed_without_file !! name = None
  /\ raised (load_checkpoint example_external true resumed_without_file)
     = Some SystemExit
  /\ last (printed (load_checkpoint example_external true
                      resumed_without_file))
     = Some ("cannot read " +:+ name).
Proof.
  intros tracker name.
  assert (is_Some (files resumed_without_file !! tracker)) as Hf
    by (vm_compute; eexists; reflexivity).
  assert (read_metadata tracker resumed_without_file
          = Return (100, false) resumed_without_file) as Hmeta.
  { apply (read_metadata_after_tracker tracker resumed_without_file 100 false
             {| group_rank := 0; peer_iterations := [] |}).
    - apply read_tracker_str; [vm_compute; reflexivity|reflexivity].
    - split; discriminate.
    - reflexivity. }
  destruct (load_checkpoint_missing_file example_external true
              resumed_without_file resumed_without_file 100 false name
              Hf Hmeta eq_refl eq_refl) as (lines & Hexit & _).
  split; [exact Hf|]. split; [exact Hmeta|]. split; [reflexivity|].
  split; [by rewrite Hexit|]. vm_compute. reflexivity.
Defined.

(** ** Loading: the checkpoint file in hand *)

Lemma set_checkpoint_version_run (v : pyval) (w : world) :
  version_accepted (_CHECKPOINT_VERSION w) v = true ->
  set_checkpoint_version v w = Return tt (set_version v w).
Proof.
  unfold version_accepted, set_checkpoint_version, mbind, M_bind, gets,
    modify, py_assert, mret, M_ret, raise.
  destruct (_CHECKPOINT_VERSION w); intros H; try reflexivity;
    by rewrite H.
Qed.

Lemma set_checkpoint_version_conflict (v : pyval) (w : world) :
  version_accepted (_CHECKPOINT_VERSION w) v = false ->
  set_checkpoint_version v w
  = Raise (AssertionError "checkpoint versions do not match") w.
Proof.
  unfold version_accepted, set_checkpoint_version, mbind, M_bind, gets,
    modify, py_assert, mret, M_ret, raise.
  destruct (_CHECKPOINT_VERSION w); intros H; try discriminate H;
    by rewrite H.
Qed.

Lemma getitem_run (d : blob) (key : string) (v : pyval) (w : world) :
  d !! key = Some v -> getitem d key w = Return v w.
Proof. unfold getitem. by intros ->. Qed.

Lemma getitem_missing (d : blob) (key : string) (w : world) :
  d !! key = None -> getitem d key w = Raise (KeyError key) w.
Proof. unfold getitem. by intros ->. Qed.

(** Once the checkpoint file is open, what is left of the steps up to
    the loaded model runs on its blob, after the two progress lines. *)
Lemma opens_checkpoint_blob (ext : external) (strict : bool) (w : world)
    (it : Z) (rel : bool) (name : string) (sd : blob) :
  opens_checkpoint w it rel name sd ->
  exists lines : list string,
    load_upto_model ext (resume_from_checkpoint (run_args w))
      (get_checkpoint_tracker_filename (resume_from_checkpoint (run_args w)))
      strict w
    = (set_checkpoint_version
         (default (PyInt 0) (sd !! "checkpoint_version"));;
       epoch ← getitem sd "epoch";
       iteration ← load_iteration sd rel name;
       load_args sd;;
       load_model ext sd strict;;
       mret {| l_state_dict := sd; l_release := rel;
               l_checkpoint_name := name;
               l_iteration := iteration; l_epoch := epoch |})
        (logged lines w).
Proof.
  intros (_ & [lines Hmeta] & Hname & Hblob).
  destruct (get_checkpoint_name_returns
              (resume_from_checkpoint (run_args w)) it rel false w)
    as [name' Hname'].
  rewrite (Hname' w eq_refl) in Hname. injection Hname as ->.
  rewrite (load_upto_model_from_blob ext _ _ strict w (logged lines w)
             it rel name sd Hmeta (Hname' (logged lines w) eq_refl) Hblob).
  rewrite logged_logged. by eexists.
Qed.

Lemma load_checkpoint_stops_early (ext : external) (strict : bool)
    (w w1 : world) (e : exn) :
  is_Some (files w !! get_checkpoint_tracker_filename
                        (resume_from_checkpoint (run_args w))) ->
  load_upto_model ext (resume_from_checkpoint (run_args w))
    (get_checkpoint_tracker_filename (resume_from_checkpoint (run_args w)))
    strict w = Raise e w1 ->
  load_checkpoint ext strict w = Raise e w1.
Proof.
  intros Hf H. rewrite load_checkpoint_with_tracker by exact Hf.
  by apply bind_Raise.
Qed.

(** The example job opens the checkpoint of iteration 100. *)
Lemma example_opens_checkpoint (w : world) (sd : blob) :
  topology w = example_topology ->
  distributed w = Some {| group_rank := 0; peer_iterations := [] |} ->
  resume_from_checkpoint (run_args w) = "/data/run/ckpt" ->
  files w !! "/data/run/ckpt/latest_checkpointed_iteration.txt"
  = Some "100" ->
  checkpoints w
    !! "/data/run/ckpt/iter_0000100/mp_rank_01/model_optim_rng.pt"
  = Some sd ->
  opens_checkpoint w 100 false
    "/data/run/ckpt/iter_0000100/mp_rank_01/model_optim_rng.pt" sd.
Proof.
  intros Htopo Hd Hroot Hf Hblob. unfold opens_checkpoint. rewrite Hroot.
  change (get_checkpoint_tracker_filename "/data/run/ckpt")
    with "/data/run/ckpt/latest_checkpointed_iteration.txt".
  split_and!.
  - by eexists.
  - exists []. rewrite logged_nil.
    apply (read_metadata_after_tracker _ w 100 false
             {| group_rank := 0; peer_iterations := [] |}).
    + apply read_tracker_str; [exact Hf|reflexivity].
    + split; discriminate.
    + exact Hd.
  - unfold get_checkpoint_name, mbind, M_bind, gets, mret, M_ret.
    rewrite Htopo. reflexivity.
  - exact Hblob.
Qed.

(** X13. The epoch is required, and its absence is not handled: when the
    checkpoint file is open and its version passes the version check, a
    blob without the key ['epoch'] makes [load_checkpoint] end with the
    bare [KeyError] of [state_dict['epoch']], whatever else the blob
    holds.  By then the checkpoint's version (0 when the blob has none)
    has been stored in the process; nothing else but printed lines has
    changed. *)
Theorem load_checkpoint_without_epoch
    (ext : external) (strict : bool) (w : world) (it : Z) (rel : bool)
    (name : string) (sd : blob) :
  let version := default (PyInt 0) (sd !! "checkpoint_version") in
  opens_checkpoint w it rel name sd ->
  version_accepted (_CHECKPOINT_VERSION w) version = true ->
  sd !! "epoch" = None ->
  exists lines : list string,
    load_checkpoint ext strict w
    = Raise (KeyError "epoch") (set_version version (logged lines w)).
Proof.
  intros version Hopen Hver Hepoch. subst version.
  destruct (opens_checkpoint_blob ext strict _ _ _ _ _ Hopen)
    as [lines Hblob].
  exists lines. apply load_checkpoint_stops_early; [apply Hopen|].
  rewrite Hblob.
  erewrite bind_Return by (apply set_checkpoint_version_run; exact Hver).
  apply bind_Raise. by apply getitem_missing.
Qed.

Lemma load_checkpoint_without_epoch_witness :
  exists lines : list string,
    load_checkpoint example_external true
      (resumed_with_blob {[ "iteration" := PyInt 100; "model" := PyState 1 ]})
    = Raise (KeyError "epoch")
        (set_version (PyInt 0)
           (logged lines
              (resumed_with_blob
                 {[ "iteration" := PyInt 100; "model" := PyState 1 ]}))).
Proof.
  destruct (load_checkpoint_without_epoch example_external true
              (resumed_with_blob
                 {[ "iteration" := PyInt 100; "model" := PyState 1 ]})
              100 false
              "/data/run/ckpt/iter_0000100/mp_rank_01/model_optim_rng.pt"
              {[ "iteration" := PyInt 100; "model" := PyState 1 ]})
    as [lines Hrun].
  - apply example_opens_checkpoint; reflexivity.
  - reflexivity.
  - reflexivity.
  - exists lines. exact Hrun.
Defined.

(** X14. One checkpoint version per process: when the checkpoint file is
    open and the process already holds a version that differs from the
    one in the blob (0 when the blob has no ['checkpoint_version']),
    [load_checkpoint] fails with the assertion error "checkpoint versions
    do not match" before anything of the blob is used; only lines have
    been printed.  And whenever [load_checkpoint] returns, the version
    held before passed that check and the process holds the version of
    the blob. *)
Theorem load_checkpoint_version_check
    (ext : external) (strict : bool) (w : world) (it : Z) (rel : bool)
    (name : string) (sd : blob) :
  let version := default (PyInt 0) (sd !! "checkpoint_version") in
  opens_checkpoint w it rel name sd ->
  (version_accepted (_CHECKPOINT_VERSION w) version = false ->
   exists lines : list string,
     load_checkpoint ext strict w
     = Raise (AssertionError "checkpoint versions do not match")
         (logged lines w))
  /\ (forall (r : load_result) (w' : world),
        load_checkpoint ext strict w = Return r w' ->
        version_accepted (_CHECKPOINT_VERSION w) version = true
        /\ _CHECKPOINT_VERSION w' = version).
Proof.
  intros version Hopen. subst version.
  destruct (opens_checkpoint_blob ext strict _ _ _ _ _ Hopen)
    as [lines Hblob].
  assert (version_accepted (_CHECKPOINT_VERSION w)
            (default (PyInt 0) (sd !! "checkpoint_version")) = false ->
          load_checkpoint ext strict w
          = Raise (AssertionError "checkpoint versions do not match")
              (logged lines w)) as Hconflict.
  { intros Hver. apply load_checkpoint_stops_early; [apply Hopen|].
    rewrite Hblob. apply bind_Raise.
    by apply set_checkpoint_version_conflict. }
  split; [intros Hver; exists lines; by apply Hconflict|].
  intros r w' Hrun. split.
  - destruct (version_accepted _ _); [done|].
    rewrite Hconflict in Hrun by done. discriminate Hrun.
  - destruct (load_checkpoint_returns_inv _ _ _ _ _ (proj1 Hopen) Hrun)
      as (l & w1 & w2 & w3 & lines' & Hpre & Hopt & Hrng & _ & ->).
    apply load_optimizer_returns in Hopt as [ob ->].
    apply load_rng_frame in Hrng as [g ->]. simpl.
    rewrite Hblob in Hpre.
    apply bind_Return_inv in Hpre as ([] & wa & Hver & Hpre).
    apply set_checkpoint_version_returns in Hver as ->.
    apply bind_Return_inv in Hpre as (epoch & wb & Hepoch & Hpre).
    apply getitem_returns in Hepoch as [-> _].
    apply bind_Return_inv in Hpre as (iteration & wc & Hit & Hpre).
    apply load_iteration_returns in Hit as ->.
    apply bind_Return_inv in Hpre as ([] & wd & Hargs & Hpre).
    apply bind_Return_inv in Hpre as ([] & we & Hmodel & Hpre).
    injection Hpre as <- <-.
    assert (_CHECKPOINT_VERSION wd
            = default (PyInt 0) (sd !! "checkpoint_version")) as Hd.
    { revert Hargs. unfold load_args. destruct (sd !! "args").
      - by intros [= <-].
      - rewrite print_rank_0_run. by intros [= <-]. }
    revert Hmodel. unfold load_model. intros Hmodel.
    apply bind_Return_inv in Hmodel as (v & wf & Hv & Hmodel).
    apply getitem_returns in Hv as [-> _].
    apply bind_Return_inv in Hmodel as ([] & wg & Hload & Hmodel).
    apply bind_Return_inv in Hmodel as (cv & wh & [= _ <-] & Hmodel).
    rewrite print_rank_0_run in Hmodel. injection Hmodel as <-.
    destruct (model_load_error ext v strict); [done|].
    injection Hload as <-. exact Hd.
Qed.

Lemma load_checkpoint_version_check_witness :
  (exists lines : list string,
     load_checkpoint example_external true
       (set_version (PyFloat 3) (resumed_with_blob legacy_blob))
     = Raise (AssertionError "checkpoint versions do not match")
         (logged lines
            (set_version (PyFloat 3) (resumed_with_blob legacy_blob))))
  /\ exists (r : load_result) (w' : world),
       load_checkpoint example_external true saved_world = Return r w'
       /\ _CHECKPOINT_VERSION saved_world = PyNone
       /\ _CHECKPOINT_VERSION w' = PyFloat 3.
Proof.
  split.
  - apply (load_checkpoint_version_check example_external true
             (set_version (PyFloat 3) (resumed_with_blob legacy_blob))
             100 false
             "/data/run/ckpt/iter_0000100/mp_rank_01/model_optim_rng.pt"
             legacy_blob).
    + apply example_opens_checkpoint; reflexivity.
    + reflexivity.
  - assert (raised (load_checkpoint example_external true saved_world) = None)
      as Hret by (vm_compute; reflexivity).
    destruct (load_checkpoint example_external true saved_world)
      as [r w'|e w'] eqn:Hrun; [|discriminate Hret].
    assert (match checkpoints saved_world
                    !! "/data/run/ckpt/iter_0000100/mp_rank_01/model_optim_rng.pt"
            with
            | Some sd => sd !! "checkpoint_version" = Some (PyFloat 3)
            | None => False
            end) as Hfacts by (vm_compute; reflexivity).
    destruct (checkpoints saved_world
                !! "/data/run/ckpt/iter_0000100/mp_rank_01/model_optim_rng.pt")
      as [sd|] eqn:Hblob; [|destruct Hfacts].
    exists r, w'. split; [reflexivity|]. split; [reflexivity|].
    destruct (load_checkpoint_version_check example_external true
                saved_world 100 false
                "/data/run/ckpt/iter_0000100/mp_rank_01/model_optim_rng.pt"
                sd (example_opens_checkpoint saved_world sd eq_refl eq_refl
                      eq_refl eq_refl Hblob)) as [_ Hreturns].
    destruct (Hreturns r w' Hrun) as [_ Hversion].
    by rewrite Hversion, Hfacts.
Defined.

(** X15. The iteration is required unless it is reset: when the
    checkpoint file is open for a checkpoint that is not a release, in a
    run without [finetune], and the blob has an epoch but neither
    ['iteration'] nor the legacy ['total_iters'], [load_checkpoint] ends
    in [sys.exit()] after handing to [print_rank_0] the line that names
    the checkpoint file.  The version of the blob is stored by then; the
    model, the optimizer and the RNG sources are untouched. *)
Theorem load_checkpoint_without_iteration
    (ext : external) (strict : bool) (w : world) (it : Z)
    (name : string) (sd : blob) :
  let version := default (PyInt 0) (sd !! "checkpoint_version") in
  opens_checkpoint w it false name sd ->
  version_accepted (_CHECKPOINT_VERSION w) version = true ->
  finetune (run_args w) = false ->
  is_Some (sd !! "epoch") ->
  sd !! "iteration" = None ->
  sd !! "total_iters" = None ->
  exists lines : list string,
    load_checkpoint ext strict w
    = Raise SystemExit
        (set_version version
           (logged
              (lines ++
               rank0_lines w
                 ("A metadata file exists but unable to load iteration from checkpoint "
                  +:+ name +:+ ", exiting")) w)).
Proof.
  intros version Hopen Hver Hft [epoch Hepoch] Hit Hlegacy. subst version.
  destruct (opens_checkpoint_blob ext strict _ _ _ _ _ Hopen)
    as [lines Hblob].
  exists lines. apply load_checkpoint_stops_early; [apply Hopen|].
  rewrite Hblob.
  erewrite bind_Return by (apply set_checkpoint_version_run; exact Hver).
  erewrite bind_Return by (apply getitem_run; exact Hepoch).
  apply bind_Raise. unfold load_iteration. step. simpl.
  rewrite Hft, Hit, Hlegacy. simpl. step.
  unfold sys_exit, raise, logged, set_version, rank0_lines, rank0_prints.
  simpl. by rewrite <- List.app_assoc.
Qed.

Lemma load_checkpoint_without_iteration_witness :
  raised (load_checkpoint example_external true (resumed_with_blob bare_blob))
  = Some SystemExit
  /\ last (printed (load_checkpoint example_external true
                      (resumed_with_blob bare_blob)))
     = Some ("A metadata file exists but unable to load iteration from checkpoint "
             +:+ "/data/run/ckpt/iter_0000100/mp_rank_01/model_optim_rng.pt"
             +:+ ", exiting").
Proof.
  destruct (load_checkpoint_without_iteration example_external true
              (resumed_with_blob bare_blob) 100
              "/data/run/ckpt/iter_0000100/mp_rank_01/model_optim_rng.pt"
              bare_blob
              (example_opens_checkpoint (resumed_with_blob bare_blob)
                 bare_blob eq_refl eq_refl eq_refl eq_refl eq_refl)
              eq_refl eq_refl (ex_intro _ (PyInt 2) eq_refl) eq_refl eq_refl)
    as [lines Hexit].
  split; [by rewrite Hexit|]. vm_compute. reflexivity.
Defined.

(** ** Loading: what a returning call leaves behind *)

Lemma load_optimizer_inv (ext : external) (l : load_locals) (w w' : world) :
  load_optimizer ext l w = Return tt w' ->
  exists ob : trainer,
    w' = set_objects ob w
    /\ model ob = model (objects w)
    /\ (if negb (l_release l) && negb (finetune (run_args w))
           && negb (no_load_optim (run_args w))
        then optimizer ob
             = match optimizer (objects w) with
               | Some _ => l_state_dict l !! "optimizer"
               | None => None
               end
             /\ lr_scheduler ob
                = match lr_scheduler (objects w) with
                  | Some _ => l_state_dict l !! "lr_scheduler"
                  | None => None
                  end
        else optimizer ob = optimizer (objects w)
             /\ lr_scheduler ob = lr_scheduler (objects w)).
Proof.
  unfold load_optimizer. intros H.
  apply bind_Return_inv in H as (a & wa & [= <- <-] & H).
  destruct (negb (l_release l) && negb (finetune (run_args w))
            && negb (no_load_optim (run_args w))).
  - unfold except_KeyError in H.
    destruct (restore_optimizer ext (l_state_dict l) w) as [[] w1|e w1]
      eqn:Hbody.
    + injection H as <-. unfold restore_optimizer in Hbody.
      apply bind_Return_inv in Hbody as (o & wb & [= <- <-] & Hbody).
      apply bind_Return_inv in Hbody as ([] & wc & Hopt & Hlr).
      assert (exists ob1 : trainer,
                 wc = set_objects ob1 w
                 /\ model ob1 = model (objects w)
                 /\ optimizer ob1
                    = match optimizer (objects w) with
                      | Some _ => l_state_dict l !! "optimizer"
                      | None => None
                      end
                 /\ lr_scheduler ob1 = lr_scheduler (objects w))
        as (ob1 & -> & Hm1 & Ho1 & Hl1).
      { destruct (optimizer (objects w)) eqn:Ho.
        - apply bind_Return_inv in Hopt
            as (v & wd & [-> Hkey]%getitem_returns & ->%set_state_returns).
          eexists. split; [reflexivity|]. simpl. by rewrite Hkey.
        - injection Hopt as <-. exists (objects w).
          split; [by destruct w|]. by rewrite Ho. }
      destruct (lr_scheduler (objects w)) eqn:Hl.
      * apply bind_Return_inv in Hlr
          as (v & wd & [-> Hkey]%getitem_returns & ->%set_state_returns).
        exists {| model := model ob1; optimizer := optimizer ob1;
                  lr_scheduler := Some v |}.
        split; [reflexivity|]. simpl. by rewrite Hkey.
      * injection Hlr as <-. exists ob1. by rewrite Hl1.
    + destruct e; try done. revert H. step. done.
  - injection H as <-. exists (objects w). split; [by destruct w|done].
Qed.

Lemma load_rng_frame_or_same (ext : external) (l : load_locals)
    (w w' : world) (restores : bool) :
  (if restores
   then except_KeyError (restore_rng ext (l_state_dict l))
          (print_rank_0 (rng_remediation (l_checkpoint_name l));; sys_exit) w
   else Return tt w) = Return tt w' ->
  exists g : generators, w' = set_rng g w.
Proof.
  destruct restores.
  - unfold except_KeyError.
    destruct (restore_rng ext (l_state_dict l) w) as [[] w1|e w1] eqn:Hbody.
    + intros [= <-].
      apply restore_rng_returns in Hbody
        as (v1 & v2 & v3 & v4 & v5 & _ & _ & _ & _ & _ & _ & ->).
      by eexists.
    + destruct e; try done. step. done.
  - intros [= <-]. exists (rng w). by destruct w.
Qed.

Lemma read_metadata_needs_group (tracker_filename : string) (w w0 : world)
    (r : Z * bool) :
  read_metadata tracker_filename w = Return r w0 -> is_Some (distributed w).
Proof.
  unfold read_metadata. intros H.
  apply bind_Return_inv in H as ([it rel] & wa & Hread & H).
  apply read_tracker_returns in Hread as [-> _].
  apply bind_Return_inv in H as (t & wb & Ht & H).
  assert (wb = w) as ->.
  { unfold LongTensor in Ht. destruct (_ && _); by inversion Ht. }
  apply bind_Return_inv in H as (mx & wc & Hmx & _).
  unfold all_reduce_max in Hmx. by destruct (distributed w).
Qed.

(** Everything a returning [load_checkpoint] has done to the process,
    in terms of the blob it has opened. *)
Lemma load_checkpoint_returns_state (ext : external) (strict : bool)
    (w w' : world) (r : load_result) :
  is_Some (files w !! get_checkpoint_tracker_filename
                        (resume_from_checkpoint (run_args w))) ->
  load_checkpoint ext strict w = Return r w' ->
  exists (it : Z) (l : load_locals),
    opens_checkpoint w it (l_release l) (l_checkpoint_name l)
      (l_state_dict l)
    /\ r = Pair (l_iteration l) (l_epoch l)
    /\ (topology w' = topology w /\ distributed w' = distributed w
        /\ files w' = files w /\ checkpoints w' = checkpoints w)
    /\ run_args w'
       = match l_state_dict l !! "args" with
         | Some ca =>
             set_extra "consumed_valid_samples"
               (getattr_counter ca "consumed_valid_samples")
               (set_extra "consumed_train_samples"
                  (getattr_counter ca "consumed_train_samples") (run_args w))
         | None => run_args w
         end
    /\ l_state_dict l !! "model" = Some (model (objects w'))
    /\ (if negb (l_release l) && negb (finetune (run_args w))
           && negb (no_load_optim (run_args w))
        then optimizer (objects w')
             = match optimizer (objects w) with
               | Some _ => l_state_dict l !! "optimizer"
               | None => None
               end
             /\ lr_scheduler (objects w')
                = match lr_scheduler (objects w) with
                  | Some _ => l_state_dict l !! "lr_scheduler"
                  | None => None
                  end
        else optimizer (objects w') = optimizer (objects w)
             /\ lr_scheduler (objects w') = lr_scheduler (objects w))
    /\ (negb (l_release l) && negb (finetune (run_args w))
        && negb (no_load_rng (run_args w)) = false ->
        rng w' = rng w).
Proof.
  intros Hf Hrun.
  destruct (load_checkpoint_returns_inv _ _ _ _ _ Hf Hrun)
    as (l & w1 & w2 & w3 & lines & Hpre & Hopt & Hrng & -> & ->).
  destruct (load_upto_model_returns _ _ _ _ _ _ _ Hpre) as [Hsame _].
  destruct (load_upto_model_inv _ _ _ _ _ _ _ Hpre)
    as (it & w0 & v & Hmeta & Hname & Hblob & _ & _ & _ & Hmodel & Hobj
        & Hargs & Hrng1).
  destruct (read_metadata_returns _ _ _ _ Hmeta) as [lines0 ->].
  apply load_optimizer_inv in Hopt as (ob & -> & Hm & Hcond).
  unfold same_setup in Hsame.
  destruct Hsame as (Htopo & Hd & Hfiles & Hcp & _ & _ & Hft & Hnlo & Hnlr
                     & Hopt1 & Hlr1 & _).
  rewrite load_rng_unfold in Hrng. simpl in Hrng.
  rewrite Hft, Hnlr in Hrng. rewrite Hft, Hnlo, Hopt1, Hlr1 in Hcond.
  assert (negb (l_release l) && negb (finetune (run_args w))
          && negb (no_load_rng (run_args w)) = false ->
          rng w3 = rng w) as Hskipped.
  { intros Hskip. rewrite Hskip in Hrng. injection Hrng as <-.
    exact Hrng1. }
  apply load_rng_frame_or_same in Hrng as [g ->].
  exists it, l.
  split; [split_and!; [exact Hf|by exists lines0|exact Hname|exact Hblob]|].
  split; [reflexivity|].
  split; [by repeat split|].
  split; [exact Hargs|].
  split; [simpl; by rewrite Hm, Hobj|].
  split; [exact Hcond|exact Hskipped].
Qed.

Lemma opens_checkpoint_unique (w : world) (it1 it2 : Z) (rel1 rel2 : bool)
    (name1 name2 : string) (sd1 sd2 : blob) :
  opens_checkpoint w it1 rel1 name1 sd1 ->
  opens_checkpoint w it2 rel2 name2 sd2 ->
  it1 = it2 /\ rel1 = rel2 /\ name1 = name2 /\ sd1 = sd2.
Proof.
  intros (_ & [lines1 Hmeta1] & Hname1 & Hblob1)
         (_ & [lines2 Hmeta2] & Hname2 & Hblob2).
  rewrite Hmeta1 in Hmeta2. injection Hmeta2 as <- <- _.
  rewrite Hname1 in Hname2. injection Hname2 as <-.
  rewrite Hblob1 in Hblob2. by injection Hblob2 as <-.
Qed.

(** [load_checkpoint_returns_state] for the blob known to be opened. *)
Lemma load_checkpoint_returns_opened (ext : external) (strict : bool)
    (w w' : world) (r : load_result) (it : Z) (rel : bool) (name : string)
    (sd : blob) :
  opens_checkpoint w it rel name sd ->
  load_checkpoint ext strict w = Return r w' ->
  (topology w' = topology w /\ distributed w' = distributed w
   /\ files w' = files w /\ checkpoints w' = checkpoints w)
  /\ run_args w'
     = match sd !! "args" with
       | Some ca =>
           set_extra "consumed_valid_samples"
             (getattr_counter ca "consumed_valid_samples")
             (set_extra "consumed_train_samples"
                (getattr_counter ca "consumed_train_samples") (run_args w))
       | None => run_args w
       end
  /\ sd !! "model" = Some (model (objects w'))
  /\ (if negb rel && negb (finetune (run_args w))
         && negb (no_load_optim (run_args w))
      then optimizer (objects w')
           = match optimizer (objects w) with
             | Some _ => sd !! "optimizer"
             | None => None
             end
           /\ lr_scheduler (objects w')
              = match lr_scheduler (objects w) with
                | Some _ => sd !! "lr_scheduler"
                | None => None
                end
      else optimizer (objects w') = optimizer (objects w)
           /\ lr_scheduler (objects w') = lr_scheduler (objects w))
  /\ (negb rel && negb (finetune (run_args w))
      && negb (no_load_rng (run_args w)) = false ->
      rng w' = rng w).
Proof.
  intros Hopen Hrun.
  destruct (load_checkpoint_returns_state _ _ _ _ _ (proj1 Hopen) Hrun)
    as (it' & l & Hopen' & _ & Hframe & Hargs & Hmodel & Hopt & Hrng).
  destruct (opens_checkpoint_unique _ _ _ _ _ _ _ _ _ Hopen' Hopen)
    as (_ & Hrel & _ & Hsd).
  rewrite Hrel, Hsd in *. done.
Qed.

(** X16. The only arguments a load changes are the two sample counters:
    when [load_checkpoint] returns for a blob with an argument snapshot,
    [args.consumed_train_samples] and [args.consumed_valid_samples] hold
    the values of the snapshot, 0 for a counter the snapshot lacks;
    without a snapshot the arguments are as before; and in both cases
    every other attribute of [args] reads as before, whatever the
    snapshot holds for it. *)
Theorem load_checkpoint_updates_counters
    (ext : external) (strict : bool) (w w' : world) (r : load_result)
    (it : Z) (rel : bool) (name : string) (sd : blob) :
  opens_checkpoint w it rel name sd ->
  load_checkpoint ext strict w = Return r w' ->
  (forall ca : pyval,
      sd !! "args" = Some ca ->
      getattr (run_args w') "consumed_train_samples"
      = Some (PyInt (getattr_counter ca "consumed_train_samples"))
      /\ getattr (run_args w') "consumed_valid_samples"
         = Some (PyInt (getattr_counter ca "consumed_valid_samples")))
  /\ (sd !! "args" = None -> run_args w' = run_args w)
  /\ (forall key : string,
        key <> "consumed_train_samples" ->
        key <> "consumed_valid_samples" ->
        getattr (run_args w') key = getattr (run_args w) key).
Proof.
  intros Hopen Hrun.
  destruct (load_checkpoint_returns_opened _ _ _ _ _ _ _ _ _ Hopen Hrun)
    as (_ & Hargs & _).
  split_and!.
  - intros ca Hca. rewrite Hca in Hargs. rewrite Hargs.
    unfold getattr, set_extra. simpl. split.
    + rewrite lookup_insert_ne by done. by rewrite lookup_insert_eq.
    + by rewrite lookup_insert_eq.
  - intros Hnone. by rewrite Hnone in Hargs.
  - intros key Htrain Hvalid. rewrite Hargs.
    destruct (sd !! "args") as [ca|]; [|done].
    unfold getattr, set_extra. simpl.
    by rewrite !lookup_insert_ne by done.
Qed.

Lemma load_checkpoint_updates_counters_witness :
  exists (r : load_result) (w' : world),
    load_checkpoint example_external true saved_midway = Return r w'
    /\ getattr (run_args saved_midway) "consumed_train_samples" = None
    /\ getattr (run_args w') "consumed_train_samples" = Some (PyInt 6400)
    /\ getattr (run_args w') "consumed_valid_samples" = Some (PyInt 0)
    /\ getattr (run_args w') "hidden_size" = Some (PyInt 768).
Proof.
  assert (raised (load_checkpoint example_external true saved_midway) = None)
    as Hret by (vm_compute; reflexivity).
  destruct (load_checkpoint example_external true saved_midway)
    as [r w'|e w'] eqn:Hrun; [|discriminate Hret].
  assert (match checkpoints saved_midway
                  !! "/data/run/ckpt/iter_0000100/mp_rank_01/model_optim_rng.pt"
          with
          | Some sd =>
              match sd !! "args" with
              | Some ca =>
                  getattr_counter ca "consumed_train_samples" = 6400
                  /\ getattr_counter ca "consumed_valid_samples" = 0
              | None => False
              end
          | None => False
          end) as Hfacts by (vm_compute; split; reflexivity).
  destruct (checkpoints saved_midway
              !! "/data/run/ckpt/iter_0000100/mp_rank_01/model_optim_rng.pt")
    as [sd|] eqn:Hblob; [|destruct Hfacts].
  destruct (sd !! "args") as [ca|] eqn:Hca; [|destruct Hfacts].
  destruct Hfacts as [Htrain Hvalid].
  destruct (load_checkpoint_updates_counters example_external true
              saved_midway w' r 100 false
              "/data/run/ckpt/iter_0000100/mp_rank_01/model_optim_rng.pt" sd
              (example_opens_checkpoint saved_midway sd eq_refl eq_refl
                 eq_refl eq_refl Hblob) Hrun)
    as (Hsnapshot & _ & Hother).
  destruct (Hsnapshot ca Hca) as [Ht Hv].
  exists r, w'. split; [reflexivity|]. split; [reflexivity|].
  split; [by rewrite Ht, Htrain|]. split; [by rewrite Hv, Hvalid|].
  by rewrite Hother.
Defined.

(** X17. What a load leaves alone: when [load_checkpoint] returns, the
    tracker files and the checkpoint files are as before (loading writes
    nothing), and the model holds the blob's ['model'] entry in every
    mode.  For a release checkpoint, or with [args.finetune] or
    [args.no_load_optim] set, the optimizer and the scheduler are as
    before; for a release checkpoint, or with [args.finetune] or
    [args.no_load_rng] set, the five RNG sources are as before. *)
Theorem load_checkpoint_skipped_state
    (ext : external) (strict : bool) (w w' : world) (r : load_result)
    (it : Z) (rel : bool) (name : string) (sd : blob) :
  opens_checkpoint w it rel name sd ->
  load_checkpoint ext strict w = Return r w' ->
  files w' = files w
  /\ checkpoints w' = checkpoints w
  /\ sd !! "model" = Some (model (objects w'))
  /\ (rel = true \/ finetune (run_args w) = true
      \/ no_load_optim (run_args w) = true ->
      optimizer (objects w') = optimizer (objects w)
      /\ lr_scheduler (objects w') = lr_scheduler (objects w))
  /\ (rel = true \/ finetune (run_args w) = true
      \/ no_load_rng (run_args w) = true ->
      rng w' = rng w).
Proof.
  intros Hopen Hrun.
  destruct (load_checkpoint_returns_opened _ _ _ _ _ _ _ _ _ Hopen Hrun)
    as ((_ & _ & Hfiles & Hcp) & _ & Hmodel & Hopt & Hrng).
  split; [exact Hfiles|]. split; [exact Hcp|]. split; [exact Hmodel|].
  split.
  - intros Hflag.
    assert (negb rel && negb (finetune (run_args w))
            && negb (no_load_optim (run_args w)) = false) as Hskip.
    { destruct Hflag as [Hflag | [Hflag | Hflag]]; rewrite Hflag; simpl;
        by rewrite ?andb_false_r. }
    by rewrite Hskip in Hopt.
  - intros Hflag. apply Hrng.
    destruct Hflag as [Hflag | [Hflag | Hflag]]; rewrite Hflag; simpl;
      by rewrite ?andb_false_r.
Qed.

Lemma load_checkpoint_skipped_state_witness :
  finetune (run_args resumed_for_finetune) = true
  /\ exists (r : load_result) (w' : world),
       load_checkpoint example_external true resumed_for_finetune
       = Return r w'
       /\ files w' = files resumed_for_finetune
       /\ checkpoints w' = checkpoints resumed_for_finetune
       /\ optimizer (objects w') = optimizer (objects resumed_for_finetune)
       /\ rng w' = rng resumed_for_finetune.
Proof.
  split; [reflexivity|].
  assert (raised (load_checkpoint example_external true resumed_for_finetune)
          = None) as Hret by (vm_compute; reflexivity).
  destruct (load_checkpoint example_external true resumed_for_finetune)
    as [r w'|e w'] eqn:Hrun; [|discriminate Hret].
  assert (match checkpoints resumed_for_finetune
                  !! "/data/run/ckpt/iter_0000100/mp_rank_01/model_optim_rng.pt"
          with Some _ => true | None => false end = true)
    as Hfile by (vm_compute; reflexivity).
  destruct (checkpoints resumed_for_finetune
              !! "/data/run/ckpt/iter_0000100/mp_rank_01/model_optim_rng.pt")
    as [sd|] eqn:Hblob; [|discriminate Hfile].
  destruct (load_checkpoint_skipped_state example_external true
              resumed_for_finetune w' r 100 false
              "/data/run/ckpt/iter_0000100/mp_rank_01/model_optim_rng.pt" sd
              (example_opens_checkpoint resumed_for_finetune sd eq_refl
                 eq_refl eq_refl eq_refl Hblob) Hrun)
    as (Hfiles & Hcp & _ & Hopt & Hrng).
  exists r, w'. split; [reflexivity|]. split; [exact Hfiles|].
  split; [exact Hcp|]. split.
  - apply Hopt. right. by left.
  - apply Hrng. right. by left.
Defined.

(** X18. What a full load restores besides the model: when
    [load_checkpoint] returns for a checkpoint that is not a release, in
    a run with neither [args.finetune] nor [args.no_load_optim], an
    optimizer that was passed in holds the blob's ['optimizer'] entry
    and a scheduler that was passed in holds the blob's ['lr_scheduler']
    entry, so these entries exist; where [None] was passed for one of
    them, the blob's entry for it is ignored and it stays [None]. *)
Theorem load_checkpoint_restores_optimizer
    (ext : external) (strict : bool) (w w' : world) (r : load_result)
    (it : Z) (name : string) (sd : blob) :
  opens_checkpoint w it false name sd ->
  finetune (run_args w) = false ->
  no_load_optim (run_args w) = false ->
  load_checkpoint ext strict w = Return r w' ->
  (is_Some (optimizer (objects w)) ->
   is_Some (sd !! "optimizer")
   /\ optimizer (objects w') = sd !! "optimizer")
  /\ (optimizer (objects w) = None -> optimizer (objects w') = None)
  /\ (is_Some (lr_scheduler (objects w)) ->
      is_Some (sd !! "lr_scheduler")
      /\ lr_scheduler (objects w') = sd !! "lr_scheduler")
  /\ (lr_scheduler (objects w) = None -> lr_scheduler (objects w') = None).
Proof.
  intros Hopen Hft Hno Hrun.
  destruct (load_checkpoint_returns_opened _ _ _ _ _ _ _ _ _ Hopen Hrun)
    as (_ & _ & _ & Hopt & _).
  rewrite Hft, Hno in Hopt. simpl in Hopt. destruct Hopt as [Ho Hl].
  pose proof (load_checkpoint_with_tracker ext strict w (proj1 Hopen))
    as Hsteps.
  split_and!.
  - intros [o Hsome]. rewrite Hsome in Ho. split; [|exact Ho].
    destruct (sd !! "optimizer") as [v|] eqn:Hkey; [by eexists|].
    exfalso. rewrite Hsteps in Hrun.
    apply bind_Return_inv in Hrun as (l & w1 & Hpre & Hrest).
    destruct (load_upto_model_returns _ _ _ _ _ _ _ Hpre) as [Hsame _].
    destruct (load_upto_model_inv _ _ _ _ _ _ _ Hpre)
      as (it' & w0 & v & Hmeta & Hname & Hblob & _).
    destruct (read_metadata_returns _ _ _ _ Hmeta) as [lines0 ->].
    assert (opens_checkpoint w it' (l_release l) (l_checkpoint_name l)
              (l_state_dict l)) as Hopen'
      by (split_and!; [apply Hopen|by exists lines0|exact Hname|exact Hblob]).
    destruct (opens_checkpoint_unique _ _ _ _ _ _ _ _ _ Hopen' Hopen)
      as (_ & Hrel & _ & Hsd).
    unfold same_setup in Hsame.
    destruct Hsame as (_ & _ & _ & _ & _ & _ & Hft1 & Hno1 & _ & Hopt1 & _).
    apply bind_Return_inv in Hrest as ([] & w2 & Hoptstep & _).
    rewrite (load_optimizer_missing_key ext l w1 o) in Hoptstep;
      [done|congruence|congruence|congruence|congruence|congruence].
  - intros Hnone. by rewrite Hnone in Ho.
  - intros [s Hsome]. rewrite Hsome in Hl. split; [|exact Hl].
    rewrite <- Hl.
    destruct (lr_scheduler (objects w')) as [v|] eqn:Hkey; [by eexists|].
    exfalso. rewrite Hsteps in Hrun.
    apply bind_Return_inv in Hrun as (l & w1 & Hpre & Hrest).
    apply bind_Return_inv in Hrest as ([] & w2 & Hoptstep & _).
    destruct (load_upto_model_returns _ _ _ _ _ _ _ Hpre) as [Hsame _].
    unfold same_setup in Hsame.
    destruct Hsame as (_ & _ & _ & _ & _ & _ & Hft1 & Hno1 & _ & _ & Hlr1 & _).
    destruct (load_upto_model_inv _ _ _ _ _ _ _ Hpre)
      as (it' & w0 & v & Hmeta & Hname & Hblob & _).
    destruct (read_metadata_returns _ _ _ _ Hmeta) as [lines0 ->].
    assert (opens_checkpoint w it' (l_release l) (l_checkpoint_name l)
              (l_state_dict l)) as Hopen'
      by (split_and!; [apply Hopen|by exists lines0|exact Hname|exact Hblob]).
    destruct (opens_checkpoint_unique _ _ _ _ _ _ _ _ _ Hopen' Hopen)
      as (_ & Hrel & _ & Hsd).
    revert Hoptstep. unfold load_optimizer. step.
    rewrite Hrel, Hft1, Hno1, Hft, Hno. simpl.
    unfold except_KeyError, restore_optimizer. intros Hoptstep.
    destruct ((o ← gets objects;
               match optimizer o with
               | Some _ =>
                   v0 ← getitem (l_state_dict l) "optimizer";
                   set_state ext "optimizer" v0 store_optimizer
               | None => mret tt
               end;;
               match lr_scheduler o with
               | Some _ =>
                   v0 ← getitem (l_state_dict l) "lr_scheduler";
                   set_state ext "lr_scheduler" v0 store_lr_scheduler
               | None => mret tt
               end) w1) as [[] wr|e wr] eqn:Hbody.
    + apply bind_Return_inv in Hbody as (o & wb & [= <- <-] & Hbody).
      apply bind_Return_inv in Hbody as ([] & wc & _ & Hlrstep).
      rewrite Hlr1, Hsome in Hlrstep.
      apply bind_Return_inv in Hlrstep
        as (v0 & wd & [_ Hk]%getitem_returns & _).
      rewrite Hsd, <- Hl in Hk. discriminate Hk.
    + destruct e; try done. revert Hoptstep. step. done.
  - intros Hnone. by rewrite Hnone in Hl.
Qed.

Lemma load_checkpoint_restores_optimizer_witness :
  optimizer (objects fresh_resumed_world) = Some (PyState 20)
  /\ lr_scheduler (objects fresh_resumed_world) = None
  /\ exists (r : load_result) (w' : world),
       load_checkpoint example_external true fresh_resumed_world
       = Return r w'
       /\ optimizer (objects w') = Some (PyState 2)
       /\ lr_scheduler (objects w') = None.
Proof.
  split; [reflexivity|]. split; [reflexivity|].
  assert (raised (load_checkpoint example_external true fresh_resumed_world)
          = None) as Hret by (vm_compute; reflexivity).
  destruct (load_checkpoint example_external true fresh_resumed_world)
    as [r w'|e w'] eqn:Hrun; [|discriminate Hret].
  assert (match checkpoints fresh_resumed_world
                  !! "/data/run/ckpt/iter_0000100/mp_rank_01/model_optim_rng.pt"
          with
          | Some sd => sd !! "optimizer" = Some (PyState 2)
          | None => False
          end) as Hfacts by (vm_compute; reflexivity).
  destruct (checkpoints fresh_resumed_world
              !! "/data/run/ckpt/iter_0000100/mp_rank_01/model_optim_rng.pt")
    as [sd|] eqn:Hblob; [|destruct Hfacts].
  destruct (load_checkpoint_restores_optimizer example_external true
              fresh_resumed_world w' r 100
              "/data/run/ckpt/iter_0000100/mp_rank_01/model_optim_rng.pt" sd
              (example_opens_checkpoint fresh_resumed_world sd eq_refl
                 eq_refl eq_refl eq_refl Hblob) eq_refl eq_refl Hrun)
    as (Hopt & _ & _ & Hlr).
  exists r, w'. split; [reflexivity|]. split.
  - destruct Hopt as [_ Ho]; [by eexists|]. by rewrite Ho.
  - by apply Hlr.
Defined.

(** X19. Loading needs an initialized process group: [read_metadata]
    reduces the iteration over the ranks unconditionally, and
    [torch.distributed.all_reduce] raises outside a process group.  So
    when the tracker file exists, [load_checkpoint] returns only in a
    process of an initialized group; in a process without one it returns
    only through the exit for a missing tracker file, and the test
    [torch.distributed.is_initialized()] before the barrier at its end
    never fails. *)
Theorem load_checkpoint_needs_process_group
    (ext : external) (strict : bool) (w w' : world) (r : load_result) :
  is_Some (files w !! get_checkpoint_tracker_filename
                        (resume_from_checkpoint (run_args w))) ->
  load_checkpoint ext strict w = Return r w' ->
  is_Some (distributed w) /\ is_Some (distributed w').
Proof.
  intros Hf Hrun.
  destruct (load_checkpoint_returns_state _ _ _ _ _ Hf Hrun)
    as (it & l & (_ & [lines Hmeta] & _) & _ & (_ & Hd & _) & _).
  rewrite Hd. split; by eapply read_metadata_needs_group.
Qed.

Lemma load_checkpoint_needs_process_group_witness :
  is_Some (files saved_world
             !! "/data/run/ckpt/latest_checkpointed_iteration.txt")
  /\ exists (r : load_result) (w' : world),
       load_checkpoint example_external true saved_world = Return r w'
       /\ is_Some (distributed saved_world).
Proof.
  assert (is_Some (files saved_world
                     !! "/data/run/ckpt/latest_checkpointed_iteration.txt"))
    as Hf by (vm_compute; eexists; reflexivity).
  split; [exact Hf|].
  assert (raised (load_checkpoint example_external true saved_world) = None)
    as Hret by (vm_compute; reflexivity).
  destruct (load_checkpoint example_external true saved_world)
    as [r w'|e w'] eqn:Hrun; [|discriminate Hret].
  exists r, w'. split; [reflexivity|].
  exact (proj1 (load_checkpoint_needs_process_group example_external true
                  saved_world w' r Hf Hrun)).
Defined.

(** ** Loading: when it returns *)

Lemma load_args_run (sd : blob) (w : world) :
  load_args sd w
  = Return tt
      match sd !! "args" with
      | Some ca =>
          set_run_args
            (set_extra "consumed_valid_samples"
               (getattr_counter ca "consumed_valid_samples")
               (set_extra "consumed_train_samples"
                  (getattr_counter ca "consumed_train_samples") (run_args w)))
            w
      | None =>
          logged (rank0_lines w "could not find arguments in the checkpoint ...")
            w
      end.
Proof.
  unfold load_args. destruct (sd !! "args"); [reflexivity|].
  apply print_rank_0_run.
Qed.

Lemma load_model_run (ext : external) (sd : blob) (strict : bool)
    (v : pyval) (w : world) :
  sd !! "model" = Some v ->
  model_load_error ext v strict = None ->
  load_model ext sd strict w
  = Return tt
      (logged (rank0_lines w (" checkpoint version " +:+
                              py_format ext (_CHECKPOINT_VERSION w)))
         (store_model v w)).
Proof.
  intros Hkey Hload. unfold load_model.
  erewrite bind_Return by (apply getitem_run; exact Hkey).
  unfold mbind at 1, M_bind at 1. rewrite Hload.
  step. rewrite print_rank_0_run. reflexivity.
Qed.

Lemma load_iteration_run (sd : blob) (release : bool)
    (checkpoint_name : string) (w : world) (iteration : pyval) :
  (if finetune (run_args w) || release then Some (PyInt 0)
   else match sd !! "iteration" with
        | Some v => Some v
        | None => sd !! "total_iters"
        end) = Some iteration ->
  load_iteration sd release checkpoint_name w = Return iteration w.
Proof.
  unfold load_iteration. step.
  destruct (finetune (run_args w) || release); [by intros [= <-]|].
  destruct (sd !! "iteration"); [by intros [= <-]|].
  by intros ->.
Qed.

Lemma load_upto_model_succeeds (ext : external) (strict : bool) (w : world)
    (it : Z) (rel : bool) (name : string) (sd : blob)
    (epoch iteration mv : pyval) :
  opens_checkpoint w it rel name sd ->
  version_accepted (_CHECKPOINT_VERSION w)
    (default (PyInt 0) (sd !! "checkpoint_version")) = true ->
  sd !! "epoch" = Some epoch ->
  (if finetune (run_args w) || rel then Some (PyInt 0)
   else match sd !! "iteration" with
        | Some v => Some v
        | None => sd !! "total_iters"
        end) = Some iteration ->
  sd !! "model" = Some mv ->
  model_load_error ext mv strict = None ->
  exists w1 : world,
    load_upto_model ext (resume_from_checkpoint (run_args w))
      (get_checkpoint_tracker_filename (resume_from_checkpoint (run_args w)))
      strict w
    = Return {| l_state_dict := sd; l_release := rel;
                l_checkpoint_name := name;
                l_iteration := iteration; l_epoch := epoch |} w1.
Proof.
  intros Hopen Hver Hepoch Hit Hmodel Hload.
  destruct (opens_checkpoint_blob ext strict _ _ _ _ _ Hopen)
    as [lines ->].
  erewrite bind_Return by (apply set_checkpoint_version_run; exact Hver).
  erewrite bind_Return by (apply getitem_run; exact Hepoch).
  erewrite bind_Return by (apply load_iteration_run; exact Hit).
  erewrite bind_Return by apply load_args_run.
  erewrite bind_Return by (by apply load_model_run).
  by eexists.
Qed.









(** X22. The optimizer step is not all-or-nothing: for a checkpoint that
    is not a release, in a run with neither [args.finetune] nor
    [args.no_load_optim] that passes in an optimizer and a scheduler,
    a blob that loads up to the model and has an ['optimizer'] entry the
    optimizer accepts but no ['lr_scheduler'] entry makes
    [load_checkpoint] end in [sys.exit()]; at that point the model and
    the optimizer already hold the states of the blob, while the
    scheduler and the RNG sources are as before. *)
Theorem load_checkpoint_without_scheduler
    (ext : external) (strict : bool) (w : world)
    (it : Z) (name : string) (sd : blob)
    (epoch iteration mv o s v : pyval) :
  opens_checkpoint w it false name sd ->
  version_accepted (_CHECKPOINT_VERSION w)
    (default (PyInt 0) (sd !! "checkpoint_version")) = true ->
  finetune (run_args w) = false ->
  no_load_optim (run_args w) = false ->
  sd !! "epoch" = Some epoch ->
  match sd !! "iteration" with
  | Some i => Some i
  | None => sd !! "total_iters"
  end = Some iteration ->
  sd !! "model" = Some mv ->
  model_load_error ext mv strict = None ->
  optimizer (objects w) = Some o ->
  lr_scheduler (objects w) = Some s ->
  sd !! "optimizer" = Some v ->
  set_state_error ext "optimizer" v = None ->
  sd !! "lr_scheduler" = None ->
  exists w' : world,
    load_checkpoint ext strict w = Raise SystemExit w'
    /\ model (objects w') = mv
    /\ optimizer (objects w') = Some v
    /\ lr_scheduler (objects w') = Some s
    /\ rng w' = rng w.
Proof.
  intros Hopen Hver Hft Hno Hepoch Hit Hmodel Hload Ho Hs Hkey Hset Hmissing.
  destruct (load_upto_model_succeeds ext strict w it false name sd epoch
              iteration mv Hopen Hver Hepoch) as [w1 Hpre];
    [by rewrite Hft|exact Hmodel|exact Hload|].
  destruct (load_upto_model_returns _ _ _ _ _ _ _ Hpre) as [Hsame _].
  unfold same_setup in Hsame.
  destruct Hsame as (_ & _ & _ & _ & _ & _ & Hft1 & Hno1 & _ & Ho1 & Hs1
                     & _).
  destruct (load_upto_model_inv _ _ _ _ _ _ _ Hpre)
    as (_ & _ & mv' & _ & _ & _ & _ & _ & _ & Hmodel' & Hobj & _ & Hrng).
  simpl in Hmodel'. rewrite Hmodel in Hmodel'. injection Hmodel' as <-.
  eexists. split.
  - rewrite load_checkpoint_with_tracker by apply Hopen.
    erewrite bind_Return by exact Hpre. cbv beta.
    apply bind_Raise. unfold load_optimizer. step. simpl.
    rewrite Hft1, Hno1, Hft, Hno. simpl.
    unfold except_KeyError, restore_optimizer.
    erewrite bind_Return by reflexivity. cbv beta.
    rewrite Ho1, Ho, Hs1, Hs.
    erewrite (bind_Return _ _ w1 (store_optimizer v w1) tt); cycle 1.
    { erewrite bind_Return by (apply getitem_run; exact Hkey).
      by apply set_state_accepted. }
    erewrite bind_Raise by (apply getitem_missing; exact Hmissing).
    step. reflexivity.
  - simpl. rewrite Hobj, Hs. by repeat split.
Qed.

Lemma load_checkpoint_without_scheduler_witness :
  exists w' : world,
    load_checkpoint example_external true
      (resumed_with_blob (delete "lr_scheduler" legacy_blob))
    = Raise SystemExit w'
    /\ optimizer (objects
                    (resumed_with_blob (delete "lr_scheduler" legacy_blob)))
       = Some (PyState 2)
    /\ optimizer (objects w') = Some (PyState 2)
    /\ lr_scheduler (objects w') = Some (PyState 3).
Proof.
  destruct (load_checkpoint_without_scheduler example_external true
              (resumed_with_blob (delete "lr_scheduler" legacy_blob))
              100 "/data/run/ckpt/iter_0000100/mp_rank_01/model_optim_rng.pt"
              (delete "lr_scheduler" legacy_blob)
              (PyInt 2) (PyInt 100) (PyState 1) (PyState 2) (PyState 3)
              (PyState 2))
    as (w' & Hexit & _ & Hopt & Hlr & _).
  - apply example_opens_checkpoint; reflexivity.
  - reflexivity.
  - reflexivity.
  - reflexivity.
  - reflexivity.
  - reflexivity.
  - reflexivity.
  - reflexivity.
  - reflexivity.
  - reflexivity.
  - reflexivity.
  - reflexivity.
  - reflexivity.
  - exists w'. split; [exact Hexit|]. split; [reflexivity|].
    split; [exact Hopt|exact Hlr].
Defined.
